(** * ACARS parser: the Label 15 (FST) and Label 80 decoders

    A shallow embedding of [internal/parsers/fst/parser.go],
    [internal/parsers/fst/grok.go] and the Label 80 decoder
    ([package label80]), with the properties their specification states
    and further properties read off the code.

    Conventions of the embedding:
    - Go's [int] is the 64-bit two's-complement integer of the usual
      targets: a [Z] kept in range by [Go.wrap];
    - Go's [float64] is Rocq's primitive [float] (IEEE 754 binary64,
      round to nearest even), so every float below is bit-for-bit the
      value the Go program computes;
    - Go's [string] is a byte string: Rocq's [string]; where the code
      reads it as text ([strings.TrimSpace], [strings.Fields]) the
      bytes are UTF-8 and white space is [unicode.IsSpace];
    - a call that returns [(v, err)] is an [option]. *)

From Stdlib Require Import ZArith QArith Qround Bool List Lia.
From Stdlib Require Import Strings.Ascii Strings.String.
From Stdlib Require Import Floats.
Import ListNotations.

Local Open Scope string_scope.
Local Open Scope Z_scope.

(** Decimal float literals denote the nearest binary64 value. *)
#[local] Set Warnings "-inexact-float".

(* ================================================================== *)
(** ** The parts of Go's runtime and standard library the code uses   *)
(* ================================================================== *)

Module Go.

(** *** [int] *)

Definition MaxInt : Z := 2 ^ 63 - 1.
Definition MinInt : Z := - 2 ^ 63.

(** Two's-complement wrap-around of an exact result into [int]. *)
Definition wrap (z : Z) : Z := (z + 2 ^ 63) mod 2 ^ 64 - 2 ^ 63.

Definition inRange (z : Z) : bool := (MinInt <=? z) && (z <=? MaxInt).

Definition add (x y : Z) : Z := wrap (x + y).
Definition mul (x y : Z) : Z := wrap (x * y).
Definition neg (x : Z) : Z := wrap (- x).
(** [/] truncates toward zero, [%] takes the sign of the dividend. *)
Definition quo (x y : Z) : Z := wrap (Z.quot x y).
Definition rem (x y : Z) : Z := Z.rem x y.

(** *** [float64] *)

(** The conversion [float64(n)] of an [int]. *)
Definition float64 (z : Z) : float :=
  if z =? MinInt then (-0x1p63)%float
  else if z <? 0 then PrimFloat.opp (PrimFloat.of_uint63 (Uint63.of_Z (- z)))
  else PrimFloat.of_uint63 (Uint63.of_Z z).

(** *** strings *)

Definition len (s : string) : Z := Z.of_nat (String.length s).

(** The slice expression [s[lo:hi]]. *)
Definition slice (s : string) (lo hi : nat) : string :=
  substring lo (hi - lo) s.

(** [s[lo:]] *)
Definition sliceFrom (s : string) (lo : nat) : string :=
  substring lo (String.length s - lo) s.

Definition byte (c : ascii) : Z := Z.of_N (N_of_ascii c).

(** [strconv.Atoi]: an optional sign, then one or more decimal digits,
    and a value that fits [int]. The digit loop is the library's:
    [ch -= '0'; if ch > 9 { error }; n = n*10 + int(ch)]. *)
Fixpoint digits (n : Z) (s : string) : option Z :=
  match s with
  | EmptyString => Some n
  | String ch s' =>
      let d := (byte ch - 48) mod 256 in
      if 9 <? d then None else digits (n * 10 + d) s'
  end.

Definition Atoi (s : string) : option Z :=
  match s with
  | EmptyString => None
  | String c0 rest =>
      let neg := Ascii.eqb c0 "-" in
      let body := if neg || Ascii.eqb c0 "+" then rest else s in
      match body with
      | EmptyString => None
      | _ =>
          match digits 0 body with
          | None => None
          | Some n =>
              let v := if neg then - n else n in
              if inRange v then Some v else None
          end
      end
  end.

(** [unicode.IsSpace] of a rune, given by the bytes of its UTF-8
    encoding: tab, line feed, vertical tab, form feed, carriage return
    and space; U+0085 and U+00A0 (C2 85, C2 A0); U+1680 (E1 9A 80);
    U+2000 to U+200A, U+2028, U+2029 and U+202F (E2 80 80 to 8A, A8, A9
    and AF); U+205F (E2 81 9F); U+3000 (E3 80 80). *)
Definition isSpace (rune : list Z) : bool :=
  match rune with
  | [b0] => ((9 <=? b0) && (b0 <=? 13)) || (b0 =? 32)
  | [b0; b1] => (b0 =? 194) && ((b1 =? 133) || (b1 =? 160))
  | [b0; b1; b2] =>
      ((b0 =? 225) && (b1 =? 154) && (b2 =? 128))
      || ((b0 =? 226) && (b1 =? 128)
          && (((128 <=? b2) && (b2 <=? 138))
              || (b2 =? 168) || (b2 =? 169) || (b2 =? 175)))
      || ((b0 =? 226) && (b1 =? 129) && (b2 =? 159))
      || ((b0 =? 227) && (b1 =? 128) && (b2 =? 128))
  | _ => false
  end.

(** [strings.TrimLeftFunc(s, unicode.IsSpace)]: the runes are decoded
    from the start. The encoding of a white-space rune starts with a
    byte that is not a continuation byte and is well formed, so the
    decoder reads a white-space rune at a position exactly when the
    bytes there are such an encoding. *)
Fixpoint trimLeft (s : string) : string :=
  match s with
  | EmptyString => EmptyString
  | String c0 s1 =>
      if isSpace [byte c0] then trimLeft s1
      else
        match s1 with
        | EmptyString => s
        | String c1 s2 =>
            if isSpace [byte c0; byte c1] then trimLeft s2
            else
              match s2 with
              | EmptyString => s
              | String c2 s3 =>
                  if isSpace [byte c0; byte c1; byte c2] then trimLeft s3
                  else s
              end
        end
  end.

(** [strings.TrimRightFunc(s, unicode.IsSpace)] on the bytes of [s] in
    reverse order: [utf8.DecodeLastRuneInString] reads a white-space
    rune at the end exactly when the last bytes are its encoding. *)
Fixpoint trimEnd (r : list ascii) : list ascii :=
  match r with
  | [] => []
  | c0 :: r1 =>
      if isSpace [byte c0] then trimEnd r1
      else
        match r1 with
        | [] => r
        | c1 :: r2 =>
            if isSpace [byte c1; byte c0] then trimEnd r2
            else
              match r2 with
              | [] => r
              | c2 :: r3 =>
                  if isSpace [byte c2; byte c1; byte c0] then trimEnd r3
                  else r
              end
        end
  end.

Definition trimRight (s : string) : string :=
  string_of_list_ascii (rev (trimEnd (rev (list_ascii_of_string s)))).

(** [strings.TrimSpace]: the white-space runes at both ends removed. *)
Definition TrimSpace (s : string) : string := trimRight (trimLeft s).

(** [strings.Fields]: the maximal runs of bytes between white-space
    runes, in order. [cur] is the field being read, reversed. *)
Definition flush (cur : list ascii) (acc : list string) : list string :=
  match cur with
  | [] => acc
  | _ => string_of_list_ascii (rev cur) :: acc
  end.

Fixpoint fieldsAux (s : string) (cur : list ascii) : list string :=
  match s with
  | EmptyString => flush cur []
  | String c0 s1 =>
      if isSpace [byte c0] then flush cur (fieldsAux s1 [])
      else
        match s1 with
        | EmptyString => fieldsAux s1 (c0 :: cur)
        | String c1 s2 =>
            if isSpace [byte c0; byte c1] then flush cur (fieldsAux s2 [])
            else
              match s2 with
              | EmptyString => fieldsAux s1 (c0 :: cur)
              | String c2 s3 =>
                  if isSpace [byte c0; byte c1; byte c2]
                  then flush cur (fieldsAux s3 [])
                  else fieldsAux s1 (c0 :: cur)
              end
        end
  end.

Definition Fields (s : string) : list string := fieldsAux s [].

(** [strings.Index]: the first position of [sub] in [s], [-1] if none. *)
Definition Index (s sub : string) : Z :=
  match String.index 0 sub s with
  | Some i => Z.of_nat i
  | None => -1
  end.

Definition Contains (s sub : string) : bool := 0 <=? Index s sub.

Definition HasPrefix (s p : string) : bool := String.prefix p s.

Definition TrimPrefix (s p : string) : string :=
  if HasPrefix s p then sliceFrom s (String.length p) else s.

End Go.

(* ================================================================== *)
(** ** Messages and grok matches                                      *)
(* ================================================================== *)

Module Acars.

(** [acars.Message], as far as the decoders read it. [ID] is a
    [FlexInt64], an [int64]. *)
Record Message : Type := mkMessage {
  ID : Z;
  Timestamp : string;
  Label : string;
  Text : string;
  Tail : string
}.

End Acars.

Module Patterns.

(** [patterns.Match]: the name of the format that matched and its
    captures. A Go map read at an absent key gives the empty string. *)
Record Match : Type := mkMatch {
  FormatName : string;
  Captures : list (string * string)
}.

Fixpoint lookup (kvs : list (string * string)) (k : string) : string :=
  match kvs with
  | [] => EmptyString
  | (k', v) :: kvs' => if String.eqb k k' then v else lookup kvs' k
  end.

Definition capture (m : Match) (k : string) : string := lookup (Captures m) k.

(** What a decoder holds once [getCompiler] has succeeded: the two scans
    of [patterns.Compiler]. *)
Record Compiler : Type := mkCompiler {
  Parse : string -> option Match;
  ParseAll : string -> list Match
}.

(** Modelled from the spec: the grok template language of
    [package patterns], which is not among the sources. A template is a
    sequence of pieces, each optionally a named capture [(?P<name>...)]:
    literal text, [\d{n}], a [{NAME}] placeholder of the base library,
    and a closing [.+]. These are the pieces the FST formats are written
    with. *)
Inductive piece : Type :=
| Lit (s : string)
| Digits (n : nat)
| Base (name : string)
| DotPlus.

Record Format : Type := mkFormat {
  Name : string;
  Pattern : list (option string * piece);
  Fields : list string
}.

Definition isDigit (c : ascii) : bool :=
  let b := Go.byte c in (48 <=? b) && (b <=? 57).

Definition isUpper (c : ascii) : bool :=
  let b := Go.byte c in (65 <=? b) && (b <=? 90).

Fixpoint all (p : ascii -> bool) (s : string) : bool :=
  match s with
  | EmptyString => true
  | String c s' => p c && all p s'
  end.

(** Modelled from the spec: the base library. [ICAO] is a four-letter
    airport identifier, [LAT_DIR] and [LON_DIR] the single characters
    [N|S] and [E|W]. An entry is a character class and a width. *)
Definition basePattern (name : string) : option ((ascii -> bool) * nat) :=
  if String.eqb name "ICAO" then Some (isUpper, 4%nat)
  else if String.eqb name "LAT_DIR"
  then Some (fun c => Ascii.eqb c "N" || Ascii.eqb c "S", 1%nat)
  else if String.eqb name "LON_DIR"
  then Some (fun c => Ascii.eqb c "E" || Ascii.eqb c "W", 1%nat)
  else None.

(** A compiled piece: what it consumes at the head of the text. *)
Inductive matcher : Type :=
| MLit (s : string)
| MClass (p : ascii -> bool) (n : nat)
| MDotPlus.

(** Modelled from the spec: compilation substitutes every placeholder
    and fails on one that is unresolved. *)
Definition compilePiece (q : piece) : option matcher :=
  match q with
  | Lit s => Some (MLit s)
  | Digits n => Some (MClass isDigit n)
  | Base name =>
      match basePattern name with
      | Some (p, n) => Some (MClass p n)
      | None => None
      end
  | DotPlus => Some MDotPlus
  end.

Fixpoint compilePattern (ps : list (option string * piece))
  : option (list (option string * matcher)) :=
  match ps with
  | [] => Some []
  | (cap, q) :: ps' =>
      match compilePiece q, compilePattern ps' with
      | Some m, Some ms => Some ((cap, m) :: ms)
      | _, _ => None
      end
  end.

(** The longest run of bytes other than line feed: what [.+] takes. *)
Fixpoint line (s : string) : string :=
  match s with
  | EmptyString => EmptyString
  | String c s' => if Ascii.eqb c "010" then EmptyString else String c (line s')
  end.

(** One compiled piece against the head of [s]: the text it takes and
    what is left. *)
Definition step (m : matcher) (s : string) : option (string * string) :=
  match m with
  | MLit l =>
      if String.prefix l s
      then Some (l, Go.sliceFrom s (String.length l)) else None
  | MClass p n =>
      let t := substring 0 n s in
      if Nat.eqb (String.length t) n && all p t
      then Some (t, Go.sliceFrom s n) else None
  | MDotPlus =>
      match line s with
      | EmptyString => None
      | t => Some (t, Go.sliceFrom s (String.length t))
      end
  end.

Fixpoint matchHere (ms : list (option string * matcher)) (s : string)
  : option (list (string * string)) :=
  match ms with
  | [] => Some []
  | (cap, m) :: ms' =>
      match step m s with
      | None => None
      | Some (t, s') =>
          match matchHere ms' s', cap with
          | None, _ => None
          | Some caps, Some name => Some ((name, t) :: caps)
          | Some caps, None => Some caps
          end
      end
  end.

(** Modelled from the spec: the compiler adds no anchors, so a format
    matches at the leftmost position where its pieces match. *)
Fixpoint search (ms : list (option string * matcher)) (s : string)
  : option (list (string * string)) :=
  match matchHere ms s with
  | Some caps => Some caps
  | None =>
      match s with
      | EmptyString => None
      | String _ s' => search ms s'
      end
  end.

Definition compiled : Type := string * list (option string * matcher).

Fixpoint compileFormats (fs : list Format) : option (list compiled) :=
  match fs with
  | [] => Some []
  | f :: fs' =>
      match compilePattern (Pattern f), compileFormats fs' with
      | Some ms, Some cs => Some ((Name f, ms) :: cs)
      | _, _ => None
      end
  end.

(** Modelled from the spec: [parse] tries each compiled format in
    declaration order and returns the first that matches. *)
Fixpoint parseFirst (cs : list compiled) (text : string) : option Match :=
  match cs with
  | [] => None
  | (name, ms) :: cs' =>
      match search ms text with
      | Some caps => Some (mkMatch name caps)
      | None => parseFirst cs' text
      end
  end.

(** Modelled from the spec: [parse_all] tries every format and returns
    every successful match, in declaration order. *)
Fixpoint parseEvery (cs : list compiled) (text : string) : list Match :=
  match cs with
  | [] => []
  | (name, ms) :: cs' =>
      match search ms text with
      | Some caps => mkMatch name caps :: parseEvery cs' text
      | None => parseEvery cs' text
      end
  end.

(** Modelled from the spec: [NewCompiler(formats, nil)] followed by
    [Compile()]; an empty format list and an unresolved placeholder are
    compile-time failures. *)
Definition NewCompiler (formats : list Format) : option Compiler :=
  match formats with
  | [] => None
  | _ =>
      match compileFormats formats with
      | Some cs => Some (mkCompiler (parseFirst cs) (parseEvery cs))
      | None => None
      end
  end.

End Patterns.

(* ================================================================== *)
(** ** Label 15: the FST decoder ([internal/parsers/fst/parser.go])   *)
(* ================================================================== *)

Module Fst.

Import Go.

Record Result : Type := mkResult {
  MsgID : Z;
  Timestamp : string;
  Tail : string;
  Sequence : string;
  Origin : string;
  Destination : string;
  Latitude : float;
  Longitude : float;
  FlightLevel : Z;
  GroundSpeed : Z;
  SpeedUnit : string;
  IAS : Z;
  TAS : Z;
  SpeedType : string;
  Temperature : Z;
  WindSpeed : Z;
  WindDirection : Z;
  RawData : string
}.

Definition Type_ (r : Result) : string := "fst".
Definition MessageID (r : Result) : Z := MsgID r.

(** Assignments to the fields [parseFields] and [Parse] write. *)
Definition setLatitude (v : float) (r : Result) : Result :=
  mkResult (MsgID r) (Timestamp r) (Tail r) (Sequence r) (Origin r)
    (Destination r) v (Longitude r) (FlightLevel r) (GroundSpeed r)
    (SpeedUnit r) (IAS r) (TAS r) (SpeedType r) (Temperature r)
    (WindSpeed r) (WindDirection r) (RawData r).
Definition setLongitude (v : float) (r : Result) : Result :=
  mkResult (MsgID r) (Timestamp r) (Tail r) (Sequence r) (Origin r)
    (Destination r) (Latitude r) v (FlightLevel r) (GroundSpeed r)
    (SpeedUnit r) (IAS r) (TAS r) (SpeedType r) (Temperature r)
    (WindSpeed r) (WindDirection r) (RawData r).
Definition setFlightLevel (v : Z) (r : Result) : Result :=
  mkResult (MsgID r) (Timestamp r) (Tail r) (Sequence r) (Origin r)
    (Destination r) (Latitude r) (Longitude r) v (GroundSpeed r)
    (SpeedUnit r) (IAS r) (TAS r) (SpeedType r) (Temperature r)
    (WindSpeed r) (WindDirection r) (RawData r).
Definition setGroundSpeed (v : Z) (r : Result) : Result :=
  mkResult (MsgID r) (Timestamp r) (Tail r) (Sequence r) (Origin r)
    (Destination r) (Latitude r) (Longitude r) (FlightLevel r) v
    (SpeedUnit r) (IAS r) (TAS r) (SpeedType r) (Temperature r)
    (WindSpeed r) (WindDirection r) (RawData r).
Definition setSpeedUnit (v : string) (r : Result) : Result :=
  mkResult (MsgID r) (Timestamp r) (Tail r) (Sequence r) (Origin r)
    (Destination r) (Latitude r) (Longitude r) (FlightLevel r) (GroundSpeed r)
    v (IAS r) (TAS r) (SpeedType r) (Temperature r)
    (WindSpeed r) (WindDirection r) (RawData r).
Definition setIAS (v : Z) (r : Result) : Result :=
  mkResult (MsgID r) (Timestamp r) (Tail r) (Sequence r) (Origin r)
    (Destination r) (Latitude r) (Longitude r) (FlightLevel r) (GroundSpeed r)
    (SpeedUnit r) v (TAS r) (SpeedType r) (Temperature r)
    (WindSpeed r) (WindDirection r) (RawData r).
Definition setSpeedType (v : string) (r : Result) : Result :=
  mkResult (MsgID r) (Timestamp r) (Tail r) (Sequence r) (Origin r)
    (Destination r) (Latitude r) (Longitude r) (FlightLevel r) (GroundSpeed r)
    (SpeedUnit r) (IAS r) (TAS r) v (Temperature r)
    (WindSpeed r) (WindDirection r) (RawData r).
Definition setTemperature (v : Z) (r : Result) : Result :=
  mkResult (MsgID r) (Timestamp r) (Tail r) (Sequence r) (Origin r)
    (Destination r) (Latitude r) (Longitude r) (FlightLevel r) (GroundSpeed r)
    (SpeedUnit r) (IAS r) (TAS r) (SpeedType r) v
    (WindSpeed r) (WindDirection r) (RawData r).
Definition setWindSpeed (v : Z) (r : Result) : Result :=
  mkResult (MsgID r) (Timestamp r) (Tail r) (Sequence r) (Origin r)
    (Destination r) (Latitude r) (Longitude r) (FlightLevel r) (GroundSpeed r)
    (SpeedUnit r) (IAS r) (TAS r) (SpeedType r) (Temperature r)
    v (WindDirection r) (RawData r).
Definition setWindDirection (v : Z) (r : Result) : Result :=
  mkResult (MsgID r) (Timestamp r) (Tail r) (Sequence r) (Origin r)
    (Destination r) (Latitude r) (Longitude r) (FlightLevel r) (GroundSpeed r)
    (SpeedUnit r) (IAS r) (TAS r) (SpeedType r) (Temperature r)
    (WindSpeed r) v (RawData r).
Definition setRawData (v : string) (r : Result) : Result :=
  mkResult (MsgID r) (Timestamp r) (Tail r) (Sequence r) (Origin r)
    (Destination r) (Latitude r) (Longitude r) (FlightLevel r) (GroundSpeed r)
    (SpeedUnit r) (IAS r) (TAS r) (SpeedType r) (Temperature r)
    (WindSpeed r) (WindDirection r) v.

(** *** [parseCoord] *)

(** A step of a function body: it returns, or goes on with its locals. *)
Inductive flow (A : Type) : Type :=
| Return (r : float)
| Continue (a : A).
Arguments Return {A} r.
Arguments Continue {A} a.

(** The tail every minutes format shares:
    [if min >= 60 { return 0 }; return float64(deg) + min/60.0]. *)
Definition degMin (deg : Z) (min : float) : float :=
  if (60 <=? min)%float then 0%float
  else (float64 deg + min / 60)%float.

(** [len(s) == 5]: DDMMD. *)
Definition parseCoord5 (s : string) : float :=
  match Atoi (slice s 0 2) with
  | None => 0%float
  | Some deg =>
      match Atoi (slice s 2 4) with
      | None => 0%float
      | Some minWhole =>
          match Atoi (slice s 4 5) with
          | None => 0%float
          | Some minTenths =>
              degMin deg (float64 minWhole + float64 minTenths / 10)%float
          end
      end
  end.

(** [len(s) == 6], first attempt: DDMMTT, or DD.DDDD when the minutes
    are 60 or more. The locals are [(deg, min)], both zero on entry. *)
Definition tryDDMMTT (s : string) : flow (Z * float) :=
  match Atoi (slice s 0 2), Atoi (slice s 2 4), Atoi (slice s 4 6) with
  | Some deg2, Some minWhole2, Some minHundredths2 =>
      let minTest :=
        (float64 minWhole2 + float64 minHundredths2 / 100)%float in
      if (deg2 <=? 180) && (minTest <? 60)%float then Continue (deg2, minTest)
      else if (deg2 <=? 90) && (60 <=? minTest)%float then
        match Atoi (slice s 2 6) with
        | Some decimal => Return (float64 deg2 + float64 decimal / 10000)%float
        | None => Continue (0, 0%float)
        end
      else Continue (0, 0%float)
  | _, _, _ => Continue (0, 0%float)
  end.

(** [len(s) == 6], second attempt: DDDMMD, tried when [deg] is still 0. *)
Definition tryDDDMMD (s : string) (st : Z * float) : Z * float :=
  let '(deg, min) := st in
  match Atoi (slice s 0 3), Atoi (slice s 3 5), Atoi (slice s 5 6) with
  | Some deg3, Some minWhole3, Some minTenths3 =>
      if (deg =? 0) && (90 <? deg3) && (deg3 <=? 180) then
        let minTest := (float64 minWhole3 + float64 minTenths3 / 10)%float in
        if (minTest <? 60)%float then (deg3, minTest) else (deg, min)
      else (deg, min)
  | _, _, _ => (deg, min)
  end.

(** The locals [(deg, min)] of the 6-character branch when control
    reaches [if deg == 0 { return 0 }], unless it has returned before. *)
Definition resolve6 (s : string) : flow (Z * float) :=
  match tryDDMMTT s with
  | Return r => Return r
  | Continue st => Continue (tryDDDMMD s st)
  end.

Definition parseCoord6 (s : string) : float :=
  match resolve6 s with
  | Return r => r
  | Continue (deg, min) => if deg =? 0 then 0%float else degMin deg min
  end.

(** [len(s) == 7]: DDDDDDD, three digits of degrees and four of fraction. *)
Definition parseCoord7 (s : string) : float :=
  match Atoi (slice s 0 3) with
  | None => 0%float
  | Some deg =>
      if 180 <? deg then 0%float
      else
        match Atoi (slice s 3 7) with
        | None => 0%float
        | Some decimal => (float64 deg + float64 decimal / 10000)%float
        end
  end.

Definition parseCoord (s : string) : float :=
  if len s <? 5 then 0%float
  else if len s =? 5 then parseCoord5 s
  else if len s =? 6 then parseCoord6 s
  else if len s =? 7 then parseCoord7 s
  else 0%float.

(** *** [parseFields] *)

(** The three assignments [result.GroundSpeed = v],
    [result.SpeedUnit = unit], [result.SpeedType = kind]. *)
Definition storeGroundSpeed (v : Z) (unit kind : string) (result : Result)
  : Result :=
  setSpeedType kind (setSpeedUnit unit (setGroundSpeed v result)).

(** The second field: the speed token and, for an indicated airspeed,
    the token after it. *)
Definition parseSpeed (parts : list string) (result : Result) : Result :=
  match nth_error parts 1 with
  | None => result
  | Some speedStr =>
      match Atoi speedStr with
      | None => result
      | Some speed =>
          if negb (0 <? speed) then result
          else if (len speedStr =? 7) && (1000000 <? speed) then
            match Atoi (slice speedStr 0 3) with
            | None => result
            | Some ias =>
                let result := setIAS ias result in
                match Atoi (slice speedStr 3 7) with
                | None => result
                | Some kmh => storeGroundSpeed kmh "kmh" "IAS+KMH" result
                end
            end
          else if (1000 <? speed) && (4 <? len speedStr) then
            match Atoi (slice speedStr 0 3) with
            | None => result
            | Some s => setSpeedType "IAS" (setIAS s result)
            end
          else if (700 <=? speed) && (speed <=? 1000) then
            storeGroundSpeed speed "kmh" "KMH" result
          else if (350 <=? speed) && (speed <? 700) then
            storeGroundSpeed speed "knots" "GS" result
          else if (100 <=? speed) && (speed <? 350) then
            let result := setSpeedType "IAS" (setIAS speed result) in
            match nth_error parts 2 with
            | None => result
            | Some next =>
                match Atoi next with
                | None => result
                | Some nextSpeed =>
                    if (100 <=? nextSpeed) && (nextSpeed <? 1000) then
                      if 700 <=? nextSpeed then
                        storeGroundSpeed nextSpeed "kmh" "IAS+KMH" result
                      else if (100 <=? nextSpeed) && (nextSpeed <? 700) then
                        storeGroundSpeed nextSpeed "knots" "IAS+GS" result
                      else result
                    else result
                end
            end
          else storeGroundSpeed speed "knots" "GS" result
      end
  end.

(** [tempPattern], the regular expression [^([MP])(\d{2,3})C?$] with
    its two groups: the digits are taken greedily, three before two. *)
Definition tempDigits (body : string) (n : nat) : option string :=
  let ds := substring 0 n body in
  let tl := sliceFrom body n in
  if Nat.eqb (String.length ds) n && Patterns.all Patterns.isDigit ds
     && (String.eqb tl "" || String.eqb tl "C")
  then Some ds else None.

Definition tempPattern (tok : string) : option (string * string) :=
  match tok with
  | EmptyString => None
  | String c body =>
      if Ascii.eqb c "M" || Ascii.eqb c "P" then
        match tempDigits body 3 with
        | Some ds => Some (String c EmptyString, ds)
        | None =>
            match tempDigits body 2 with
            | Some ds => Some (String c EmptyString, ds)
            | None => None
            end
        end
      else None
  end.

(** The wind token after the temperature, first reading: SSDDD, two
    digits of speed and three of direction. *)
Definition windSSDDD (windData : string) (result : Result) : Result :=
  match Atoi (slice windData 0 2) with
  | Some ws =>
      if (0 <=? ws) && (ws <=? 99) then
        match Atoi (slice windData 2 5) with
        | Some wd =>
            if (0 <=? wd) && (wd <=? 360)
            then setWindDirection wd (setWindSpeed ws result)
            else result
        | None => result
        end
      else result
  | None => result
  end.

(** Second reading, tried if no speed is stored: SSSDDD. *)
Definition windSSSDDD (windData : string) (result : Result) : Result :=
  if (WindSpeed result =? 0) && (6 <=? len windData) then
    match Atoi (slice windData 0 3) with
    | Some ws =>
        if (100 <=? ws) && (ws <=? 999) then
          match Atoi (slice windData 3 6) with
          | Some wd =>
              if (0 <=? wd) && (wd <=? 360)
              then setWindDirection wd (setWindSpeed ws result)
              else result
          | None => result
          end
        else result
    | None => result
    end
  else result.

Definition parseWind (windData : string) (result : Result) : Result :=
  if 5 <=? len windData
  then windSSSDDD windData (windSSDDD windData result)
  else result.

(** [if m[1] == "M" { Temperature = -temp } else { Temperature = temp }] *)
Definition storeTemp (sign : string) (temp : Z) (result : Result) : Result :=
  if String.eqb sign "M" then setTemperature (neg temp) result
  else setTemperature temp result.

(** The loop [for i := 2; i < len(parts); i++] over [rest = parts[i:]];
    it breaks at the first token that is a temperature. *)
Fixpoint scanTemp (rest : list string) (result : Result) : Result :=
  match rest with
  | [] => result
  | tok :: rest' =>
      match tempPattern tok with
      | None => scanTemp rest' result
      | Some (sign, ds) =>
          match Atoi ds with
          | None => scanTemp rest' result
          | Some temp =>
              match rest' with
              | windData :: _ => parseWind windData (storeTemp sign temp result)
              | [] => storeTemp sign temp result
              end
          end
      end
  end.

Definition parseFlightLevel (parts : list string) (result : Result) : Result :=
  match parts with
  | [] => result
  | p0 :: _ =>
      match Atoi p0 with
      | Some fl =>
          if (0 <=? fl) && (fl <=? 600) then setFlightLevel fl result
          else result
      | None => result
      end
  end.

(** [parseFields] on the fields of [data]. *)
Definition parseParts (parts : list string) (result : Result) : Result :=
  scanTemp (skipn 2 parts) (parseSpeed parts (parseFlightLevel parts result)).

Definition parseFields (data : string) (result : Result) : Result :=
  parseParts (Fields data) result.

(** *** The formats of [grok.go] *)

Definition header (latDigits lonDigits : nat)
  : list (option string * Patterns.piece) :=
  [ (None, Patterns.Lit "FST");
    (Some "seq", Patterns.Digits 2);
    (Some "origin", Patterns.Base "ICAO");
    (Some "dest", Patterns.Base "ICAO");
    (Some "lat_dir", Patterns.Base "LAT_DIR");
    (Some "lat", Patterns.Digits latDigits);
    (Some "lon_dir", Patterns.Base "LON_DIR");
    (Some "lon", Patterns.Digits lonDigits);
    (Some "rest", Patterns.DotPlus) ].

Definition headerFields : list string :=
  ["seq"; "origin"; "dest"; "lat_dir"; "lat"; "lon_dir"; "lon"; "rest"].

Definition Formats : list Patterns.Format :=
  [ Patterns.mkFormat "fst_7digit_lon" (header 6 7) headerFields;
    Patterns.mkFormat "fst_6digit" (header 6 6) headerFields;
    Patterns.mkFormat "fst_5digit_lon" (header 5 5) headerFields ].

(** *** [Parser] *)

Definition Name : string := "fst".
Definition Labels : list string := ["15"].
Definition Priority : Z := 100.

Definition QuickCheck (text : string) : bool :=
  HasPrefix (TrimSpace text) "FST"
  || Contains text "FST01" || Contains text "FST02".

(** The zero value [Result{}]. *)
Definition zero : Result :=
  mkResult 0 "" "" "" "" "" 0%float 0%float 0 0 "" 0 0 "" 0 0 0 "".

(** The composite literal [&Result{MsgID: ..., ..., Destination: ...}]. *)
Definition newResult (msg : Acars.Message) (m : Patterns.Match) : Result :=
  mkResult (Acars.ID msg) (Acars.Timestamp msg) (Acars.Tail msg)
    (Patterns.capture m "seq") (Patterns.capture m "origin")
    (Patterns.capture m "dest")
    0%float 0%float 0 0 "" 0 0 "" 0 0 0 "".

Section Parse.

(** [getCompiler()]: the compiler, or [None] when [err != nil]. *)
Variable getCompiler : option Patterns.Compiler.

Definition Parse (msg : Acars.Message) : option Result :=
  if String.eqb (Acars.Text msg) "" then None
  else
    let text := TrimSpace (Acars.Text msg) in
    let idx := Index text "FST" in
    let text := if 0 <? idx then sliceFrom text (Z.to_nat idx) else text in
    match getCompiler with
    | None => None
    | Some compiler =>
        match Patterns.Parse compiler text with
        | None => None
        | Some m =>
            let result := newResult msg m in
            let lat := parseCoord (Patterns.capture m "lat") in
            let lat :=
              if String.eqb (Patterns.capture m "lat_dir") "S"
              then (- lat)%float else lat in
            let result := setLatitude lat result in
            let lon := parseCoord (Patterns.capture m "lon") in
            let lon :=
              if String.eqb (Patterns.capture m "lon_dir") "W"
              then (- lon)%float else lon in
            let result := setLongitude lon result in
            let rest := Patterns.capture m "rest" in
            if 0 <? len rest
            then Some (parseFields rest (setRawData rest result))
            else Some result
        end
    end.

End Parse.

End Fst.

(* ================================================================== *)
(** ** Label 80: position reports with a header ([package label80])   *)
(* ================================================================== *)

Module Label80.

Import Go.

Record Result : Type := mkResult {
  MsgID : Z;
  Timestamp : string;
  Tail : string;
  MsgType : string;
  FlightNum : string;
  OriginICAO : string;
  OriginName : string;
  DestICAO : string;
  DestName : string;
  Latitude : float;
  Longitude : float;
  Altitude : Z;
  Mach : string;
  TAS : Z;
  FuelOnBoard : Z;
  ETA : string;
  ReportTime : string;
  WindDir : Z;
  WindSpeedKts : Z;
  WindSpeedKmh : Z;
  OATC : Z;
  OutTime : string;
  OffTime : string;
  OnTime : string;
  InTime : string
}.

Definition Type_ (r : Result) : string := "position".
Definition MessageID (r : Result) : Z := MsgID r.

(** Assignments to the fields [Parse] writes. *)
Definition setTail (v : string) (r : Result) : Result :=
  mkResult (MsgID r) (Timestamp r) v (MsgType r) (FlightNum r)
    (OriginICAO r) (OriginName r) (DestICAO r) (DestName r) (Latitude r)
    (Longitude r) (Altitude r) (Mach r) (TAS r) (FuelOnBoard r) (ETA r)
    (ReportTime r) (WindDir r) (WindSpeedKts r) (WindSpeedKmh r) (OATC r)
    (OutTime r) (OffTime r) (OnTime r) (InTime r).
Definition setMsgType (v : string) (r : Result) : Result :=
  mkResult (MsgID r) (Timestamp r) (Tail r) v (FlightNum r) (OriginICAO r)
    (OriginName r) (DestICAO r) (DestName r) (Latitude r) (Longitude r)
    (Altitude r) (Mach r) (TAS r) (FuelOnBoard r) (ETA r) (ReportTime r)
    (WindDir r) (WindSpeedKts r) (WindSpeedKmh r) (OATC r) (OutTime r)
    (OffTime r) (OnTime r) (InTime r).
Definition setFlightNum (v : string) (r : Result) : Result :=
  mkResult (MsgID r) (Timestamp r) (Tail r) (MsgType r) v (OriginICAO r)
    (OriginName r) (DestICAO r) (DestName r) (Latitude r) (Longitude r)
    (Altitude r) (Mach r) (TAS r) (FuelOnBoard r) (ETA r) (ReportTime r)
    (WindDir r) (WindSpeedKts r) (WindSpeedKmh r) (OATC r) (OutTime r)
    (OffTime r) (OnTime r) (InTime r).
Definition setOriginICAO (v : string) (r : Result) : Result :=
  mkResult (MsgID r) (Timestamp r) (Tail r) (MsgType r) (FlightNum r) v
    (OriginName r) (DestICAO r) (DestName r) (Latitude r) (Longitude r)
    (Altitude r) (Mach r) (TAS r) (FuelOnBoard r) (ETA r) (ReportTime r)
    (WindDir r) (WindSpeedKts r) (WindSpeedKmh r) (OATC r) (OutTime r)
    (OffTime r) (OnTime r) (InTime r).
Definition setOriginName (v : string) (r : Result) : Result :=
  mkResult (MsgID r) (Timestamp r) (Tail r) (MsgType r) (FlightNum r)
    (OriginICAO r) v (DestICAO r) (DestName r) (Latitude r) (Longitude r)
    (Altitude r) (Mach r) (TAS r) (FuelOnBoard r) (ETA r) (ReportTime r)
    (WindDir r) (WindSpeedKts r) (WindSpeedKmh r) (OATC r) (OutTime r)
    (OffTime r) (OnTime r) (InTime r).
Definition setDestICAO (v : string) (r : Result) : Result :=
  mkResult (MsgID r) (Timestamp r) (Tail r) (MsgType r) (FlightNum r)
    (OriginICAO r) (OriginName r) v (DestName r) (Latitude r) (Longitude r)
    (Altitude r) (Mach r) (TAS r) (FuelOnBoard r) (ETA r) (ReportTime r)
    (WindDir r) (WindSpeedKts r) (WindSpeedKmh r) (OATC r) (OutTime r)
    (OffTime r) (OnTime r) (InTime r).
Definition setDestName (v : string) (r : Result) : Result :=
  mkResult (MsgID r) (Timestamp r) (Tail r) (MsgType r) (FlightNum r)
    (OriginICAO r) (OriginName r) (DestICAO r) v (Latitude r) (Longitude r)
    (Altitude r) (Mach r) (TAS r) (FuelOnBoard r) (ETA r) (ReportTime r)
    (WindDir r) (WindSpeedKts r) (WindSpeedKmh r) (OATC r) (OutTime r)
    (OffTime r) (OnTime r) (InTime r).
Definition setLatitude (v : float) (r : Result) : Result :=
  mkResult (MsgID r) (Timestamp r) (Tail r) (MsgType r) (FlightNum r)
    (OriginICAO r) (OriginName r) (DestICAO r) (DestName r) v (Longitude r)
    (Altitude r) (Mach r) (TAS r) (FuelOnBoard r) (ETA r) (ReportTime r)
    (WindDir r) (WindSpeedKts r) (WindSpeedKmh r) (OATC r) (OutTime r)
    (OffTime r) (OnTime r) (InTime r).
Definition setLongitude (v : float) (r : Result) : Result :=
  mkResult (MsgID r) (Timestamp r) (Tail r) (MsgType r) (FlightNum r)
    (OriginICAO r) (OriginName r) (DestICAO r) (DestName r) (Latitude r) v
    (Altitude r) (Mach r) (TAS r) (FuelOnBoard r) (ETA r) (ReportTime r)
    (WindDir r) (WindSpeedKts r) (WindSpeedKmh r) (OATC r) (OutTime r)
    (OffTime r) (OnTime r) (InTime r).
Definition setAltitude (v : Z) (r : Result) : Result :=
  mkResult (MsgID r) (Timestamp r) (Tail r) (MsgType r) (FlightNum r)
    (OriginICAO r) (OriginName r) (DestICAO r) (DestName r) (Latitude r)
    (Longitude r) v (Mach r) (TAS r) (FuelOnBoard r) (ETA r) (ReportTime r)
    (WindDir r) (WindSpeedKts r) (WindSpeedKmh r) (OATC r) (OutTime r)
    (OffTime r) (OnTime r) (InTime r).
Definition setMach (v : string) (r : Result) : Result :=
  mkResult (MsgID r) (Timestamp r) (Tail r) (MsgType r) (FlightNum r)
    (OriginICAO r) (OriginName r) (DestICAO r) (DestName r) (Latitude r)
    (Longitude r) (Altitude r) v (TAS r) (FuelOnBoard r) (ETA r)
    (ReportTime r) (WindDir r) (WindSpeedKts r) (WindSpeedKmh r) (OATC r)
    (OutTime r) (OffTime r) (OnTime r) (InTime r).
Definition setTAS (v : Z) (r : Result) : Result :=
  mkResult (MsgID r) (Timestamp r) (Tail r) (MsgType r) (FlightNum r)
    (OriginICAO r) (OriginName r) (DestICAO r) (DestName r) (Latitude r)
    (Longitude r) (Altitude r) (Mach r) v (FuelOnBoard r) (ETA r)
    (ReportTime r) (WindDir r) (WindSpeedKts r) (WindSpeedKmh r) (OATC r)
    (OutTime r) (OffTime r) (OnTime r) (InTime r).
Definition setFuelOnBoard (v : Z) (r : Result) : Result :=
  mkResult (MsgID r) (Timestamp r) (Tail r) (MsgType r) (FlightNum r)
    (OriginICAO r) (OriginName r) (DestICAO r) (DestName r) (Latitude r)
    (Longitude r) (Altitude r) (Mach r) (TAS r) v (ETA r) (ReportTime r)
    (WindDir r) (WindSpeedKts r) (WindSpeedKmh r) (OATC r) (OutTime r)
    (OffTime r) (OnTime r) (InTime r).
Definition setETA (v : string) (r : Result) : Result :=
  mkResult (MsgID r) (Timestamp r) (Tail r) (MsgType r) (FlightNum r)
    (OriginICAO r) (OriginName r) (DestICAO r) (DestName r) (Latitude r)
    (Longitude r) (Altitude r) (Mach r) (TAS r) (FuelOnBoard r) v
    (ReportTime r) (WindDir r) (WindSpeedKts r) (WindSpeedKmh r) (OATC r)
    (OutTime r) (OffTime r) (OnTime r) (InTime r).
Definition setReportTime (v : string) (r : Result) : Result :=
  mkResult (MsgID r) (Timestamp r) (Tail r) (MsgType r) (FlightNum r)
    (OriginICAO r) (OriginName r) (DestICAO r) (DestName r) (Latitude r)
    (Longitude r) (Altitude r) (Mach r) (TAS r) (FuelOnBoard r) (ETA r) v
    (WindDir r) (WindSpeedKts r) (WindSpeedKmh r) (OATC r) (OutTime r)
    (OffTime r) (OnTime r) (InTime r).
Definition setWindDir (v : Z) (r : Result) : Result :=
  mkResult (MsgID r) (Timestamp r) (Tail r) (MsgType r) (FlightNum r)
    (OriginICAO r) (OriginName r) (DestICAO r) (DestName r) (Latitude r)
    (Longitude r) (Altitude r) (Mach r) (TAS r) (FuelOnBoard r) (ETA r)
    (ReportTime r) v (WindSpeedKts r) (WindSpeedKmh r) (OATC r) (OutTime r)
    (OffTime r) (OnTime r) (InTime r).
Definition setWindSpeedKts (v : Z) (r : Result) : Result :=
  mkResult (MsgID r) (Timestamp r) (Tail r) (MsgType r) (FlightNum r)
    (OriginICAO r) (OriginName r) (DestICAO r) (DestName r) (Latitude r)
    (Longitude r) (Altitude r) (Mach r) (TAS r) (FuelOnBoard r) (ETA r)
    (ReportTime r) (WindDir r) v (WindSpeedKmh r) (OATC r) (OutTime r)
    (OffTime r) (OnTime r) (InTime r).
Definition setWindSpeedKmh (v : Z) (r : Result) : Result :=
  mkResult (MsgID r) (Timestamp r) (Tail r) (MsgType r) (FlightNum r)
    (OriginICAO r) (OriginName r) (DestICAO r) (DestName r) (Latitude r)
    (Longitude r) (Altitude r) (Mach r) (TAS r) (FuelOnBoard r) (ETA r)
    (ReportTime r) (WindDir r) (WindSpeedKts r) v (OATC r) (OutTime r)
    (OffTime r) (OnTime r) (InTime r).
Definition setOATC (v : Z) (r : Result) : Result :=
  mkResult (MsgID r) (Timestamp r) (Tail r) (MsgType r) (FlightNum r)
    (OriginICAO r) (OriginName r) (DestICAO r) (DestName r) (Latitude r)
    (Longitude r) (Altitude r) (Mach r) (TAS r) (FuelOnBoard r) (ETA r)
    (ReportTime r) (WindDir r) (WindSpeedKts r) (WindSpeedKmh r) v
    (OutTime r) (OffTime r) (OnTime r) (InTime r).
Definition setOutTime (v : string) (r : Result) : Result :=
  mkResult (MsgID r) (Timestamp r) (Tail r) (MsgType r) (FlightNum r)
    (OriginICAO r) (OriginName r) (DestICAO r) (DestName r) (Latitude r)
    (Longitude r) (Altitude r) (Mach r) (TAS r) (FuelOnBoard r) (ETA r)
    (ReportTime r) (WindDir r) (WindSpeedKts r) (WindSpeedKmh r) (OATC r) v
    (OffTime r) (OnTime r) (InTime r).
Definition setOffTime (v : string) (r : Result) : Result :=
  mkResult (MsgID r) (Timestamp r) (Tail r) (MsgType r) (FlightNum r)
    (OriginICAO r) (OriginName r) (DestICAO r) (DestName r) (Latitude r)
    (Longitude r) (Altitude r) (Mach r) (TAS r) (FuelOnBoard r) (ETA r)
    (ReportTime r) (WindDir r) (WindSpeedKts r) (WindSpeedKmh r) (OATC r)
    (OutTime r) v (OnTime r) (InTime r).
Definition setOnTime (v : string) (r : Result) : Result :=
  mkResult (MsgID r) (Timestamp r) (Tail r) (MsgType r) (FlightNum r)
    (OriginICAO r) (OriginName r) (DestICAO r) (DestName r) (Latitude r)
    (Longitude r) (Altitude r) (Mach r) (TAS r) (FuelOnBoard r) (ETA r)
    (ReportTime r) (WindDir r) (WindSpeedKts r) (WindSpeedKmh r) (OATC r)
    (OutTime r) (OffTime r) v (InTime r).
Definition setInTime (v : string) (r : Result) : Result :=
  mkResult (MsgID r) (Timestamp r) (Tail r) (MsgType r) (FlightNum r)
    (OriginICAO r) (OriginName r) (DestICAO r) (DestName r) (Latitude r)
    (Longitude r) (Altitude r) (Mach r) (TAS r) (FuelOnBoard r) (ETA r)
    (ReportTime r) (WindDir r) (WindSpeedKts r) (WindSpeedKmh r) (OATC r)
    (OutTime r) (OffTime r) (OnTime r) v.

(** The longest prefix of [s] in the class [p], and the rest. *)
Fixpoint span (p : ascii -> bool) (s : string) : string * string :=
  match s with
  | EmptyString => (EmptyString, EmptyString)
  | String c s' =>
      if p c then let '(a, b) := span p s' in (String c a, b)
      else (EmptyString, s)
  end.

Definition between (lo hi : nat) (s : string) : bool :=
  Nat.leb lo (String.length s) && Nat.leb (String.length s) hi.

(** The regular expression [^[A-Z]{2,3}\d{1,4}[A-Z]?$]. *)
Definition flightPattern (s : string) : bool :=
  let '(letters, s1) := span Patterns.isUpper s in
  let '(ds, s2) := span Patterns.isDigit s1 in
  between 2 3 letters && between 1 4 ds
  && between 0 1 s2 && Patterns.all Patterns.isUpper s2.

(** The regular expression [^\d{1,4}$]. *)
Definition digitsPattern (s : string) : bool :=
  between 1 4 s && Patterns.all Patterns.isDigit s.

Definition isLikelyFlight (s : string) : bool :=
  let s := TrimSpace s in
  if String.eqb s "" then false
  else if Contains s "/" then false
  else if flightPattern s then true
  else digitsPattern s.

Definition formatHHMM (s : string) : string :=
  let s := TrimSpace s in
  if String.eqb s "" then ""
  else
    let s := if len s =? 3 then "0" ++ s else s in
    if negb (len s =? 4) then ""
    else
      let hh := slice s 0 2 in
      let mm := sliceFrom s 2 in
      match Atoi hh, Atoi mm with
      | Some h, Some m =>
          if (h <? 0) || (23 <? h) || (m <? 0) || (59 <? m) then ""
          else hh ++ ":" ++ mm
      | _, _ => ""
      end.

(** The altitude case: [if len(altStr) <= 3 && alt > 0 && alt <= 500
    { alt *= 100 }]. *)
Definition altitudeFeet (altStr : string) (alt : Z) : Z :=
  if (len altStr <=? 3) && (0 <? alt) && (alt <=? 500) then mul alt 100
  else alt.

(** The wind case: [d %= 360; if d < 0 { d += 360 }]. *)
Definition windDir (d : Z) : Z :=
  let d := rem d 360 in
  if d <? 0 then add d 360 else d.

(** The wind case: [(spd*1852 + 500) / 1000]. *)
Definition knotsToKmh (spd : Z) : Z := quo (add (mul spd 1852) 500) 1000.

Section Parse.

(** [airports.GetName], the static airport table. *)
Variable GetName : string -> string.
(** [patterns.ParseDecimalCoord]. *)
Variable ParseDecimalCoord : string -> string -> float.
(** [getCompiler()]: the compiler, or [None] when [err != nil]. *)
Variable getCompiler : option Patterns.Compiler.

Definition insertDot (s : string) (degDigits : nat) : string :=
  if Nat.ltb degDigits (String.length s)
  then slice s 0 degDigits ++ "." ++ sliceFrom s degDigits
  else s.

Definition parseLabel80Coord (s dir : string) : float :=
  let s := TrimSpace s in
  if String.eqb s "" then 0%float
  else if Contains s "." then ParseDecimalCoord s dir
  else if String.eqb dir "E" || String.eqb dir "W" then
    let degDigits := if len s <=? 5 then 2%nat else 3%nat in
    ParseDecimalCoord (insertDot s degDigits) dir
  else ParseDecimalCoord (insertDot s 2) dir.

(** [if result.OriginICAO != "" {...}; if result.DestICAO != "" {...}] *)
Definition resolveNames (result : Result) : Result :=
  let result :=
    if negb (String.eqb (OriginICAO result) "")
    then setOriginName (GetName (OriginICAO result)) result else result in
  if negb (String.eqb (DestICAO result) "")
  then setDestName (GetName (DestICAO result)) result else result.

(** One iteration of [for _, match := range matches]: the [switch] on
    the format name, acting on [result] and [foundHeader]. *)
Definition applyMatch (st : Result * bool) (m : Patterns.Match)
  : Result * bool :=
  let '(result, foundHeader) := st in
  let cap := Patterns.capture m in
  let name := Patterns.FormatName m in
  if String.eqb name "header_format" then
    let result := setMsgType (cap "msg_type") result in
    let result := setOriginICAO (cap "origin") result in
    let result := setDestICAO (cap "dest") result in
    let result := setTail (TrimPrefix (cap "tail") ".") result in
    let result := resolveNames result in
    let tok := TrimSpace (cap "hdr1") in
    let result := if isLikelyFlight tok then setFlightNum tok result
                  else result in
    (result, true)
  else if String.eqb name "alt_format" then
    if negb foundHeader then
      let result := setFlightNum (cap "flight") result in
      let result := setOriginICAO (cap "origin") result in
      let result := setDestICAO (cap "dest") result in
      let result := setMsgType "FLT" result in
      let result := resolveNames result in
      (result, true)
    else (result, foundHeader)
  else if String.eqb name "position" then
    let result :=
      setLatitude (parseLabel80Coord (cap "lat") (cap "lat_dir")) result in
    let result :=
      setLongitude (parseLabel80Coord (cap "lon") (cap "lon_dir")) result in
    (result, foundHeader)
  else if String.eqb name "altitude" then
    let altStr := TrimSpace (cap "altitude") in
    match Atoi altStr with
    | Some alt => (setAltitude (altitudeFeet altStr alt) result, foundHeader)
    | None => (result, foundHeader)
    end
  else if String.eqb name "mach" then
    (setMach (cap "mach") result, foundHeader)
  else if String.eqb name "tas" then
    match Atoi (cap "tas") with
    | Some tas => (setTAS tas result, foundHeader)
    | None => (result, foundHeader)
    end
  else if String.eqb name "fob" then
    match Atoi (cap "fob") with
    | Some fob => (setFuelOnBoard fob result, foundHeader)
    | None => (result, foundHeader)
    end
  else if String.eqb name "eta" then
    (setETA (cap "eta") result, foundHeader)
  else if String.eqb name "tme" then
    let t := formatHHMM (cap "tme") in
    if negb (String.eqb t "") then (setReportTime t result, foundHeader)
    else (result, foundHeader)
  else if String.eqb name "wind" then
    let result :=
      match Atoi (cap "wdir") with
      | Some d => setWindDir (windDir d) result
      | None => result
      end in
    let result :=
      match Atoi (cap "wspd") with
      | Some spd =>
          setWindSpeedKmh (knotsToKmh spd) (setWindSpeedKts spd result)
      | None => result
      end in
    (result, foundHeader)
  else if String.eqb name "oat" then
    match Atoi (cap "oat") with
    | Some oat => (setOATC oat result, foundHeader)
    | None => (result, foundHeader)
    end
  else if String.eqb name "out_time" then
    (setOutTime (cap "out") result, foundHeader)
  else if String.eqb name "off_time" then
    (setOffTime (cap "off") result, foundHeader)
  else if String.eqb name "on_time" then
    (setOnTime (cap "on") result, foundHeader)
  else if String.eqb name "in_time" then
    (setInTime (cap "in") result, foundHeader)
  else (result, foundHeader).

(** The result [Parse] starts from. *)
Definition newResult (msg : Acars.Message) : Result :=
  mkResult (Acars.ID msg) (Acars.Timestamp msg) (Acars.Tail msg)
    "" "" "" "" "" "" 0%float 0%float 0 "" 0 0 "" "" 0 0 0 0 "" "" "" "".

Definition Parse (msg : Acars.Message) : option Result :=
  if String.eqb (Acars.Text msg) "" then None
  else
    let text := TrimSpace (Acars.Text msg) in
    match getCompiler with
    | None => None
    | Some compiler =>
        let matches := Patterns.ParseAll compiler text in
        let '(result, foundHeader) :=
          fold_left applyMatch matches (newResult msg, false) in
        if negb foundHeader then None else Some result
    end.

End Parse.

Definition Name : string := "label80".
Definition Labels : list string := ["80"].
Definition Priority : Z := 100.
Definition QuickCheck (text : string) : bool := true.

End Label80.

(* ================================================================== *)
(** ** The registry                                                   *)
(* ================================================================== *)

Module Registry.

(** Modelled from the spec: the Result contract of [package registry],
    which is not among the sources. A Result is one of the decoders'
    outputs and carries a type tag and a message id; the envelope's
    echoes the label, the tail and the raw text. *)
Record Envelope : Type := mkEnvelope {
  EnvMsgID : Z;
  EnvLabel : string;
  EnvTail : string;
  EnvText : string
}.

Inductive Result : Type :=
| FstResult (r : Fst.Result)
| PositionResult (r : Label80.Result)
| EnvelopeResult (r : Envelope).

Definition Type_ (r : Result) : string :=
  match r with
  | FstResult r => Fst.Type_ r
  | PositionResult r => Label80.Type_ r
  | EnvelopeResult _ => "envelope"
  end.

Definition MessageID (r : Result) : Z :=
  match r with
  | FstResult r => Fst.MessageID r
  | PositionResult r => Label80.MessageID r
  | EnvelopeResult r => EnvMsgID r
  end.

(** Modelled from the spec: the Parser contract: a name, the labels it
    is eligible for (none: content-based), a priority, the quick check
    and the parse. *)
Record Parser : Type := mkParser {
  Name : string;
  Labels : list string;
  Priority : Z;
  QuickCheck : string -> bool;
  Parse : Acars.Message -> option Result
}.

(** Modelled from the spec: a registry is its parsers in registration
    order; each index lists them by priority ascending, ties in
    registration order. *)
Definition Registry : Type := list Parser.

Fixpoint insert (p : Parser) (ps : list Parser) : list Parser :=
  match ps with
  | [] => [p]
  | q :: qs => if Priority p <? Priority q then p :: ps else q :: insert p qs
  end.

Definition byPriority (ps : list Parser) : list Parser :=
  fold_left (fun acc p => insert p acc) ps [].

Definition handles (l : string) (p : Parser) : bool :=
  existsb (String.eqb l) (Labels p).

Definition isContentBased (p : Parser) : bool :=
  match Labels p with
  | [] => true
  | _ => false
  end.

Definition byLabel (reg : Registry) (l : string) : list Parser :=
  byPriority (filter (handles l) reg).

Definition contentBased (reg : Registry) : list Parser :=
  byPriority (filter isContentBased reg).

(** Modelled from the spec: the envelope catch-all never returns
    nothing. *)
Definition envelope (msg : Acars.Message) : Result :=
  EnvelopeResult (mkEnvelope (Acars.ID msg) (Acars.Label msg)
                    (Acars.Tail msg) (Acars.Text msg)).

(** Modelled from the spec: each parser whose quick check passes is
    asked to parse; the first non-empty Result is returned. *)
Fixpoint firstResult (ps : list Parser) (msg : Acars.Message)
  : option Result :=
  match ps with
  | [] => None
  | p :: ps' =>
      if QuickCheck p (Acars.Text msg) then
        match Parse p msg with
        | Some r => Some r
        | None => firstResult ps' msg
        end
      else firstResult ps' msg
  end.

(** Modelled from the spec: [dispatch_first]: the parsers of the
    message's label, then the content-based ones, then the envelope. *)
Definition DispatchFirst (reg : Registry) (msg : Acars.Message) : Result :=
  let labelled :=
    if String.eqb (Acars.Label msg) "" then None
    else firstResult (byLabel reg (Acars.Label msg)) msg in
  match labelled with
  | Some r => r
  | None =>
      match firstResult (contentBased reg) msg with
      | Some r => r
      | None => envelope msg
      end
  end.

(** The two decoders as registry entries. *)
Definition fstParser (gc : option Patterns.Compiler) : Parser :=
  mkParser Fst.Name Fst.Labels Fst.Priority Fst.QuickCheck
    (fun msg => option_map FstResult (Fst.Parse gc msg)).

Definition label80Parser (GetName : string -> string)
  (ParseDecimalCoord : string -> string -> float)
  (gc : option Patterns.Compiler) : Parser :=
  mkParser Label80.Name Label80.Labels Label80.Priority Label80.QuickCheck
    (fun msg =>
       option_map PositionResult
         (Label80.Parse GetName ParseDecimalCoord gc msg)).

End Registry.

(* ================================================================== *)
(** ** Vocabulary of the properties                                   *)
(* ================================================================== *)

Module Digits.

Import Go.

(** The number a run of decimal digits writes, continuing from [n]. *)
Fixpoint valueFrom (n : Z) (s : string) : Z :=
  match s with
  | EmptyString => n
  | String c s' => valueFrom (n * 10 + (byte c - 48)) s'
  end.

(** The number written by the digits [s[lo:hi]]. *)
Definition num (s : string) (lo hi : nat) : Z := valueFrom 0 (slice s lo hi).

Definition allDigits (s : string) : bool := Patterns.all Patterns.isDigit s.

(** [p] holds of every integer in [0, n). *)
Fixpoint below (n : nat) (p : Z -> bool) : bool :=
  match n with
  | O => true
  | S k => p (Z.of_nat k) && below k p
  end.

(** The minutes of a DDMMTT field, as [parseCoord] computes them. *)
Definition minutes (whole hundredths : Z) : float :=
  (float64 whole + float64 hundredths / 100)%float.

(** On two-digit fields the float comparisons of [parseCoord] against 60
    are decided by the whole minutes. *)
Definition minutesAgree (whole hundredths : Z) : bool :=
  Bool.eqb (minutes whole hundredths <? 60)%float (whole <? 60)
  && Bool.eqb (60 <=? minutes whole hundredths)%float (60 <=? whole).

(** The minutes of a DDMMD field, as [parseCoord] computes them, and
    their comparison against 60. *)
Definition minutesTenths (whole tenths : Z) : float :=
  (float64 whole + float64 tenths / 10)%float.

Definition tenthsAgree (whole tenths : Z) : bool :=
  Bool.eqb (60 <=? minutesTenths whole tenths)%float (60 <=? whole).

(** The DDMMTT value as [parseCoord] computes it is within 2^-40 of
    deg + (min*100 + hundredths)/6000 evaluated in [float64]. *)
Definition ddmmttClose (deg whole hundredths : Z) : bool :=
  (abs ((float64 deg + minutes whole hundredths / 60)
        - (float64 deg + float64 (whole * 100 + hundredths) / 6000))
   <? 0x1p-40)%float.

End Digits.

Module Stated.

(** A property of the result of a parse that produced one. *)
Definition whenSome {A : Type} (o : option A) (P : A -> Prop) : Prop :=
  match o with
  | Some a => P a
  | None => True
  end.

(** [x] is within [tol] of [target]. *)
Definition near (x target tol : float) : bool :=
  (abs (x - target) <? tol)%float.

(** The four speed fields of an FST result. *)
Definition speedOf (r : Fst.Result) : Z * Z * string * string :=
  (Fst.IAS r, Fst.GroundSpeed r, Fst.SpeedUnit r, Fst.SpeedType r).

(** What [parseFields] leaves alone and what it keeps in range. *)
Definition kept (r0 r : Fst.Result) : Prop :=
  Fst.MsgID r = Fst.MsgID r0
  /\ (0 <= Fst.WindDirection r0 <= 360 -> 0 <= Fst.WindDirection r <= 360).

(** The FST decoder over the formats of [grok.go]. *)
Definition fstParse (msg : Acars.Message) : option Fst.Result :=
  Fst.Parse (Patterns.NewCompiler Fst.Formats) msg.

(** A Label 15 message with the given body. *)
Definition label15 (text : string) : Acars.Message :=
  Acars.mkMessage 1 "" "15" text "".

(** The checks of [TestParser] on one message: every expected field,
    the coordinates within 0.01. *)
Definition testParser (text origin destination : string)
    (latitude longitude : float) (flightLevel groundSpeed : Z)
    (speedUnit speedType : string)
    (temperature windSpeed windDirection : Z) : bool :=
  match fstParse (label15 text) with
  | None => false
  | Some r =>
      String.eqb (Fst.Origin r) origin
      && String.eqb (Fst.Destination r) destination
      && near (Fst.Latitude r) latitude 0.01
      && near (Fst.Longitude r) longitude 0.01
      && (Fst.FlightLevel r =? flightLevel)
      && (Fst.GroundSpeed r =? groundSpeed)
      && String.eqb (Fst.SpeedUnit r) speedUnit
      && String.eqb (Fst.SpeedType r) speedType
      && (Fst.Temperature r =? temperature)
      && (Fst.WindSpeed r =? windSpeed)
      && (Fst.WindDirection r =? windDirection)
  end.

(** A Label 80 compiler that reports the given matches on any text. *)
Definition fixedMatches (ms : list Patterns.Match) : Patterns.Compiler :=
  Patterns.mkCompiler (fun _ => None) (fun _ => ms).

(** The header-bearing formats of Label 80. *)
Definition isHeader (m : Patterns.Match) : bool :=
  String.eqb (Patterns.FormatName m) "header_format"
  || String.eqb (Patterns.FormatName m) "alt_format".

Definition headerBearing (m : Patterns.Match) : Prop :=
  Patterns.FormatName m = "header_format"
  \/ Patterns.FormatName m = "alt_format".

(** A Label 80 match of the altitude format with the given token. *)
Definition altitudeMatch (tok : string) : Patterns.Match :=
  Patterns.mkMatch "altitude" [("altitude", tok)].

(** A Label 80 match of the wind format with the given captures. *)
Definition windMatch (wdir wspd : string) : Patterns.Match :=
  Patterns.mkMatch "wind" [("wdir", wdir); ("wspd", wspd)].

(** The largest wind speed whose conversion stays within [int]. *)
Definition kmhLimit : Z := (Go.MaxInt - 500) / 1852.

(** [round]: the nearest integer, halves away from zero. *)
Definition round (q : Q) : Z :=
  if Qle_bool 0 q then Qfloor (q + (1 # 2))%Q
  else (- Qfloor (- q + (1 # 2)))%Z.

(** A registered parser whose results carry the id of the message. *)
Definition carriesID (p : Registry.Parser) : Prop :=
  forall msg r,
    Registry.Parse p msg = Some r -> Registry.MessageID r = Acars.ID msg.

End Stated.

(* ================================================================== *)
(** ** Notions in which further properties of the decoders are stated  *)
(* ================================================================== *)

Module Derived.

Import Go Digits Stated.

(** *** FST results *)

(** The temperature and wind of an FST result. *)
Definition weather (r : Fst.Result) : Z * Z * Z :=
  (Fst.Temperature r, Fst.WindSpeed r, Fst.WindDirection r).

Definition windOf (r : Fst.Result) : Z * Z :=
  (Fst.WindSpeed r, Fst.WindDirection r).

(** The flight level, temperature and wind of an FST result. *)
Definition meteo (r : Fst.Result) : Z * Z * Z * Z :=
  (Fst.FlightLevel r, Fst.Temperature r, Fst.WindSpeed r,
   Fst.WindDirection r).

(** The limits [parseFields] accepts a reading within. *)
Definition meteoInRange (r : Fst.Result) : Prop :=
  0 <= Fst.FlightLevel r <= 600 /\ -999 <= Fst.Temperature r <= 999
  /\ 0 <= Fst.WindSpeed r <= 999 /\ 0 <= Fst.WindDirection r <= 360.

(** The combinations of speed type, unit, indicated air speed and
    ground speed that [parseFields] can leave in a result. *)
Definition speedConsistent (r : Fst.Result) : Prop :=
  let '(ias, gs, unit, kind) := speedOf r in
  (kind = "" /\ unit = "" /\ ias = 0 /\ gs = 0)
  \/ (kind = "IAS" /\ unit = "" /\ gs = 0 /\ 0 <= ias <= 999)
  \/ (kind = "GS" /\ unit = "knots" /\ ias = 0
      /\ (0 < gs < 100 \/ 350 <= gs < 700 \/ 1000 < gs <= 9999))
  \/ (kind = "KMH" /\ unit = "kmh" /\ ias = 0 /\ 700 <= gs <= 1000)
  \/ (kind = "IAS+GS" /\ unit = "knots"
      /\ 100 <= ias < 350 /\ 100 <= gs < 700)
  \/ (kind = "IAS+KMH" /\ unit = "kmh"
      /\ 100 <= ias <= 999 /\ 0 <= gs <= 9999).

(** The text [Parse] hands to the compiler: the trimmed body, from the
    first "FST" on when that is not at its start. *)
Definition fstText (msg : Acars.Message) : string :=
  let text := TrimSpace (Acars.Text msg) in
  let idx := Index text "FST" in
  if 0 <? idx then sliceFrom text (Z.to_nat idx) else text.

(** [if dir == negative { x = -x }] *)
Definition signed (dir negative : string) (x : float) : float :=
  if String.eqb dir negative then (- x)%float else x.

(** The fields of an FST result that [parseFields] does not assign. *)
Definition fixedPart (r : Fst.Result)
  : Z * string * string * string * string * string
    * float * float * Z * string :=
  (Fst.MsgID r, Fst.Timestamp r, Fst.Tail r, Fst.Sequence r, Fst.Origin r,
   Fst.Destination r, Fst.Latitude r, Fst.Longitude r, Fst.TAS r,
   Fst.RawData r).

(** The captures of one FST format with [a] latitude and [b] longitude
    digits. *)
Definition headerCaptures (a b : nat) (caps : list (string * string))
  : Prop :=
  exists seq origin dest latDir lat lonDir lon rest,
    caps = [("seq", seq); ("origin", origin); ("dest", dest);
            ("lat_dir", latDir); ("lat", lat); ("lon_dir", lonDir);
            ("lon", lon); ("rest", rest)]
    /\ (String.length seq = 2%nat /\ allDigits seq = true)
    /\ (String.length origin = 4%nat
        /\ Patterns.all Patterns.isUpper origin = true)
    /\ (String.length dest = 4%nat
        /\ Patterns.all Patterns.isUpper dest = true)
    /\ (latDir = "N" \/ latDir = "S")
    /\ (lonDir = "E" \/ lonDir = "W")
    /\ (String.length lat = a /\ allDigits lat = true)
    /\ (String.length lon = b /\ allDigits lon = true)
    /\ rest <> "".

(** What a match of the formats of [grok.go] holds. *)
Definition headerShape (m : Patterns.Match) : Prop :=
  let cap := Patterns.capture m in
  (String.length (cap "seq") = 2%nat /\ allDigits (cap "seq") = true)
  /\ (String.length (cap "origin") = 4%nat
      /\ Patterns.all Patterns.isUpper (cap "origin") = true)
  /\ (String.length (cap "dest") = 4%nat
      /\ Patterns.all Patterns.isUpper (cap "dest") = true)
  /\ (cap "lat_dir" = "N" \/ cap "lat_dir" = "S")
  /\ (cap "lon_dir" = "E" \/ cap "lon_dir" = "W")
  /\ allDigits (cap "lat") = true
  /\ allDigits (cap "lon") = true
  /\ (Patterns.FormatName m = "fst_7digit_lon"
        /\ String.length (cap "lat") = 6%nat
        /\ String.length (cap "lon") = 7%nat
      \/ Patterns.FormatName m = "fst_6digit"
        /\ String.length (cap "lat") = 6%nat
        /\ String.length (cap "lon") = 6%nat
      \/ Patterns.FormatName m = "fst_5digit_lon"
        /\ String.length (cap "lat") = 5%nat
        /\ String.length (cap "lon") = 5%nat)
  /\ cap "rest" <> "".

(** U+00A0, the no-break space, and U+3000, the ideographic space, in
    UTF-8. *)
Definition nbsp : string := String "194" (String "160" "").

Definition ideographicSpace : string :=
  String "227" (String "128" (String "128" "")).

(** [x] lies strictly between [-hi] and [hi]. *)
Definition within (x hi : float) : bool :=
  (- hi <? x)%float && (x <? hi)%float.

(** The magnitude of a coordinate: not negative, and within [hi] under
    either sign. *)
Definition magnitude (x hi : float) : bool :=
  (0 <=? x)%float && within x hi && within (- x) hi.

(** The values [parseCoord] computes from its digit fields, against the
    bounds of a coordinate. *)
Definition rangeDDMMD (d w t : Z) : bool :=
  let x := (float64 d + minutesTenths w t / 60)%float in
  magnitude x 100 && magnitude x 181.

Definition rangeDDMMTT (d w h : Z) : bool :=
  let x := (float64 d + minutes w h / 60)%float in
  magnitude x 100 && magnitude x 181.

Definition rangeDecimal (d f : Z) : bool :=
  let x := (float64 d + float64 f / 10000)%float in
  magnitude x 181 && (if d <=? 90 then magnitude x 100 else true).

(** What a result of the FST decoder over the formats of [grok.go]
    holds in its header and position fields. *)
Definition positionReport (r : Fst.Result) : Prop :=
  within (Fst.Latitude r) 100 = true
  /\ within (Fst.Longitude r) 181 = true
  /\ (String.length (Fst.Sequence r) = 2%nat
      /\ allDigits (Fst.Sequence r) = true)
  /\ (String.length (Fst.Origin r) = 4%nat
      /\ Patterns.all Patterns.isUpper (Fst.Origin r) = true)
  /\ (String.length (Fst.Destination r) = 4%nat
      /\ Patterns.all Patterns.isUpper (Fst.Destination r) = true)
  /\ Fst.RawData r <> "".

(** *** Label 80 results *)



(** [s] is empty or starts outside the class [p]. *)
Definition stops (p : ascii -> bool) (s : string) : Prop :=
  match s with
  | EmptyString => True
  | String c _ => p c = false
  end.

Definition alnum (c : ascii) : bool :=
  Patterns.isUpper c || Patterns.isDigit c.

(** The tokens [isLikelyFlight] accepts: one to four digits, alone or
    after two or three capital letters and before at most one. *)
Definition flightToken (t : string) : Prop :=
  exists letters ds suffix,
    t = letters ++ ds ++ suffix
    /\ Patterns.all Patterns.isUpper letters = true
    /\ Patterns.all Patterns.isDigit ds = true
    /\ Patterns.all Patterns.isUpper suffix = true
    /\ (1 <= String.length ds <= 4)%nat
    /\ (letters = "" /\ suffix = ""
        \/ (2 <= String.length letters <= 3)%nat
           /\ (String.length suffix <= 1)%nat).

(** A result names its airports as the table does. *)
Definition named (GetName : string -> string) (r : Label80.Result)
  : Prop :=
  (Label80.OriginICAO r <> ""
   -> Label80.OriginName r = GetName (Label80.OriginICAO r))
  /\ (Label80.DestICAO r <> ""
      -> Label80.DestName r = GetName (Label80.DestICAO r)).

End Derived.


(* ================================================================== *)
(** * Properties                                                      *)
(* ================================================================== *)

(* ------------------------------------------------------------------ *)
(** ** The repository's tests                                         *)
(* ------------------------------------------------------------------ *)

(** The cases of [TestParseCoord]. *)
Example TestParseCoord :
  Stated.near (Fst.parseCoord "452140") 45.3567 0.01 = true
  /\ Stated.near (Fst.parseCoord "0249275") 24.9275 0.01 = true
  /\ Stated.near (Fst.parseCoord "51420") 51.7 0.01 = true
  /\ Stated.near (Fst.parseCoord "031200") 3.2 0.01 = true.
Proof. vm_compute. repeat split; reflexivity. Qed.

(** The cases of [TestParser], in its order. *)
Example TestParser :
  Stated.testParser
    "FST01EGLLWSSSN452140E0249275330 854 242 M54C 6235410711950911600009590004"
    "EGLL" "WSSS" 45.3567 24.9275 330 854 "kmh" "KMH" (-54) 62 354 = true
  /\ Stated.testParser
       "FST01EGLLLFPGN452140E0249275330 485 242 M54C 623541"
       "EGLL" "LFPG" 45.3567 24.9275 330 485 "knots" "GS" (-54) 62 354 = true
  /\ Stated.testParser
       "FST01EGLLLFPGN452140E0249275330 235 242 M54C 623541"
       "EGLL" "LFPG" 45.3567 24.9275 330 242 "knots" "IAS+GS" (-54) 62 354
     = true
  /\ Stated.testParser
       "FST01EGLLOTHHN444207E0250872390 292 161 M64C 4330711512051411600020141628"
       "EGLL" "OTHH" 44.7012 25.0872 390 161 "knots" "IAS+GS" (-64) 43 307
     = true
  /\ Stated.testParser
       "FST01EGLLOBBIN467315E0193244350 289 124 M64C 6230011612051411600021071650"
       "EGLL" "OBBI" 46.7315 19.3244 350 124 "knots" "IAS+GS" (-64) 62 300
     = true
  /\ Stated.testParser
       "FST01WSSSEGLLN466873E0206998360 2001084 M52C 5431429329643811600005570349"
       "WSSS" "EGLL" 46.6873 20.6998 360 1084 "kmh" "IAS+KMH" (-52) 54 314
     = true
  /\ Stated.testParser
       "FST01OBBIEGLLN453619E0230053400 192 312 M49C 6328629129843211600006220349"
       "OBBI" "EGLL" 45.60316666666667 23.0053 400 312 "knots" "IAS+GS"
       (-49) 63 286
     = true.
Proof. vm_compute. repeat split; reflexivity. Qed.

(** The Label 80 decoder on a header, a wind and an altitude match. *)
Example Label80_position_report :
  let matches :=
    [ Patterns.mkMatch "wind" [("wdir", "370"); ("wspd", "36")];
      Patterns.mkMatch "header_format"
        [("msg_type", "POSRPT"); ("origin", "KIAH"); ("dest", "MMGL");
         ("tail", ".XA-VBC"); ("hdr1", "UAE81")];
      Patterns.mkMatch "altitude" [("altitude", " 350")] ] in
  option_map
    (fun r => (Label80.MsgID r, Label80.Tail r, Label80.FlightNum r,
               Label80.WindDir r, Label80.WindSpeedKmh r, Label80.Altitude r))
    (Label80.Parse (fun icao => icao) (fun _ _ => 0%float)
       (Some (Stated.fixedMatches matches))
       (Acars.mkMessage 7 "" "80" "body" ""))
  = Some (7, "XA-VBC", "UAE81", 10, 67, 35000).
Proof. vm_compute. reflexivity. Qed.

(** White space is [unicode.IsSpace]: a no-break space separates
    fields and is trimmed, as a space is. *)
Example white_space_runes :
  Go.Fields ("330 854 24" ++ Derived.nbsp ++ "M54C" ++ Derived.nbsp ++ "62354")
  = ["330"; "854"; "24"; "M54C"; "62354"]
  /\ Go.Fields ("330" ++ Derived.nbsp ++ "X 854 242")
     = ["330"; "X"; "854"; "242"]
  /\ Go.TrimSpace (Derived.nbsp ++ " 350" ++ Derived.ideographicSpace) = "350"
  /\ Go.TrimSpace ("FST01" ++ Derived.nbsp) = "FST01"
  /\ Derived.weather
       (Fst.parseFields
          ("330 854 24" ++ Derived.nbsp ++ "M54C" ++ Derived.nbsp ++ "62354")
          Fst.zero)
     = (-54, 62, 354)
  /\ Label80.formatHHMM (Derived.nbsp ++ "1037") = "10:37"
  /\ Label80.isLikelyFlight (Derived.nbsp ++ "UAE81") = true.
Proof. vm_compute. repeat split; reflexivity. Qed.

(** [Parse] does not reset a name: after the alternative header with
    origin AAAA, a header without origin leaves the name of AAAA with an
    empty origin. *)
Example Label80_name_left_over :
  let matches :=
    [ Patterns.mkMatch "alt_format"
        [("flight", "UAE81"); ("origin", "AAAA"); ("dest", "BBBB")];
      Patterns.mkMatch "header_format" [("msg_type", "POSRPT")] ] in
  option_map
    (fun r => (Label80.OriginICAO r, Label80.OriginName r))
    (Label80.Parse (fun icao => "airport " ++ icao) (fun _ _ => 0%float)
       (Some (Stated.fixedMatches matches))
       (Acars.mkMessage 7 "" "80" "body" ""))
  = Some ("", "airport AAAA").
Proof. vm_compute. reflexivity. Qed.

(** [formatHHMM] takes what [strconv.Atoi] takes, signs included. *)
Example formatHHMM_signs :
  Label80.formatHHMM "+1+2" = "+1:+2" /\ Label80.formatHHMM "-0-0" = "-0:-0".
Proof. vm_compute. split; reflexivity. Qed.

(** Case analysis on every [match] and [if] of the goal. *)
Ltac branches :=
  repeat match goal with
         | |- context [match ?x with _ => _ end] => destruct x
         end.

(** Case analysis on the integer comparisons of the goal. *)
Ltac zcases :=
  repeat match goal with
         | |- context [?a <? ?b] => destruct (Z.ltb_spec a b); try lia
         | |- context [?a <=? ?b] => destruct (Z.leb_spec a b); try lia
         | |- context [?a =? ?b] => destruct (Z.eqb_spec a b); try lia
         end;
  cbn [andb orb negb].

(** Names the characters of a string whose length is known. *)
Ltac explode s H :=
  repeat (destruct s as [|? s]; [discriminate H|]);
  destruct s; [clear H|discriminate H].

(* ------------------------------------------------------------------ *)
(** ** [Atoi] on digit strings                                        *)
(* ------------------------------------------------------------------ *)

Section AtoiOnDigits.

Import Go Digits.

Lemma below_spec (n : nat) (p : Z -> bool) :
  below n p = true -> forall z, 0 <= z < Z.of_nat n -> p z = true.
Proof.
  induction n as [|k IH]; intros Hb z Hz.
  - simpl in Hz. lia.
  - simpl in Hb. apply andb_prop in Hb. destruct Hb as [Hk Hrest].
    destruct (Z.eq_dec z (Z.of_nat k)) as [->|Hne]; [exact Hk|].
    apply IH; [exact Hrest|lia].
Qed.

Lemma minutes_table :
  below 100 (fun w => below 100 (fun h => minutesAgree w h)) = true.
Proof. vm_compute. reflexivity. Qed.

Lemma minutes_lt_60 (w h : Z) :
  0 <= w < 100 -> 0 <= h < 100 ->
  (minutes w h <? 60)%float = (w <? 60)
  /\ (60 <=? minutes w h)%float = (60 <=? w).
Proof.
  intros Hw Hh.
  pose proof (below_spec _ _ minutes_table w Hw) as Hrow.
  pose proof (below_spec _ _ Hrow h Hh) as Hcell.
  unfold minutesAgree in Hcell.
  apply andb_prop in Hcell. destruct Hcell as [H1 H2].
  apply Bool.eqb_prop in H1. apply Bool.eqb_prop in H2.
  split; assumption.
Qed.

Lemma tenths_table :
  below 100 (fun w => below 10 (fun t => tenthsAgree w t)) = true.
Proof. vm_compute. reflexivity. Qed.

Lemma tenths_ge_60 (w t : Z) :
  0 <= w < 100 -> 0 <= t < 10 ->
  (60 <=? minutesTenths w t)%float = (60 <=? w).
Proof.
  intros Hw Ht.
  pose proof (below_spec _ _ tenths_table w Hw) as Hrow.
  pose proof (below_spec _ _ Hrow t Ht) as Hcell.
  apply Bool.eqb_prop in Hcell. exact Hcell.
Qed.

Lemma ddmmtt_table :
  below 100
    (fun d => below 60 (fun w => below 100 (fun h => ddmmttClose d w h)))
  = true.
Proof. vm_compute. reflexivity. Qed.

Lemma ddmmtt_close (d w h : Z) :
  0 <= d < 100 -> 0 <= w < 60 -> 0 <= h < 100 -> ddmmttClose d w h = true.
Proof.
  intros Hd Hw Hh.
  pose proof (below_spec _ _ ddmmtt_table d Hd) as H1.
  pose proof (below_spec _ _ H1 w Hw) as H2.
  exact (below_spec _ _ H2 h Hh).
Qed.

Lemma isDigit_byte (c : ascii) :
  Patterns.isDigit c = true -> 48 <= byte c <= 57.
Proof.
  unfold Patterns.isDigit. intros H.
  apply andb_prop in H. destruct H as [H1 H2].
  apply Z.leb_le in H1. apply Z.leb_le in H2. lia.
Qed.

Lemma isDigit_not_sign (c : ascii) :
  Patterns.isDigit c = true ->
  Ascii.eqb c "-" = false /\ Ascii.eqb c "+" = false.
Proof.
  intros H. apply isDigit_byte in H.
  split; apply Ascii.eqb_neq; intros ->.
  - change (48 <= 45 <= 57) in H. lia.
  - change (48 <= 43 <= 57) in H. lia.
Qed.

Lemma digits_valueFrom (s : string) :
  allDigits s = true -> forall n, digits n s = Some (valueFrom n s).
Proof.
  induction s as [|c s IH]; intros Hs n; [reflexivity|].
  cbn [allDigits Patterns.all] in Hs.
  apply andb_prop in Hs. destruct Hs as [Hc Hs].
  pose proof (isDigit_byte c Hc) as Hb.
  cbn [digits valueFrom].
  rewrite (Z.mod_small (byte c - 48) 256) by lia.
  destruct (Z.ltb_spec 9 (byte c - 48)) as [Hgt|_]; [lia|].
  apply IH. exact Hs.
Qed.

(** The digit loop succeeds on digits only. *)
Lemma digits_inv (s : string) :
  forall n v, digits n s = Some v -> allDigits s = true /\ v = valueFrom n s.
Proof.
  induction s as [|c s IH]; intros n v H.
  - cbn in H. injection H as <-. split; reflexivity.
  - cbn [digits] in H.
    destruct (Z.ltb_spec 9 ((byte c - 48) mod 256)) as [|Hd]; [discriminate|].
    assert (Hc : Patterns.isDigit c = true).
    { unfold Patterns.isDigit.
      assert (0 <= byte c < 256).
      { unfold byte. pose proof (N_ascii_bounded c). lia. }
      destruct (Z.leb_spec 48 (byte c)) as [H48|H48].
      - rewrite Z.mod_small in Hd by lia.
        cbn [andb]. apply Z.leb_le. lia.
      - exfalso.
        replace (byte c - 48) with ((byte c + 208) + (-1) * 256) in Hd by lia.
        rewrite Z.mod_add in Hd by lia.
        rewrite Z.mod_small in Hd by lia. lia. }
    pose proof (isDigit_byte c Hc) as Hb.
    rewrite Z.mod_small in H by lia.
    destruct (IH _ _ H) as [Hs Hv].
    split; [cbn [allDigits Patterns.all]; rewrite Hc; exact Hs | exact Hv].
Qed.

Lemma valueFrom_bounds (s : string) :
  allDigits s = true ->
  forall n, 0 <= n ->
  n * 10 ^ Z.of_nat (String.length s) <= valueFrom n s
  < (n + 1) * 10 ^ Z.of_nat (String.length s).
Proof.
  induction s as [|c s IH]; intros Hs n Hn.
  - cbn. lia.
  - cbn [allDigits Patterns.all] in Hs.
    apply andb_prop in Hs. destruct Hs as [Hc Hs].
    pose proof (isDigit_byte c Hc) as Hb.
    cbn [valueFrom String.length].
    rewrite Nat2Z.inj_succ, Z.pow_succ_r by lia.
    specialize (IH Hs (n * 10 + (byte c - 48)) ltac:(lia)).
    set (P := 10 ^ Z.of_nat (String.length s)) in *.
    assert (0 < P) by (apply Z.pow_pos_nonneg; lia).
    nia.
Qed.

(** [Atoi] reads a run of at most 18 digits as the number it writes. *)
Lemma Atoi_digits (s : string) :
  s <> EmptyString -> allDigits s = true -> (String.length s <= 18)%nat ->
  Atoi s = Some (valueFrom 0 s).
Proof.
  intros Hne Hs Hlen.
  destruct s as [|c s]; [congruence|].
  pose proof (valueFrom_bounds _ Hs 0 ltac:(lia)) as Hb.
  pose proof (digits_valueFrom _ Hs 0) as Hd.
  cbn [allDigits Patterns.all] in Hs.
  apply andb_prop in Hs. destruct Hs as [Hc _].
  destruct (isDigit_not_sign c Hc) as [Hm Hp].
  unfold Atoi. rewrite Hm, Hp. cbn [orb].
  rewrite Hd.
  assert (Hpow : 10 ^ Z.of_nat (String.length (String c s)) <= 10 ^ 18)
    by (apply Z.pow_le_mono_r; lia).
  assert (Hr : inRange (valueFrom 0 (String c s)) = true).
  { unfold inRange, MinInt, MaxInt.
    apply andb_true_intro; split; apply Z.leb_le; lia. }
  rewrite Hr. reflexivity.
Qed.

(** What [Atoi] accepts: digits, with or without a sign before them. *)
Lemma Atoi_inv (s : string) (v : Z) :
  Atoi s = Some v ->
  exists body,
    body <> EmptyString /\ allDigits body = true /\
    ((s = body /\ v = valueFrom 0 body)
     \/ (s = String "+" body /\ v = valueFrom 0 body)
     \/ (s = String "-" body /\ v = - valueFrom 0 body)).
Proof.
  unfold Atoi. destruct s as [|c rest]; [discriminate|].
  destruct (Ascii.eqb_spec c "-") as [->|Hm]; cbn [orb].
  - destruct rest as [|c1 rest]; [discriminate|].
    destruct (digits 0 (String c1 rest)) as [n|] eqn:Hd; [|discriminate].
    destruct (inRange (- n)); [|discriminate].
    intros H. injection H as <-.
    apply digits_inv in Hd. destruct Hd as [Hs ->].
    exists (String c1 rest). repeat split; try discriminate; auto.
  - destruct (Ascii.eqb_spec c "+") as [->|Hp].
    + destruct rest as [|c1 rest]; [discriminate|].
      destruct (digits 0 (String c1 rest)) as [n|] eqn:Hd; [|discriminate].
      destruct (inRange n); [|discriminate].
      intros H. injection H as <-.
      apply digits_inv in Hd. destruct Hd as [Hs ->].
      exists (String c1 rest). repeat split; try discriminate; auto.
    + destruct (digits 0 (String c rest)) as [n|] eqn:Hd; [|discriminate].
      destruct (inRange n); [|discriminate].
      intros H. injection H as <-.
      apply digits_inv in Hd. destruct Hd as [Hs ->].
      exists (String c rest). repeat split; try discriminate; auto.
Qed.

Lemma Atoi_signed (c : ascii) (body : string) :
  c = "+"%char \/ c = "-"%char ->
  body <> EmptyString -> allDigits body = true ->
  (String.length body <= 18)%nat ->
  exists v, Atoi (String c body) = Some v.
Proof.
  intros Hc Hne Hs Hlen.
  pose proof (valueFrom_bounds _ Hs 0 ltac:(lia)) as Hb.
  assert (Hpow : 10 ^ Z.of_nat (String.length body) <= 10 ^ 18)
    by (apply Z.pow_le_mono_r; lia).
  destruct body as [|c1 body]; [congruence|].
  destruct Hc as [-> | ->]; unfold Atoi;
    cbn [Ascii.eqb Bool.eqb orb andb];
    rewrite (digits_valueFrom _ Hs 0);
    match goal with
    | |- context [inRange ?v] =>
        assert (Hr : inRange v = true)
          by (unfold inRange, MinInt, MaxInt;
              apply andb_true_intro; split; apply Z.leb_le; lia);
        rewrite Hr; eexists; reflexivity
    end.
Qed.

Lemma substring_length (s : string) :
  forall lo n, (lo + n <= String.length s)%nat ->
  String.length (substring lo n s) = n.
Proof.
  induction s as [|c s IH]; intros lo n H; cbn [String.length] in H.
  - assert (lo = 0%nat) by lia. assert (n = 0%nat) by lia. subst. reflexivity.
  - destruct lo as [|lo]; destruct n as [|n]; cbn [substring String.length].
    + reflexivity.
    + rewrite IH by lia. reflexivity.
    + apply IH. lia.
    + apply IH. lia.
Qed.

Lemma substring_all (p : ascii -> bool) (s : string) :
  Patterns.all p s = true ->
  forall lo n, Patterns.all p (substring lo n s) = true.
Proof.
  induction s as [|c s IH]; intros Hs lo n.
  - destruct lo, n; reflexivity.
  - cbn [Patterns.all] in Hs. apply andb_prop in Hs. destruct Hs as [Hc Hs].
    destruct lo as [|lo]; destruct n as [|n]; cbn [substring Patterns.all].
    + reflexivity.
    + rewrite Hc. cbn [andb]. apply IH. exact Hs.
    + apply IH. exact Hs.
    + apply IH. exact Hs.
Qed.

(** A field [s[lo:hi]] of a digit string parses as the number it
    writes, which has at most [hi - lo] digits. *)
Lemma Atoi_field (s : string) (lo hi : nat) :
  allDigits s = true ->
  (lo < hi)%nat -> (hi <= String.length s)%nat -> (hi - lo <= 18)%nat ->
  Atoi (slice s lo hi) = Some (num s lo hi)
  /\ 0 <= num s lo hi < 10 ^ Z.of_nat (hi - lo).
Proof.
  intros Hs Hlt Hhi Hw.
  assert (Hlen : String.length (slice s lo hi) = (hi - lo)%nat)
    by (apply substring_length; lia).
  assert (Hall : allDigits (slice s lo hi) = true)
    by (apply substring_all; exact Hs).
  split.
  - apply Atoi_digits.
    + intros Heq. rewrite Heq in Hlen. cbn in Hlen. lia.
    + exact Hall.
    + lia.
  - pose proof (valueFrom_bounds _ Hall 0 ltac:(lia)) as Hb.
    rewrite Hlen in Hb. unfold num. lia.
Qed.

(** A string [Atoi] reads, five characters or more, starts with three
    characters [Atoi] reads as well. *)
Lemma Atoi_prefix3 (s : string) (v : Z) :
  Atoi s = Some v -> (4 < String.length s)%nat ->
  exists ias, Atoi (slice s 0 3) = Some ias.
Proof.
  intros H Hlen.
  destruct (Atoi_inv s v H) as [body [Hne [Hs [[-> _]|[[-> _]|[-> _]]]]]].
  - destruct (Atoi_field body 0 3 Hs) as [A _]; try lia.
    eexists; exact A.
  - cbn [String.length] in Hlen.
    unfold slice. cbn [Nat.sub substring].
    apply Atoi_signed; auto.
    + intros Heq.
      pose proof (substring_length body 0 2 ltac:(lia)) as Hl.
      rewrite Heq in Hl. discriminate.
    + apply substring_all. exact Hs.
    + rewrite substring_length; lia.
  - cbn [String.length] in Hlen.
    unfold slice. cbn [Nat.sub substring].
    apply Atoi_signed; auto.
    + intros Heq.
      pose proof (substring_length body 0 2 ltac:(lia)) as Hl.
      rewrite Heq in Hl. discriminate.
    + apply substring_all. exact Hs.
    + rewrite substring_length; lia.
Qed.

Ltac split_digits H :=
  cbn [allDigits Patterns.all] in H;
  repeat (let Hc := fresh "Hc" in
          apply andb_prop in H; destruct H as [Hc H];
          apply isDigit_byte in Hc);
  clear H.

(** A seven-character string that [Atoi] reads above 1,000,000 is
    seven digits: the first three times 10000, plus the last four. *)
Lemma Atoi_packed (s : string) (v : Z) :
  Atoi s = Some v -> String.length s = 7%nat -> 1000000 < v ->
  allDigits s = true /\ v = num s 0 3 * 10000 + num s 3 7.
Proof.
  intros H Hlen Hv.
  destruct (Atoi_inv s v H) as [body [Hne [Hs [[-> ->]|[[-> ->]|[-> ->]]]]]].
  - split; [exact Hs|].
    explode body Hlen. split_digits Hs.
    unfold num, slice. cbn [substring Nat.sub valueFrom]. lia.
  - exfalso. cbn [String.length] in Hlen.
    pose proof (valueFrom_bounds _ Hs 0 ltac:(lia)) as Hb.
    replace (String.length body) with 6%nat in Hb by lia.
    change (10 ^ Z.of_nat 6) with 1000000 in Hb. lia.
  - exfalso.
    pose proof (valueFrom_bounds _ Hs 0 ltac:(lia)) as Hb.
    assert (0 <= 10 ^ Z.of_nat (String.length body))
      by (apply Z.pow_nonneg; lia).
    lia.
Qed.

(** A three-digit degree field continues the two-digit one. *)
Lemma num_three_digits (s : string) :
  String.length s = 6%nat -> allDigits s = true ->
  exists d, 0 <= d <= 9 /\ num s 0 3 = num s 0 2 * 10 + d.
Proof.
  intros Hlen Hs. explode s Hlen. split_digits Hs.
  unfold num, slice. cbn [substring Nat.sub valueFrom].
  match goal with
  | |- context [_ * 10 + (byte ?c - 48) = _] => exists (byte c - 48)
  end.
  split; lia.
Qed.

End AtoiOnDigits.

(* ------------------------------------------------------------------ *)
(** ** FST coordinates                                                *)
(* ------------------------------------------------------------------ *)

Section ParseCoord.

Import Go Digits Fst.

Lemma parseCoord_dispatch (s : string) :
  parseCoord s =
    match String.length s with
    | 5%nat => parseCoord5 s
    | 6%nat => parseCoord6 s
    | 7%nat => parseCoord7 s
    | _ => 0%float
    end.
Proof.
  unfold parseCoord, len.
  destruct (String.length s) as [|[|[|[|[|[|[|[|n]]]]]]]]; try reflexivity.
  destruct (Z.ltb_spec (Z.of_nat (S (S (S (S (S (S (S (S n))))))))) 5); [lia|].
  repeat match goal with
         | |- context [?a =? ?b] => destruct (Z.eqb_spec a b); [lia|]
         end.
  reflexivity.
Qed.

(** The first attempt on six digits: the whole minutes decide between
    DDMMTT and the decimal reading. *)
Lemma tryDDMMTT_digits (s : string) :
  String.length s = 6%nat -> allDigits s = true ->
  tryDDMMTT s =
    if num s 2 4 <? 60
    then Continue (num s 0 2, minutes (num s 2 4) (num s 4 6))
    else if num s 0 2 <=? 90
    then Return (float64 (num s 0 2) + float64 (num s 2 6) / 10000)%float
    else Continue (0, 0%float).
Proof.
  intros Hlen Hs.
  destruct (Atoi_field s 0 2 Hs) as [A02 B02]; try lia.
  destruct (Atoi_field s 2 4 Hs) as [A24 B24]; try lia.
  destruct (Atoi_field s 4 6 Hs) as [A46 B46]; try lia.
  destruct (Atoi_field s 2 6 Hs) as [A26 _]; try lia.
  change (10 ^ Z.of_nat (2 - 0)) with 100 in B02.
  change (10 ^ Z.of_nat (4 - 2)) with 100 in B24.
  change (10 ^ Z.of_nat (6 - 4)) with 100 in B46.
  unfold tryDDMMTT. rewrite A02, A24, A46, A26.
  destruct (minutes_lt_60 (num s 2 4) (num s 4 6) B24 B46) as [Hlt Hge].
  fold (minutes (num s 2 4) (num s 4 6)). rewrite Hlt, Hge.
  destruct (Z.leb_spec (num s 0 2) 180) as [_|Hbig]; [|lia].
  cbn [andb].
  destruct (Z.ltb_spec (num s 2 4) 60) as [Hw|Hw]; [reflexivity|].
  destruct (Z.leb_spec 60 (num s 2 4)) as [_|Hw']; [|lia].
  rewrite andb_true_r. reflexivity.
Qed.

(** On six digits the second attempt never applies: when the first
    leaves [deg] at 0 the two-digit degrees are 0 or above 90, and the
    three-digit degrees are then below 10 or above 909. *)
Lemma tryDDDMMD_digits (s : string) (min : float) :
  String.length s = 6%nat -> allDigits s = true ->
  num s 0 2 = 0 \/ 90 < num s 0 2 ->
  tryDDDMMD s (0, min) = (0, min).
Proof.
  intros Hlen Hs Hdeg.
  destruct (num_three_digits s Hlen Hs) as [d [Hd H3]].
  unfold tryDDDMMD.
  destruct (Atoi_field s 0 3 Hs) as [A03 _]; try lia.
  rewrite A03.
  destruct (Atoi (slice s 3 5)); [|reflexivity].
  destruct (Atoi (slice s 5 6)); [|reflexivity].
  cbn [Z.eqb andb].
  destruct (Z.ltb_spec 90 (num s 0 3)); [|reflexivity].
  destruct (Z.leb_spec (num s 0 3) 180); [lia|reflexivity].
Qed.

(** The second attempt leaves non-zero degrees alone. *)
Lemma tryDDDMMD_nonzero (s : string) (deg : Z) (min : float) :
  deg <> 0 -> tryDDDMMD s (deg, min) = (deg, min).
Proof.
  intros Hnz. unfold tryDDDMMD.
  destruct (Atoi (slice s 0 3)); [|reflexivity].
  destruct (Atoi (slice s 3 5)); [|reflexivity].
  destruct (Atoi (slice s 5 6)); [|reflexivity].
  destruct (Z.eqb_spec deg 0); [contradiction|reflexivity].
Qed.

(** What [parseCoord] returns on six digits: DDMMTT below 60 minutes
    unless the degrees are 00, the decimal reading from 60 minutes on
    up to 90 degrees, and 0 otherwise. *)
Lemma parseCoord6_digits (s : string) :
  String.length s = 6%nat -> allDigits s = true ->
  parseCoord s =
    if num s 2 4 <? 60 then
      if num s 0 2 =? 0 then 0%float
      else (float64 (num s 0 2) + minutes (num s 2 4) (num s 4 6) / 60)%float
    else if num s 0 2 <=? 90
    then (float64 (num s 0 2) + float64 (num s 2 6) / 10000)%float
    else 0%float.
Proof.
  intros Hlen Hs.
  rewrite parseCoord_dispatch, Hlen.
  unfold parseCoord6, resolve6.
  rewrite (tryDDMMTT_digits s Hlen Hs).
  destruct (Atoi_field s 2 4 Hs) as [_ B24]; try lia.
  destruct (Atoi_field s 4 6 Hs) as [_ B46]; try lia.
  change (10 ^ Z.of_nat (4 - 2)) with 100 in B24.
  change (10 ^ Z.of_nat (6 - 4)) with 100 in B46.
  destruct (Z.ltb_spec (num s 2 4) 60) as [Hw|Hw].
  - destruct (Z.eqb_spec (num s 0 2) 0) as [Hz|Hnz].
    + rewrite Hz at 1. rewrite tryDDDMMD_digits by auto.
      reflexivity.
    + rewrite tryDDDMMD_nonzero by exact Hnz.
      destruct (Z.eqb_spec (num s 0 2) 0); [contradiction|].
      unfold degMin.
      destruct (minutes_lt_60 (num s 2 4) (num s 4 6) B24 B46) as [_ Hge].
      rewrite Hge.
      destruct (Z.leb_spec 60 (num s 2 4)); [lia|reflexivity].
  - destruct (Z.leb_spec (num s 0 2) 90) as [Hd|Hd]; [reflexivity|].
    rewrite tryDDDMMD_digits by auto. reflexivity.
Qed.

(** What [parseCoord] returns on seven digits. *)
Lemma parseCoord7_digits (s : string) :
  String.length s = 7%nat -> allDigits s = true ->
  parseCoord s =
    if num s 0 3 <=? 180
    then (float64 (num s 0 3) + float64 (num s 3 7) / 10000)%float
    else 0%float.
Proof.
  intros Hlen Hs.
  rewrite parseCoord_dispatch, Hlen.
  unfold parseCoord7.
  destruct (Atoi_field s 0 3 Hs) as [A03 _]; try lia.
  destruct (Atoi_field s 3 7 Hs) as [A37 _]; try lia.
  rewrite A03, A37.
  destruct (Z.ltb_spec 180 (num s 0 3)), (Z.leb_spec (num s 0 3) 180);
    try lia; reflexivity.
Qed.

(** C1, at the input where the code leaves it: the six digits "003000"
    are 0 degrees 30.00 minutes. The DDMMTT attempt accepts them, and
    the claim's value deg + (min*100 + hundredths)/6000 is 0.5; but
    [parseCoord] returns 0, because it takes the zero degrees for "no
    format matched", and the decoder reports latitude 0 for a message
    with that field. The five- and seven-digit branches of the same
    function return the half degree for their zero-degree inputs. *)
Theorem parseCoord_zero_degrees_dropped :
  tryDDMMTT "003000" = Continue (0, 30%float)
  /\ (float64 0 + float64 (30 * 100 + 0) / 6000)%float = 0.5%float
  /\ parseCoord "003000" = 0%float
  /\ option_map Latitude
       (Stated.fstParse
          (Stated.label15
             "FST01EGLLWSSSN003000E0249275330 854 242 M54C 623541"))
     = Some 0%float
  /\ parseCoord "00300" = 0.5%float
  /\ parseCoord "0005000" = 0.5%float.
Proof. vm_compute. repeat split; reflexivity. Qed.

(** C8: on seven digits whose leading three-digit degrees are at most
    180, [parseCoord] returns deg + frac/10000, the degrees being the
    first three digits and the fraction the last four; above 180
    degrees it returns 0. *)
Theorem parseCoord_seven_digits (s : string) :
  String.length s = 7%nat -> allDigits s = true ->
  0 <= num s 0 3 < 1000 /\ 0 <= num s 3 7 < 10000
  /\ (num s 0 3 <= 180 ->
      parseCoord s = (float64 (num s 0 3) + float64 (num s 3 7) / 10000)%float)
  /\ (180 < num s 0 3 -> parseCoord s = 0%float).
Proof.
  intros Hlen Hs.
  destruct (Atoi_field s 0 3 Hs) as [_ B03]; try lia.
  destruct (Atoi_field s 3 7 Hs) as [_ B37]; try lia.
  change (10 ^ Z.of_nat (3 - 0)) with 1000 in B03.
  change (10 ^ Z.of_nat (7 - 3)) with 10000 in B37.
  rewrite (parseCoord7_digits s Hlen Hs).
  repeat split; try lia; intros H;
    destruct (Z.leb_spec (num s 0 3) 180); try lia; reflexivity.
Qed.

Lemma parseCoord_seven_digits_witness :
  parseCoord "0249275" = (float64 24 + float64 9275 / 10000)%float.
Proof.
  destruct (parseCoord_seven_digits "0249275" eq_refl eq_refl)
    as [_ [_ [H _]]].
  apply H. vm_compute. discriminate.
Defined.

(** C10: a six-digit string whose degrees resolve to zero gives 0. When
    control reaches the test [deg == 0] with [deg] at 0, [parseCoord]
    returns 0; in particular for digits that start with "00" and have
    whole minutes below 60, where the DDMMTT attempt has stored the
    minutes, the encoded fraction of a degree is not returned. *)
Theorem parseCoord6_zero_degrees (s : string) :
  String.length s = 6%nat ->
  (forall min, resolve6 s = Continue (0, min) -> parseCoord s = 0%float)
  /\ (allDigits s = true -> slice s 0 2 = "00" -> num s 2 4 < 60 ->
      resolve6 s = Continue (0, minutes (num s 2 4) (num s 4 6))
      /\ parseCoord s = 0%float).
Proof.
  intros Hlen. split.
  - intros min Hres.
    rewrite parseCoord_dispatch, Hlen. unfold parseCoord6.
    rewrite Hres. reflexivity.
  - intros Hs H00 Hw.
    assert (Hz : num s 0 2 = 0) by (unfold num; rewrite H00; reflexivity).
    split.
    + unfold resolve6. rewrite (tryDDMMTT_digits s Hlen Hs).
      destruct (Z.ltb_spec (num s 2 4) 60); [|lia].
      rewrite Hz. rewrite tryDDDMMD_digits by auto. reflexivity.
    + rewrite (parseCoord6_digits s Hlen Hs).
      destruct (Z.ltb_spec (num s 2 4) 60); [|lia].
      rewrite Hz. reflexivity.
Qed.

Lemma parseCoord6_zero_degrees_witness :
  resolve6 "003000" = Continue (0, 30%float)
  /\ parseCoord "003000" = 0%float.
Proof.
  destruct (parseCoord6_zero_degrees "003000" eq_refl) as [_ H].
  exact (H eq_refl eq_refl eq_refl).
Defined.

(** X1: what [parseCoord] returns on every string of six digits, with
    degrees the first two digits, whole minutes the next two and
    hundredths the last two. Below 60 minutes and with non-zero degrees
    it is the DDMMTT value deg + (min + hundredths/100)/60, within 2^-40
    of deg + (min*100 + hundredths)/6000; below 60 minutes with degrees
    00 it is 0; from 60 minutes on and up to 90 degrees it is the
    decimal reading deg + last4/10000; otherwise it is 0, and the DDDMMD
    reading is never taken. *)
Theorem parseCoord_six_digits (s : string) :
  String.length s = 6%nat -> allDigits s = true ->
  let d := num s 0 2 in
  let w := num s 2 4 in
  let h := num s 4 6 in
  (w < 60 -> d <> 0 ->
   parseCoord s = (float64 d + minutes w h / 60)%float
   /\ Stated.near (parseCoord s)
        (float64 d + float64 (w * 100 + h) / 6000)%float 0x1p-40%float = true)
  /\ (w < 60 -> d = 0 -> parseCoord s = 0%float)
  /\ (60 <= w -> d <= 90 ->
      parseCoord s = (float64 d + float64 (num s 2 6) / 10000)%float)
  /\ (60 <= w -> 90 < d -> parseCoord s = 0%float).
Proof.
  intros Hlen Hs d w h. subst d w h.
  rewrite (parseCoord6_digits s Hlen Hs).
  destruct (Atoi_field s 0 2 Hs) as [_ B02]; try lia.
  destruct (Atoi_field s 2 4 Hs) as [_ B24]; try lia.
  destruct (Atoi_field s 4 6 Hs) as [_ B46]; try lia.
  change (10 ^ Z.of_nat (2 - 0)) with 100 in B02.
  change (10 ^ Z.of_nat (4 - 2)) with 100 in B24.
  change (10 ^ Z.of_nat (6 - 4)) with 100 in B46.
  split; [|split; [|split]]; intros Hw Hd.
  - destruct (Z.ltb_spec (num s 2 4) 60); [|lia].
    destruct (Z.eqb_spec (num s 0 2) 0); [contradiction|].
    split; [reflexivity|].
    apply (ddmmtt_close (num s 0 2) (num s 2 4) (num s 4 6)); lia.
  - destruct (Z.ltb_spec (num s 2 4) 60); [|lia].
    destruct (Z.eqb_spec (num s 0 2) 0); [reflexivity|contradiction].
  - destruct (Z.ltb_spec (num s 2 4) 60); [lia|].
    destruct (Z.leb_spec (num s 0 2) 90); [reflexivity|lia].
  - destruct (Z.ltb_spec (num s 2 4) 60); [lia|].
    destruct (Z.leb_spec (num s 0 2) 90); [lia|reflexivity].
Qed.

Lemma parseCoord_six_digits_witness :
  parseCoord "452140" = (float64 45 + minutes 21 40 / 60)%float
  /\ parseCoord "467315" = (float64 46 + float64 7315 / 10000)%float.
Proof.
  split.
  - destruct (parseCoord_six_digits "452140" eq_refl eq_refl) as [H _].
    apply H; [reflexivity|discriminate].
  - destruct (parseCoord_six_digits "467315" eq_refl eq_refl)
      as [_ [_ [H _]]].
    apply H; discriminate.
Defined.

(** X2: what [parseCoord] returns on every string of five digits
    (DDMMD): with whole minutes below 60, the degrees plus the minutes
    and tenths over 60; with a minute field of 60 or more, 0. *)
Theorem parseCoord_five_digits (s : string) :
  String.length s = 5%nat -> allDigits s = true ->
  (num s 2 4 < 60 ->
   parseCoord s
   = (float64 (num s 0 2) + minutesTenths (num s 2 4) (num s 4 5) / 60)%float)
  /\ (60 <= num s 2 4 -> parseCoord s = 0%float).
Proof.
  intros Hlen Hs.
  rewrite parseCoord_dispatch, Hlen. unfold parseCoord5.
  destruct (Atoi_field s 0 2 Hs) as [A02 _]; try lia.
  destruct (Atoi_field s 2 4 Hs) as [A24 B24]; try lia.
  destruct (Atoi_field s 4 5 Hs) as [A45 B45]; try lia.
  change (10 ^ Z.of_nat (4 - 2)) with 100 in B24.
  change (10 ^ Z.of_nat (5 - 4)) with 10 in B45.
  rewrite A02, A24, A45.
  fold (minutesTenths (num s 2 4) (num s 4 5)).
  unfold degMin. rewrite (tenths_ge_60 _ _ B24 B45).
  split; intros Hw; destruct (Z.leb_spec 60 (num s 2 4)); try lia; reflexivity.
Qed.

Lemma parseCoord_five_digits_witness :
  parseCoord "51420" = (float64 51 + minutesTenths 42 0 / 60)%float.
Proof.
  destruct (parseCoord_five_digits "51420" eq_refl eq_refl) as [H _].
  apply H. reflexivity.
Defined.

End ParseCoord.

(* ------------------------------------------------------------------ *)
(** ** FST fields                                                     *)
(* ------------------------------------------------------------------ *)

Section ParseFields.

Import Go Digits Fst Stated.

(** The classes of the speed token, on [parseSpeed] alone. *)
Lemma parseSpeed_classes (parts : list string) (result : Result)
    (speedStr : string) (speed : Z) :
  nth_error parts 1 = Some speedStr -> Atoi speedStr = Some speed ->
  0 < speed ->
  let r := parseSpeed parts result in
  let next := match nth_error parts 2 with
              | Some t => Atoi t
              | None => None
              end in
  let packed := len speedStr = 7 /\ 1000000 < speed in
  let legacy := ~ packed /\ 1000 < speed /\ 4 < len speedStr in
  (packed ->
   speed = num speedStr 0 3 * 10000 + num speedStr 3 7
   /\ speedOf r = (num speedStr 0 3, num speedStr 3 7, "kmh", "IAS+KMH"))
  /\ (legacy ->
      exists ias, Atoi (slice speedStr 0 3) = Some ias
      /\ speedOf r = (ias, GroundSpeed result, SpeedUnit result, "IAS"))
  /\ (~ packed -> ~ legacy ->
      (700 <= speed <= 1000 -> speedOf r = (IAS result, speed, "kmh", "KMH"))
      /\ (350 <= speed < 700 ->
          speedOf r = (IAS result, speed, "knots", "GS"))
      /\ (100 <= speed < 350 ->
          match next with
          | Some n =>
              if (100 <=? n) && (n <? 1000) then
                speedOf r = (speed, n,
                             if 700 <=? n then "kmh" else "knots",
                             if 700 <=? n then "IAS+KMH" else "IAS+GS")
              else
                speedOf r = (speed, GroundSpeed result, SpeedUnit result, "IAS")
          | None =>
              speedOf r = (speed, GroundSpeed result, SpeedUnit result, "IAS")
          end)
      /\ (speed < 100 \/ 1000 < speed ->
          speedOf r = (IAS result, speed, "knots", "GS"))).
Proof.
  intros Hnth Hatoi Hpos r next packed legacy.
  subst r packed legacy next.
  unfold parseSpeed. rewrite Hnth, Hatoi.
  destruct (Z.ltb_spec 0 speed) as [_|]; [|lia]. cbn [negb].
  split; [|split].
  - intros [Hlen Hbig].
    assert (Hlen' : String.length speedStr = 7%nat)
      by (unfold len in Hlen; lia).
    destruct (Atoi_packed _ _ Hatoi Hlen' Hbig) as [Hs Hsplit].
    destruct (Atoi_field speedStr 0 3 Hs) as [A03 _]; try lia.
    destruct (Atoi_field speedStr 3 7 Hs) as [A37 _]; try lia.
    rewrite A03, A37.
    destruct (Z.eqb_spec (len speedStr) 7); [|lia].
    destruct (Z.ltb_spec 1000000 speed); [|lia].
    split; [exact Hsplit|reflexivity].
  - intros [Hnp [Hbig Hlen]].
    assert (Hlen' : (4 < String.length speedStr)%nat)
      by (unfold len in Hlen; lia).
    destruct (Atoi_prefix3 _ _ Hatoi Hlen') as [ias Hias].
    exists ias. split; [exact Hias|].
    rewrite Hias.
    destruct (Z.eqb_spec (len speedStr) 7) as [H7|H7];
      destruct (Z.ltb_spec 1000000 speed) as [Hm|Hm]; cbn [andb];
      try (exfalso; apply Hnp; split; assumption);
      destruct (Z.ltb_spec 1000 speed); try lia;
      destruct (Z.ltb_spec 4 (len speedStr)); try lia; reflexivity.
  - intros Hnp Hnl.
    assert (Hp : (len speedStr =? 7) && (1000000 <? speed) = false).
    { destruct (Z.eqb_spec (len speedStr) 7);
        destruct (Z.ltb_spec 1000000 speed); try reflexivity.
      exfalso. apply Hnp. split; assumption. }
    assert (Hl : (1000 <? speed) && (4 <? len speedStr) = false).
    { destruct (Z.ltb_spec 1000 speed);
        destruct (Z.ltb_spec 4 (len speedStr)); try reflexivity.
      exfalso. apply Hnl. repeat split; assumption. }
    rewrite Hp, Hl.
    repeat split.
    + intros Hr. zcases. reflexivity.
    + intros Hr. zcases. reflexivity.
    + intros Hr. zcases.
      destruct (nth_error parts 2) as [t|]; [|reflexivity].
      destruct (Atoi t) as [n|]; [|reflexivity].
      zcases; reflexivity.
    + intros Hr. zcases; reflexivity.
Qed.

Lemma kept_refl (r : Result) : kept r r.
Proof. split; auto. Qed.

Lemma kept_trans (r0 r1 r2 : Result) :
  kept r0 r1 -> kept r1 r2 -> kept r0 r2.
Proof. intros [A B] [C D]. split; [congruence|auto]. Qed.

Lemma parseFlightLevel_kept parts r : kept r (parseFlightLevel parts r).
Proof. unfold parseFlightLevel. branches; split; cbn; auto. Qed.

Lemma parseSpeed_kept parts r : kept r (parseSpeed parts r).
Proof. unfold parseSpeed. branches; split; cbn; auto. Qed.

Lemma windSSDDD_kept w r : kept r (windSSDDD w r).
Proof.
  unfold windSSDDD.
  destruct (Atoi (slice w 0 2)) as [ws|]; [|apply kept_refl].
  destruct ((0 <=? ws) && (ws <=? 99)); [|apply kept_refl].
  destruct (Atoi (slice w 2 5)) as [wd|]; [|apply kept_refl].
  destruct (Z.leb_spec 0 wd), (Z.leb_spec wd 360); cbn [andb];
    try apply kept_refl.
  split; cbn; [reflexivity|lia].
Qed.

Lemma windSSSDDD_kept w r : kept r (windSSSDDD w r).
Proof.
  unfold windSSSDDD.
  destruct ((WindSpeed r =? 0) && (6 <=? len w)); [|apply kept_refl].
  destruct (Atoi (slice w 0 3)) as [ws|]; [|apply kept_refl].
  destruct ((100 <=? ws) && (ws <=? 999)); [|apply kept_refl].
  destruct (Atoi (slice w 3 6)) as [wd|]; [|apply kept_refl].
  destruct (Z.leb_spec 0 wd), (Z.leb_spec wd 360); cbn [andb];
    try apply kept_refl.
  split; cbn; [reflexivity|lia].
Qed.

Lemma parseWind_kept w r : kept r (parseWind w r).
Proof.
  unfold parseWind.
  destruct (5 <=? len w); [|apply kept_refl].
  eapply kept_trans; [apply windSSDDD_kept|apply windSSSDDD_kept].
Qed.

Lemma storeTemp_kept sign temp r : kept r (storeTemp sign temp r).
Proof. unfold storeTemp. destruct (String.eqb sign "M"); split; cbn; auto. Qed.

Lemma scanTemp_kept rest : forall r, kept r (scanTemp rest r).
Proof.
  induction rest as [|tok rest IH]; intros r; cbn [scanTemp].
  - apply kept_refl.
  - destruct (tempPattern tok) as [[sign ds]|]; [|apply IH].
    destruct (Atoi ds) as [temp|]; [|apply IH].
    destruct rest as [|w rest']; [apply storeTemp_kept|].
    eapply kept_trans; [apply storeTemp_kept|apply parseWind_kept].
Qed.

Lemma parseFields_kept data r : kept r (parseFields data r).
Proof.
  unfold parseFields, parseParts.
  eapply kept_trans; [apply parseFlightLevel_kept|].
  eapply kept_trans; [apply parseSpeed_kept|].
  apply scanTemp_kept.
Qed.

Lemma speedOf_parseFlightLevel parts r :
  speedOf (parseFlightLevel parts r) = speedOf r.
Proof. unfold parseFlightLevel. branches; reflexivity. Qed.

Lemma speedOf_windSSDDD w r : speedOf (windSSDDD w r) = speedOf r.
Proof. unfold windSSDDD. branches; reflexivity. Qed.

Lemma speedOf_windSSSDDD w r : speedOf (windSSSDDD w r) = speedOf r.
Proof. unfold windSSSDDD. branches; reflexivity. Qed.

Lemma speedOf_parseWind w r : speedOf (parseWind w r) = speedOf r.
Proof.
  unfold parseWind. destruct (5 <=? len w); [|reflexivity].
  rewrite speedOf_windSSSDDD. apply speedOf_windSSDDD.
Qed.

Lemma speedOf_storeTemp sign temp r :
  speedOf (storeTemp sign temp r) = speedOf r.
Proof. unfold storeTemp. destruct (String.eqb sign "M"); reflexivity. Qed.

(** The temperature scan leaves the speed fields alone. *)
Lemma speedOf_scanTemp rest : forall r, speedOf (scanTemp rest r) = speedOf r.
Proof.
  induction rest as [|tok rest IH]; intros r; cbn [scanTemp].
  - reflexivity.
  - destruct (tempPattern tok) as [[sign ds]|]; [|apply IH].
    destruct (Atoi ds) as [temp|]; [|apply IH].
    destruct rest as [|w rest']; [apply speedOf_storeTemp|].
    rewrite speedOf_parseWind. apply speedOf_storeTemp.
Qed.

(** C2, as amended: in every FST field string the speed token, the
    second field, a positive number [speed] written [speedStr], is
    classified as follows. Seven characters above 1,000,000: IAS from
    the first three digits, km/h ground speed from the last four.
    Otherwise above 1000 and longer than four characters: IAS alone,
    from the first three characters. Otherwise 700 to 1000: km/h ground
    speed; 350 up to 700: knots ground speed; 100 up to 350: IAS, with
    the next token, if it is 100 up to 1000, as ground speed (km/h from
    700, knots below); any other value: knots ground speed. *)
Theorem speed_token_classes (data : string) (result : Result)
    (speedStr : string) (speed : Z) :
  nth_error (Fields data) 1 = Some speedStr -> Atoi speedStr = Some speed ->
  0 < speed ->
  let r := parseFields data result in
  let next := match nth_error (Fields data) 2 with
              | Some t => Atoi t
              | None => None
              end in
  let packed := len speedStr = 7 /\ 1000000 < speed in
  let legacy := ~ packed /\ 1000 < speed /\ 4 < len speedStr in
  (packed ->
   speed = num speedStr 0 3 * 10000 + num speedStr 3 7
   /\ speedOf r = (num speedStr 0 3, num speedStr 3 7, "kmh", "IAS+KMH"))
  /\ (legacy ->
      exists ias, Atoi (slice speedStr 0 3) = Some ias
      /\ speedOf r = (ias, GroundSpeed result, SpeedUnit result, "IAS"))
  /\ (~ packed -> ~ legacy ->
      (700 <= speed <= 1000 -> speedOf r = (IAS result, speed, "kmh", "KMH"))
      /\ (350 <= speed < 700 ->
          speedOf r = (IAS result, speed, "knots", "GS"))
      /\ (100 <= speed < 350 ->
          match next with
          | Some n =>
              if (100 <=? n) && (n <? 1000) then
                speedOf r = (speed, n,
                             if 700 <=? n then "kmh" else "knots",
                             if 700 <=? n then "IAS+KMH" else "IAS+GS")
              else
                speedOf r = (speed, GroundSpeed result, SpeedUnit result, "IAS")
          | None =>
              speedOf r = (speed, GroundSpeed result, SpeedUnit result, "IAS")
          end)
      /\ (speed < 100 \/ 1000 < speed ->
          speedOf r = (IAS result, speed, "knots", "GS"))).
Proof.
  intros Hnth Hatoi Hpos.
  pose proof (parseSpeed_classes (Fields data)
                (parseFlightLevel (Fields data) result)
                speedStr speed Hnth Hatoi Hpos) as H.
  pose proof (speedOf_parseFlightLevel (Fields data) result) as Hfl.
  unfold speedOf in Hfl. injection Hfl as Hias Hgs Hunit _.
  cbv zeta in *. unfold parseFields, parseParts.
  rewrite speedOf_scanTemp. rewrite Hias, Hgs, Hunit in H. exact H.
Qed.

Lemma speed_token_classes_witness :
  speedOf (parseFields "330 854 242 M54C 623541" zero)
  = (0, 854, "kmh", "KMH").
Proof.
  destruct (speed_token_classes "330 854 242 M54C 623541" zero "854" 854
              eq_refl eq_refl eq_refl) as [_ [_ H]].
  assert (Hnp : ~ (len "854" = 7 /\ 1000000 < 854))
    by (intros [H7 _]; discriminate H7).
  assert (Hnl : ~ (~ (len "854" = 7 /\ 1000000 < 854)
                   /\ 1000 < 854 /\ 4 < len "854"))
    by (intros [_ [Hbig _]]; discriminate Hbig).
  destruct (H Hnp Hnl) as [Hkmh _].
  apply Hkmh. split; discriminate.
Defined.

(** C2, as stated, fails on the token "12345": it is positive, not
    seven characters long and outside 100..1000, so the stated rule
    makes it a ground speed in knots; the decoder takes 123 as the IAS
    and stores no ground speed. *)
Lemma speed_token_legacy_not_fallback :
  nth_error (Fields "330 12345 242 M54C 623541") 1 = Some "12345"
  /\ Atoi "12345" = Some 12345
  /\ speedOf (parseFields "330 12345 242 M54C 623541" zero)
     = (123, 0, "", "IAS")
  /\ speedOf (parseFields "330 12345 242 M54C 623541" zero)
     <> (0, 12345, "knots", "GS").
Proof. vm_compute. repeat split; try reflexivity. discriminate. Qed.

(** A result of the FST decoder carries the id of its message and a
    wind direction from 0 to 360. *)
Lemma Fst_Parse_kept gc msg :
  whenSome (Parse gc msg)
    (fun r => MsgID r = Acars.ID msg /\ 0 <= WindDirection r <= 360).
Proof.
  unfold Parse.
  destruct (String.eqb (Acars.Text msg) ""); [exact I|].
  destruct gc as [compiler|]; [|exact I].
  destruct (Patterns.Parse compiler _) as [m|]; [|exact I].
  match goal with
  | |- whenSome (if _ then Some (parseFields ?d ?r) else _) _ =>
      pose proof (parseFields_kept d r) as [Hid Hwd]
  end.
  destruct (0 <? len (Patterns.capture m "rest")); cbn [whenSome].
  - split; [rewrite Hid; reflexivity|apply Hwd; cbn; lia].
  - split; [reflexivity|cbn; lia].
Qed.

(** C4: the Label 15 body of the specification's scenario decodes to
    origin EGLL, destination WSSS, latitude 45 degrees 21.40 minutes
    (within 0.0001 of 45.3567), longitude 24.9275 degrees, flight level
    330, ground speed 854 km/h of type KMH, temperature -54, wind speed
    62 and wind direction 354. *)
Theorem fst_scenario (id : Z) (timestamp tail : string) :
  exists r,
    fstParse
      (Acars.mkMessage id timestamp "15"
         "FST01EGLLWSSSN452140E0249275330 854 242 M54C 6235410711950911600009590004"
         tail) = Some r
    /\ Origin r = "EGLL" /\ Destination r = "WSSS"
    /\ Latitude r = (float64 45 + (float64 21 + float64 40 / 100) / 60)%float
    /\ near (Latitude r) 45.3567 0.0001 = true
    /\ Longitude r = (float64 24 + float64 9275 / 10000)%float
    /\ near (Longitude r) 24.9275 0.0001 = true
    /\ FlightLevel r = 330
    /\ GroundSpeed r = 854 /\ SpeedUnit r = "kmh" /\ SpeedType r = "KMH"
    /\ Temperature r = -54
    /\ WindSpeed r = 62 /\ WindDirection r = 354.
Proof.
  eexists. split; [vm_compute; reflexivity|].
  vm_compute. repeat split; reflexivity.
Qed.

(** The Label 15 body of an older airframe, with two separate
    speed fields, decodes to IAS 192 with ground speed 312 knots of type
    IAS+GS, temperature -49, wind speed 63 and wind direction 286. *)
Theorem fst_scenario_two_speed_fields (id : Z) (timestamp tail : string) :
  exists r,
    fstParse
      (Acars.mkMessage id timestamp "15"
         "FST01OBBIEGLLN453619E0230053400 192 312 M49C 6328629129843211600006220349"
         tail) = Some r
    /\ MsgID r = id
    /\ speedOf r = (192, 312, "knots", "IAS+GS")
    /\ Temperature r = -49
    /\ WindSpeed r = 63 /\ WindDirection r = 286.
Proof.
  eexists. split; [vm_compute; reflexivity|].
  vm_compute. repeat split; reflexivity.
Qed.

(** C9, as stated, fails for the FST decoder: a wind token whose
    direction field is 360 is accepted, and 360 is stored. *)
Lemma fst_wind_direction_360 :
  option_map WindDirection
    (fstParse
       (label15 "FST01EGLLWSSSN452140E0249275330 854 242 M54C 62360"))
  = Some 360
  /\ ~ (0 <= 360 < 360).
Proof. split; [vm_compute; reflexivity|lia]. Qed.

End ParseFields.

(* ------------------------------------------------------------------ *)
(** ** Label 80                                                       *)
(* ------------------------------------------------------------------ *)

Section Label80Facts.

Import Go Label80 Stated.

Variable GetName : string -> string.
Variable ParseDecimalCoord : string -> string -> float.

Lemma fold_left_invariant {A B : Type} (P : A -> Prop) (f : A -> B -> A)
    (l : list B) :
  (forall a b, P a -> P (f a b)) -> forall a, P a -> P (fold_left f l a).
Proof.
  intros Hf. induction l as [|b l IH]; intros a Ha; cbn [fold_left].
  - exact Ha.
  - apply IH. apply Hf. exact Ha.
Qed.

(** One match sets [foundHeader] exactly when it is header-bearing. *)
Lemma applyMatch_found (result : Result) (found : bool) (m : Patterns.Match) :
  snd (applyMatch GetName ParseDecimalCoord (result, found) m)
  = found || isHeader m.
Proof.
  unfold applyMatch, isHeader.
  destruct (String.eqb (Patterns.FormatName m) "header_format") eqn:Hh.
  - cbn [snd]. cbn [orb]. rewrite orb_true_r. reflexivity.
  - destruct (String.eqb (Patterns.FormatName m) "alt_format") eqn:Ha.
    + destruct found; reflexivity.
    + cbn [orb]. rewrite orb_false_r. branches; reflexivity.
Qed.

Lemma fold_found (ms : list Patterns.Match) :
  forall result found,
  snd (fold_left (applyMatch GetName ParseDecimalCoord) ms (result, found))
  = found || existsb isHeader ms.
Proof.
  induction ms as [|m ms IH]; intros result found; cbn [fold_left existsb].
  - rewrite orb_false_r. reflexivity.
  - destruct (applyMatch GetName ParseDecimalCoord (result, found) m)
      as [result' found'] eqn:Hstep.
    rewrite IH.
    pose proof (applyMatch_found result found m) as Hf.
    rewrite Hstep in Hf. cbn [snd] in Hf. rewrite Hf.
    rewrite orb_assoc. reflexivity.
Qed.

Lemma isHeader_iff (m : Patterns.Match) :
  isHeader m = true <-> headerBearing m.
Proof.
  unfold isHeader, headerBearing. rewrite orb_true_iff.
  rewrite !String.eqb_eq. reflexivity.
Qed.

Lemma applyMatch_MsgID (st : Result * bool) (m : Patterns.Match) :
  MsgID (fst (applyMatch GetName ParseDecimalCoord st m)) = MsgID (fst st).
Proof.
  destruct st as [result found].
  unfold applyMatch, resolveNames. branches; reflexivity.
Qed.

Lemma windDir_range (d : Z) : 0 <= windDir d < 360.
Proof.
  unfold windDir, rem, add, wrap.
  pose proof (Z.rem_bound_abs d 360 ltac:(lia)) as Habs.
  destruct (Z.ltb_spec (Z.rem d 360) 0) as [Hneg|Hpos].
  - rewrite Z.mod_small by lia. lia.
  - lia.
Qed.

Lemma applyMatch_WindDir (st : Result * bool) (m : Patterns.Match) :
  0 <= WindDir (fst st) < 360 ->
  0 <= WindDir (fst (applyMatch GetName ParseDecimalCoord st m)) < 360.
Proof.
  destruct st as [result found]. cbn [fst]. intros H.
  unfold applyMatch, resolveNames.
  branches; cbn; try exact H; apply windDir_range.
Qed.

(** A result of the Label 80 decoder carries the id of its message and
    a wind direction from 0 up to 360. *)
Lemma Label80_Parse_kept gc msg :
  whenSome (Parse GetName ParseDecimalCoord gc msg)
    (fun r => MsgID r = Acars.ID msg /\ 0 <= WindDir r < 360).
Proof.
  unfold Parse.
  destruct (String.eqb (Acars.Text msg) ""); [exact I|].
  destruct gc as [compiler|]; [|exact I].
  assert (H : let st := fold_left (applyMatch GetName ParseDecimalCoord)
                          (Patterns.ParseAll compiler (TrimSpace (Acars.Text msg))) (newResult msg, false) in
              MsgID (fst st) = Acars.ID msg /\ 0 <= WindDir (fst st) < 360).
  { apply (fold_left_invariant
             (fun st => MsgID (fst st) = Acars.ID msg
                        /\ 0 <= WindDir (fst st) < 360)).
    - intros st m [Hid Hwd]. split.
      + rewrite applyMatch_MsgID. exact Hid.
      + apply applyMatch_WindDir. exact Hwd.
    - split; [reflexivity|cbn; lia]. }
  cbv zeta in H.
  destruct (fold_left _ _ _) as [result found]. cbn [fst] in H.
  destruct found; cbn [negb whenSome]; [exact H|exact I].
Qed.

(** C3: the Label 80 decoder returns a result exactly when the text is
    not empty, the compiler is available and one of the matches of the
    text is header-bearing (the header format or the alternative flight
    header); when none is, it returns nothing, whatever else matched. *)
Theorem Parse_iff_header (gc : option Patterns.Compiler)
    (msg : Acars.Message) :
  (Parse GetName ParseDecimalCoord gc msg <> None
   <-> Acars.Text msg <> ""
       /\ exists compiler, gc = Some compiler
          /\ exists m, In m (Patterns.ParseAll compiler (TrimSpace (Acars.Text msg))) /\ headerBearing m)
  /\ forall compiler,
       gc = Some compiler ->
       (forall m, In m (Patterns.ParseAll compiler (TrimSpace (Acars.Text msg))) -> ~ headerBearing m) ->
       Parse GetName ParseDecimalCoord gc msg = None.
Proof.
  assert (Hiff :
    Parse GetName ParseDecimalCoord gc msg <> None
    <-> Acars.Text msg <> ""
        /\ exists compiler, gc = Some compiler
           /\ exists m, In m (Patterns.ParseAll compiler (TrimSpace (Acars.Text msg))) /\ headerBearing m).
  { unfold Parse.
    destruct (String.eqb_spec (Acars.Text msg) "") as [Hempty|Hne].
    - split; [congruence|]. intros [H _]. contradiction.
    - destruct gc as [compiler|].
      + pose proof (fold_found (Patterns.ParseAll compiler (TrimSpace (Acars.Text msg))) (newResult msg) false)
          as Hf.
        destruct (fold_left _ _ _) as [result found]. cbn [snd orb] in Hf.
        subst found.
        destruct (existsb isHeader (Patterns.ParseAll compiler (TrimSpace (Acars.Text msg)))) eqn:Hex;
          cbn [negb].
        * split; [|discriminate]. intros _. split; [exact Hne|].
          exists compiler. split; [reflexivity|].
          apply existsb_exists in Hex. destruct Hex as [m [Hin Hm]].
          exists m. split; [exact Hin|]. apply isHeader_iff. exact Hm.
        * split; [congruence|].
          intros [_ [c [Hc [m [Hin Hm]]]]]. injection Hc as <-.
          exfalso.
          assert (existsb isHeader (Patterns.ParseAll compiler (TrimSpace (Acars.Text msg))) = true).
          { apply existsb_exists. exists m. split; [exact Hin|].
            apply isHeader_iff. exact Hm. }
          congruence.
      + split; [congruence|]. intros [_ [c [Hc _]]]. discriminate. }
  split; [exact Hiff|].
  intros compiler Hgc Hnone.
  destruct (Parse GetName ParseDecimalCoord gc msg) eqn:HP; [|reflexivity].
  exfalso.
  assert (Hsome : Some r <> None) by discriminate.
  apply Hiff in Hsome.
  destruct Hsome as [_ [c [Hc [m [Hin Hm]]]]].
  rewrite Hgc in Hc. injection Hc as <-.
  exact (Hnone m Hin Hm).
Qed.

(** Within [int] the conversion is the exact quotient. *)
Lemma knotsToKmh_exact (kts : Z) :
  0 <= kts <= kmhLimit -> knotsToKmh kts = (kts * 1852 + 500) / 1000.
Proof.
  intros H. unfold kmhLimit in H.
  assert (Hfit : kts * 1852 + 500 <= MaxInt).
  { assert (kts * 1852 <= (MaxInt - 500) / 1852 * 1852) by nia.
    pose proof (Z.mul_div_le (MaxInt - 500) 1852 ltac:(lia)). lia. }
  unfold MaxInt in Hfit.
  unfold knotsToKmh, quo, add, mul, wrap.
  rewrite (Z.mod_small (kts * 1852 + 2 ^ 63)) by lia.
  replace (kts * 1852 + 2 ^ 63 - 2 ^ 63 + 500 + 2 ^ 63)
    with (kts * 1852 + 500 + 2 ^ 63) by lia.
  rewrite (Z.mod_small (kts * 1852 + 500 + 2 ^ 63)) by lia.
  replace (kts * 1852 + 500 + 2 ^ 63 - 2 ^ 63) with (kts * 1852 + 500) by lia.
  rewrite Z.quot_div_nonneg by lia.
  assert (0 <= (kts * 1852 + 500) / 1000 <= kts * 1852 + 500).
  { split; [apply Z.div_pos; lia|].
    apply Z.div_le_upper_bound; lia. }
  rewrite Z.mod_small by lia. lia.
Qed.

(** The quotient is the rounding of kts times 1.852. *)
Lemma round_knots (kts : Z) :
  0 <= kts ->
  round (inject_Z kts * (1852 # 1000)) = (kts * 1852 + 500) / 1000.
Proof.
  intros H. unfold round.
  assert (Hle : Qle_bool 0 (inject_Z kts * (1852 # 1000)) = true).
  { apply Qle_bool_iff. unfold Qle. cbn. lia. }
  rewrite Hle. unfold Qfloor, Qplus, Qmult, inject_Z. cbn [Qnum Qden].
  change (Z.pos (1 * 1000 * 2)) with (1000 * 2).
  change (Z.pos (1 * 1000)) with 1000.
  replace (kts * 1852 * 2 + 1 * 1000) with ((kts * 1852 + 500) * 2) by lia.
  apply Z.div_mul_cancel_r; lia.
Qed.

(** The wind case stores the speed and its conversion. *)
Lemma applyMatch_wind_speed (result : Result) (found : bool)
    (m : Patterns.Match) (kts : Z) :
  Patterns.FormatName m = "wind" ->
  Atoi (Patterns.capture m "wspd") = Some kts ->
  let r := fst (applyMatch GetName ParseDecimalCoord (result, found) m) in
  WindSpeedKts r = kts /\ WindSpeedKmh r = knotsToKmh kts.
Proof.
  intros Hname Hspd. unfold applyMatch. rewrite Hname, Hspd.
  cbn [String.eqb Ascii.eqb Bool.eqb].
  destruct (Atoi (Patterns.capture m "wdir")); split; reflexivity.
Qed.

(** C6, as amended: for a wind match whose speed is from 0 to
    4980222482103010 knots, the largest whose product fits [int], the
    km/h value the decoder stores is (kts*1852 + 500)/1000, which is kts
    times 1.852 rounded to the nearest integer, and the conversion is
    non-decreasing up to that speed. *)
Theorem wind_speed_kmh_rounds (result : Result) (found : bool)
    (m : Patterns.Match) (kts : Z) :
  Patterns.FormatName m = "wind" ->
  Atoi (Patterns.capture m "wspd") = Some kts ->
  0 <= kts <= kmhLimit ->
  let r := fst (applyMatch GetName ParseDecimalCoord (result, found) m) in
  WindSpeedKts r = kts
  /\ WindSpeedKmh r = (kts * 1852 + 500) / 1000
  /\ WindSpeedKmh r = round (inject_Z kts * (1852 # 1000))
  /\ forall kts', kts <= kts' <= kmhLimit -> knotsToKmh kts <= knotsToKmh kts'.
Proof.
  intros Hname Hspd H.
  destruct (applyMatch_wind_speed result found m kts Hname Hspd) as [Hk Hc].
  cbv zeta. rewrite Hk, Hc.
  split; [reflexivity|]. split; [|split].
  - apply knotsToKmh_exact. exact H.
  - rewrite round_knots by lia. apply knotsToKmh_exact. exact H.
  - intros kts' H'.
    rewrite (knotsToKmh_exact kts H), (knotsToKmh_exact kts') by lia.
    apply Z.div_le_mono; lia.
Qed.

(** The altitude case stores [altitudeFeet] of the trimmed token. *)
Lemma applyMatch_altitude (result : Result) (found : bool) (tok : string) :
  Altitude (fst (applyMatch GetName ParseDecimalCoord (result, found)
                   (altitudeMatch tok)))
  = match Atoi (TrimSpace tok) with
    | Some alt => altitudeFeet (TrimSpace tok) alt
    | None => Altitude result
    end.
Proof.
  unfold applyMatch, altitudeMatch.
  cbn [Patterns.FormatName String.eqb Ascii.eqb Bool.eqb].
  change (Patterns.capture _ "altitude") with tok.
  destruct (Atoi (TrimSpace tok)); reflexivity.
Qed.

(** C7, as amended: the altitude token "350" gives 35000 ft, "35000"
    gives 35000 ft, "600" gives 600 ft and "501" gives 501 ft. A token
    of at most three characters whose value is positive and at most 500
    is a flight level and is multiplied by 100; every other value is
    kept as feet, and a token that is not a number stores nothing. *)
Theorem altitude_heuristic (result : Result) (found : bool) :
  let altitudeOf tok :=
    Altitude (fst (applyMatch GetName ParseDecimalCoord (result, found)
                     (altitudeMatch tok))) in
  altitudeOf "350" = 35000 /\ altitudeOf "35000" = 35000
  /\ altitudeOf "600" = 600 /\ altitudeOf "501" = 501
  /\ forall tok,
       altitudeOf tok =
         match Atoi (TrimSpace tok) with
         | Some alt =>
             if (len (TrimSpace tok) <=? 3) && (0 <? alt) && (alt <=? 500)
             then alt * 100 else alt
         | None => Altitude result
         end.
Proof.
  cbv zeta.
  repeat split; try (rewrite applyMatch_altitude; reflexivity).
  intros tok. rewrite applyMatch_altitude.
  destruct (Atoi (TrimSpace tok)) as [alt|]; [|reflexivity].
  unfold altitudeFeet.
  destruct ((len (TrimSpace tok) <=? 3) && (0 <? alt) && (alt <=? 500)) eqn:E;
    [|reflexivity].
  apply andb_prop in E. destruct E as [E E3].
  apply andb_prop in E. destruct E as [_ E2].
  apply Z.ltb_lt in E2. apply Z.leb_le in E3.
  unfold mul, wrap. rewrite Z.mod_small by lia. lia.
Qed.

End Label80Facts.

Lemma wind_speed_kmh_rounds_witness :
  let r :=
    fst (Label80.applyMatch (fun icao => icao) (fun _ _ => 0%float)
           (Label80.newResult (Acars.mkMessage 1 "" "80" "" ""), false)
           (Stated.windMatch "266" "36")) in
  Label80.WindSpeedKts r = 36 /\ Label80.WindSpeedKmh r = 67
  /\ Label80.WindSpeedKmh r = Stated.round (inject_Z 36 * (1852 # 1000)).
Proof.
  assert (H : 0 <= 36 <= Stated.kmhLimit) by (vm_compute; split; discriminate).
  destruct (wind_speed_kmh_rounds (fun icao => icao) (fun _ _ => 0%float)
              (Label80.newResult (Acars.mkMessage 1 "" "80" "" "")) false
              (Stated.windMatch "266" "36") 36 eq_refl eq_refl H)
    as [H1 [H2 [H3 _]]].
  cbv zeta. split; [exact H1|]. split; [exact H2|exact H3].
Defined.

(** C6, as stated, fails at 4980222482103011 knots, a number [Atoi]
    reads: the product wraps around and the km/h value stored is
    negative, neither the rounding of kts times 1.852 nor at least the
    value for one knot less. *)
Lemma wind_speed_kmh_wraps :
  let kmhOf wspd :=
    Label80.WindSpeedKmh
      (fst (Label80.applyMatch (fun icao => icao) (fun _ _ => 0%float)
              (Label80.newResult (Acars.mkMessage 1 "" "80" "" ""), false)
              (Stated.windMatch "266" wspd))) in
  Stated.kmhLimit = 4980222482103010
  /\ Go.Atoi "4980222482103011" = Some 4980222482103011
  /\ kmhOf "4980222482103011" = -9223372036854774
  /\ Stated.round (inject_Z 4980222482103011 * (1852 # 1000))
     = 9223372036854776
  /\ kmhOf "4980222482103010" = 9223372036854775.
Proof. vm_compute. repeat split; reflexivity. Qed.

(** C7, as stated, fails on the token "600": it is above 500, so it is
    kept as 600 ft and not taken for flight level 600. *)
Lemma altitude_600_not_rescaled :
  Label80.Altitude
    (fst (Label80.applyMatch (fun icao => icao) (fun _ _ => 0%float)
            (Label80.newResult (Acars.mkMessage 1 "" "80" "" ""), false)
            (Stated.altitudeMatch "600")))
  = 600
  /\ 600 <> 60000.
Proof. split; [vm_compute; reflexivity|discriminate]. Qed.

(* ------------------------------------------------------------------ *)
(** ** Message ids and wind directions of the results                 *)
(* ------------------------------------------------------------------ *)

Section Results.

Import Registry Stated.

Lemma insert_In (p q : Parser) (ps : list Parser) :
  In q (insert p ps) -> q = p \/ In q ps.
Proof.
  induction ps as [|x ps IH]; cbn [insert].
  - intros [H|[]]; auto.
  - destruct (Priority p <? Priority x).
    + intros [H|H]; auto.
    + intros [H|H]; [right; left; exact H|].
      destruct (IH H) as [?|?]; [auto|right; right; assumption].
Qed.

Lemma byPriority_In (q : Parser) (ps : list Parser) :
  In q (byPriority ps) -> In q ps.
Proof.
  unfold byPriority.
  assert (G : forall acc, In q (fold_left (fun acc p => insert p acc) ps acc)
                          -> In q acc \/ In q ps).
  { induction ps as [|p ps IH]; intros acc H; cbn [fold_left] in H.
    - left. exact H.
    - destruct (IH _ H) as [H1|H1].
      + apply insert_In in H1. destruct H1 as [->|H1];
          [right; left; reflexivity|left; exact H1].
      + right. right. exact H1. }
  intros H. destruct (G [] H) as [[]|H']. exact H'.
Qed.

Lemma firstResult_id (ps : list Parser) (msg : Acars.Message) (r : Result) :
  (forall p, In p ps -> carriesID p) ->
  firstResult ps msg = Some r -> MessageID r = Acars.ID msg.
Proof.
  induction ps as [|p ps IH]; intros Hall H; cbn [firstResult] in H.
  - discriminate.
  - assert (Hrest : forall q, In q ps -> carriesID q)
      by (intros q Hq; apply Hall; right; exact Hq).
    destruct (QuickCheck p (Acars.Text msg)); [|apply IH; assumption].
    destruct (Parse p msg) as [r'|] eqn:Hp; [|apply IH; assumption].
    injection H as <-. apply (Hall p (or_introl eq_refl)). exact Hp.
Qed.

(** Dispatch over parsers that carry the id yields a result that
    carries it: the envelope does. *)
Lemma DispatchFirst_id (reg : Registry) (msg : Acars.Message) :
  (forall p, In p reg -> carriesID p) ->
  MessageID (DispatchFirst reg msg) = Acars.ID msg.
Proof.
  intros Hall. unfold DispatchFirst.
  assert (HL : forall l p, In p (byLabel reg l) -> carriesID p).
  { intros l p Hp. apply Hall. unfold byLabel in Hp.
    apply byPriority_In in Hp. apply filter_In in Hp. tauto. }
  assert (HC : forall p, In p (contentBased reg) -> carriesID p).
  { intros p Hp. apply Hall. unfold contentBased in Hp.
    apply byPriority_In in Hp. apply filter_In in Hp. tauto. }
  destruct (if String.eqb (Acars.Label msg) "" then None
            else firstResult (byLabel reg (Acars.Label msg)) msg)
    as [r|] eqn:Hlab.
  - destruct (String.eqb (Acars.Label msg) ""); [discriminate|].
    eapply firstResult_id; [apply HL|exact Hlab].
  - destruct (firstResult (contentBased reg) msg) as [r|] eqn:Hcb.
    + eapply firstResult_id; [apply HC|exact Hcb].
    + reflexivity.
Qed.

Lemma fstParser_carriesID gc : carriesID (fstParser gc).
Proof.
  intros msg r. cbn [Parse fstParser].
  pose proof (Fst_Parse_kept gc msg) as H.
  destruct (Fst.Parse gc msg) as [r'|]; cbn [option_map]; [|discriminate].
  intros E. injection E as <-. cbn. apply H.
Qed.

Lemma label80Parser_carriesID gn pdc gc : carriesID (label80Parser gn pdc gc).
Proof.
  intros msg r. cbn [Parse label80Parser].
  pose proof (Label80_Parse_kept gn pdc gc msg) as H.
  destruct (Label80.Parse gn pdc gc msg) as [r'|]; cbn [option_map];
    [|discriminate].
  intros E. injection E as <-. cbn. apply H.
Qed.

(** C5: for every message, [dispatch_first] over the FST and Label 80
    decoders yields a result whose message id is the message's id, and
    every result of either decoder has [MessageID()] equal to the id of
    the message it was parsed from. *)
Theorem message_id_carried (gcF : option Patterns.Compiler)
    (GetName : string -> string)
    (ParseDecimalCoord : string -> string -> float)
    (gcL : option Patterns.Compiler) (msg : Acars.Message) :
  MessageID
    (DispatchFirst
       [fstParser gcF; label80Parser GetName ParseDecimalCoord gcL] msg)
  = Acars.ID msg
  /\ whenSome (Fst.Parse gcF msg) (fun r => Fst.MessageID r = Acars.ID msg)
  /\ whenSome (Label80.Parse GetName ParseDecimalCoord gcL msg)
       (fun r => Label80.MessageID r = Acars.ID msg).
Proof.
  split; [|split].
  - apply DispatchFirst_id. intros p [<-|[<-|[]]].
    + apply fstParser_carriesID.
    + apply label80Parser_carriesID.
  - pose proof (Fst_Parse_kept gcF msg) as H.
    destruct (Fst.Parse gcF msg); cbn [whenSome] in *; [apply H|exact I].
  - pose proof (Label80_Parse_kept GetName ParseDecimalCoord gcL msg) as H.
    destruct (Label80.Parse GetName ParseDecimalCoord gcL msg);
      cbn [whenSome] in *; [apply H|exact I].
Qed.

(** C9, as amended: a wind direction stored by the FST decoder is from
    0 to 360, both included, its wind token being accepted only with a
    direction field of at most 360; one stored by the Label 80 decoder
    is reduced modulo 360 and is from 0 up to, not including, 360. *)
Theorem wind_direction_ranges (gcF : option Patterns.Compiler)
    (GetName : string -> string)
    (ParseDecimalCoord : string -> string -> float)
    (gcL : option Patterns.Compiler) (msg : Acars.Message) :
  whenSome (Fst.Parse gcF msg) (fun r => 0 <= Fst.WindDirection r <= 360)
  /\ whenSome (Label80.Parse GetName ParseDecimalCoord gcL msg)
       (fun r => 0 <= Label80.WindDir r < 360).
Proof.
  split.
  - pose proof (Fst_Parse_kept gcF msg) as H.
    destruct (Fst.Parse gcF msg); cbn [whenSome] in *; [apply H|exact I].
  - pose proof (Label80_Parse_kept GetName ParseDecimalCoord gcL msg) as H.
    destruct (Label80.Parse GetName ParseDecimalCoord gcL msg);
      cbn [whenSome] in *; [apply H|exact I].
Qed.

End Results.

(* ================================================================== *)
(** ** Strings                                                        *)
(* ================================================================== *)

Section Strings.

Import Go Digits.

Lemma string_app_length (a b : string) :
  String.length (a ++ b) = (String.length a + String.length b)%nat.
Proof. induction a as [|c a IH]; cbn; [reflexivity|rewrite IH; reflexivity]. Qed.

Lemma substring_app_prefix (a b : string) :
  substring 0 (String.length a) (a ++ b) = a.
Proof.
  induction a as [|c a IH]; cbn.
  - destruct b; reflexivity.
  - rewrite IH. reflexivity.
Qed.

Lemma substring_app_suffix (a b : string) :
  substring (String.length a) (String.length b) (a ++ b) = b.
Proof.
  induction a as [|c a IH]; cbn.
  - induction b as [|c b IHb]; cbn; [reflexivity|rewrite IHb; reflexivity].
  - exact IH.
Qed.

Lemma substring_split (s : string) (n : nat) :
  (n <= String.length s)%nat ->
  s = substring 0 n s ++ substring n (String.length s - n) s.
Proof.
  revert n. induction s as [|c s IH]; intros n H; cbn [String.length] in *.
  - assert (n = 0%nat) by lia. subst. reflexivity.
  - destruct n as [|n]; cbn [substring Nat.sub String.append].
    + f_equal. clear IH H. induction s as [|d s IH]; cbn; [reflexivity|].
      f_equal. exact IH.
    + f_equal. apply IH. lia.
Qed.

Lemma substring_none (s : string) : forall n, substring n 0 s = "".
Proof.
  induction s as [|c s IH]; intros [|n]; cbn; try reflexivity. apply IH.
Qed.

Lemma substring_length_le (s : string) :
  forall lo n, (String.length (substring lo n s) <= String.length s)%nat.
Proof.
  induction s as [|c s IH]; intros [|lo] [|n]; cbn; try lia.
  - specialize (IH 0%nat n). lia.
  - specialize (IH lo 0%nat). lia.
  - specialize (IH lo (S n)). lia.
Qed.

Lemma substring_whole (s : string) : substring 0 (String.length s) s = s.
Proof. induction s; cbn; [reflexivity|f_equal; assumption]. Qed.

Lemma append_nil_r (s : string) : s ++ "" = s.
Proof. induction s; cbn; [reflexivity|f_equal; assumption]. Qed.


Lemma all_app (p : ascii -> bool) (a b : string) :
  Patterns.all p (a ++ b) = Patterns.all p a && Patterns.all p b.
Proof.
  induction a as [|c a IH]; cbn; [reflexivity|].
  rewrite IH. apply andb_assoc.
Qed.

Lemma all_weaken (p q : ascii -> bool) (s : string) :
  (forall c, p c = true -> q c = true) ->
  Patterns.all p s = true -> Patterns.all q s = true.
Proof.
  intros Hpq. induction s as [|c s IH]; cbn; [reflexivity|].
  intros H. apply andb_prop in H. destruct H as [Hc Hs].
  rewrite (Hpq c Hc), (IH Hs). reflexivity.
Qed.

(** A digit starts no white-space rune and ends none. *)
Lemma isDigit_not_space (c : ascii) :
  Patterns.isDigit c = true ->
  isSpace [byte c] = false
  /\ (forall b1, isSpace [byte c; b1] = false)
  /\ (forall b1 b2, isSpace [byte c; b1; b2] = false)
  /\ (forall b0, isSpace [b0; byte c] = false)
  /\ (forall b0 b1, isSpace [b0; b1; byte c] = false).
Proof.
  intros H. apply isDigit_byte in H.
  assert (E9 : (9 <=? byte c) && (byte c <=? 13) = false).
  { destruct (Z.leb_spec (byte c) 13); [lia|apply andb_false_r]. }
  assert (E32 : (byte c =? 32) = false) by (apply Z.eqb_neq; lia).
  assert (E194 : (byte c =? 194) = false) by (apply Z.eqb_neq; lia).
  assert (E225 : (byte c =? 225) = false) by (apply Z.eqb_neq; lia).
  assert (E226 : (byte c =? 226) = false) by (apply Z.eqb_neq; lia).
  assert (E227 : (byte c =? 227) = false) by (apply Z.eqb_neq; lia).
  assert (E133 : (byte c =? 133) = false) by (apply Z.eqb_neq; lia).
  assert (E160 : (byte c =? 160) = false) by (apply Z.eqb_neq; lia).
  assert (E128 : (byte c =? 128) = false) by (apply Z.eqb_neq; lia).
  assert (E159 : (byte c =? 159) = false) by (apply Z.eqb_neq; lia).
  assert (E168 : (byte c =? 168) = false) by (apply Z.eqb_neq; lia).
  assert (E169 : (byte c =? 169) = false) by (apply Z.eqb_neq; lia).
  assert (E175 : (byte c =? 175) = false) by (apply Z.eqb_neq; lia).
  assert (L128 : (128 <=? byte c) = false) by (apply Z.leb_gt; lia).
  unfold isSpace. repeat split; intros.
  - rewrite E9, E32. reflexivity.
  - rewrite E194. reflexivity.
  - rewrite E225, E226, E227. reflexivity.
  - rewrite E133, E160. apply andb_false_r.
  - rewrite E128, E159, E168, E169, E175, L128.
    cbn [andb orb]. rewrite !andb_false_r. reflexivity.
Qed.

Lemma trimLeft_digit (c : ascii) (s : string) :
  Patterns.isDigit c = true -> trimLeft (String c s) = String c s.
Proof.
  intros H. destruct (isDigit_not_space c H) as (H1 & H2 & H3 & _).
  cbn [trimLeft]. rewrite H1.
  destruct s as [|c1 [|c2 s3]]; try reflexivity; rewrite H2;
    try reflexivity.
  rewrite H3. reflexivity.
Qed.

Lemma trimEnd_digit (c : ascii) (r : list ascii) :
  Patterns.isDigit c = true -> trimEnd (c :: r) = c :: r.
Proof.
  intros H. destruct (isDigit_not_space c H) as (H1 & _ & _ & H2 & H3).
  cbn [trimEnd]. rewrite H1.
  destruct r as [|c1 [|c2 r3]]; try reflexivity; rewrite H2;
    try reflexivity.
  rewrite H3. reflexivity.
Qed.

Lemma digits_last (s : string) :
  allDigits s = true -> s <> "" ->
  exists c r,
    rev (list_ascii_of_string s) = c :: r /\ Patterns.isDigit c = true.
Proof.
  induction s as [|a s IH]; [intros _ H; contradiction|].
  unfold allDigits. cbn [Patterns.all]. intros H _.
  apply andb_prop in H. destruct H as [Ha Hs].
  cbn [list_ascii_of_string rev].
  destruct s as [|b s].
  - exists a, []. auto.
  - destruct (IH Hs ltac:(discriminate)) as (c & r & Hr & Hc).
    rewrite Hr. exists c, (r ++ [a])%list. split; [reflexivity|exact Hc].
Qed.

Lemma trimRight_digits (s : string) :
  allDigits s = true -> trimRight s = s.
Proof.
  intros H. destruct (String.eqb_spec s "") as [->|Hne]; [reflexivity|].
  destruct (digits_last s H Hne) as (c & r & Hr & Hc).
  unfold trimRight. rewrite Hr, (trimEnd_digit c r Hc), <- Hr.
  rewrite rev_involutive. apply string_of_list_ascii_of_string.
Qed.

(** [strings.TrimSpace] leaves a run of digits as it is. *)
Lemma TrimSpace_digits (s : string) :
  allDigits s = true -> TrimSpace s = s.
Proof.
  intros H. unfold TrimSpace.
  assert (Hl : trimLeft s = s).
  { destruct s as [|c s]; [reflexivity|].
    unfold allDigits in H. cbn [Patterns.all] in H.
    apply andb_prop in H. destruct H as [Hc _].
    apply trimLeft_digit. exact Hc. }
  rewrite Hl. apply trimRight_digits. exact H.
Qed.

Lemma upper_not_digit (c : ascii) :
  Patterns.isUpper c = true -> Patterns.isDigit c = false.
Proof.
  unfold Patterns.isUpper, Patterns.isDigit. cbv zeta. intros H.
  apply andb_prop in H. destruct H as [H1 H2]. apply Z.leb_le in H1, H2.
  destruct (Z.leb_spec (byte c) 57); [lia|]. apply andb_false_r.
Qed.

Lemma digit_not_upper (c : ascii) :
  Patterns.isDigit c = true -> Patterns.isUpper c = false.
Proof.
  intros H. destruct (Patterns.isUpper c) eqn:Hu; [|reflexivity].
  apply upper_not_digit in Hu. congruence.
Qed.

Lemma app_assoc_s (a b c : string) : (a ++ b) ++ c = a ++ b ++ c.
Proof. induction a as [|x a IH]; cbn; [reflexivity|rewrite IH; reflexivity]. Qed.

Lemma trimLeft_suffix (s : string) : exists a, s = a ++ trimLeft s.
Proof.
  assert (H : forall n s, (String.length s <= n)%nat ->
                          exists a, s = a ++ trimLeft s).
  { intros n. induction n as [|n IH]; intros t Hn.
    - destruct t; [exists ""; reflexivity|cbn in Hn; lia].
    - destruct t as [|c0 s1]; [exists ""; reflexivity|].
      cbn [String.length] in Hn. cbn [trimLeft].
      destruct (isSpace [byte c0]).
      { destruct (IH s1 ltac:(lia)) as [a Ha].
        exists (String c0 a). cbn. rewrite <- Ha. reflexivity. }
      destruct s1 as [|c1 s2]; [exists ""; reflexivity|].
      cbn [String.length] in Hn.
      destruct (isSpace [byte c0; byte c1]).
      { destruct (IH s2 ltac:(lia)) as [a Ha].
        exists (String c0 (String c1 a)). cbn. rewrite <- Ha. reflexivity. }
      destruct s2 as [|c2 s3]; [exists ""; reflexivity|].
      cbn [String.length] in Hn.
      destruct (isSpace [byte c0; byte c1; byte c2]);
        [|exists ""; reflexivity].
      destruct (IH s3 ltac:(lia)) as [a Ha].
      exists (String c0 (String c1 (String c2 a))). cbn.
      rewrite <- Ha. reflexivity. }
  exact (H (String.length s) s (Nat.le_refl _)).
Qed.

Lemma trimEnd_suffix (r : list ascii) : exists p, r = (p ++ trimEnd r)%list.
Proof.
  assert (H : forall n r, (List.length r <= n)%nat ->
                          exists p, r = (p ++ trimEnd r)%list).
  { intros n. induction n as [|n IH]; intros t Hn.
    - destruct t; [exists []; reflexivity|cbn in Hn; lia].
    - destruct t as [|c0 r1]; [exists []; reflexivity|].
      cbn [List.length] in Hn. cbn [trimEnd].
      destruct (isSpace [byte c0]).
      { destruct (IH r1 ltac:(lia)) as [p Hp].
        exists (c0 :: p). cbn. rewrite <- Hp. reflexivity. }
      destruct r1 as [|c1 r2]; [exists []; reflexivity|].
      cbn [List.length] in Hn.
      destruct (isSpace [byte c1; byte c0]).
      { destruct (IH r2 ltac:(lia)) as [p Hp].
        exists (c0 :: c1 :: p). cbn. rewrite <- Hp. reflexivity. }
      destruct r2 as [|c2 r3]; [exists []; reflexivity|].
      cbn [List.length] in Hn.
      destruct (isSpace [byte c2; byte c1; byte c0]);
        [|exists []; reflexivity].
      destruct (IH r3 ltac:(lia)) as [p Hp].
      exists (c0 :: c1 :: c2 :: p). cbn. rewrite <- Hp. reflexivity. }
  exact (H (List.length r) r (Nat.le_refl _)).
Qed.

Lemma string_of_list_ascii_app (a b : list ascii) :
  string_of_list_ascii (a ++ b)
  = string_of_list_ascii a ++ string_of_list_ascii b.
Proof.
  induction a as [|c a IH]; cbn; [reflexivity|rewrite IH; reflexivity].
Qed.

Lemma trimRight_prefix (s : string) : exists b, s = trimRight s ++ b.
Proof.
  destruct (trimEnd_suffix (rev (list_ascii_of_string s))) as [p Hp].
  exists (string_of_list_ascii (rev p)).
  unfold trimRight. rewrite <- string_of_list_ascii_app, <- rev_app_distr.
  rewrite <- Hp, rev_involutive.
  symmetry. apply string_of_list_ascii_of_string.
Qed.

(** [strings.TrimSpace] returns a part of its argument. *)
Lemma TrimSpace_infix (s : string) : exists a b, s = a ++ TrimSpace s ++ b.
Proof.
  destruct (trimLeft_suffix s) as [a Ha].
  destruct (trimRight_prefix (trimLeft s)) as [b Hb].
  exists a, b. unfold TrimSpace. rewrite <- Hb. exact Ha.
Qed.

Lemma substring_app_middle (x sub y : string) :
  substring (String.length x) (String.length sub) (x ++ sub ++ y) = sub.
Proof.
  induction x as [|c x IH]; cbn [String.length String.append substring].
  - apply substring_app_prefix.
  - exact IH.
Qed.

Lemma Contains_infix (x sub y : string) :
  sub <> "" -> Contains (x ++ sub ++ y) sub = true.
Proof.
  intros Hne. unfold Contains, Index.
  destruct (String.index 0 sub (x ++ sub ++ y)) as [i|] eqn:Hi.
  - apply Z.leb_le. lia.
  - exfalso.
    apply (index_correct3 0 (String.length x) sub (x ++ sub ++ y) Hi Hne);
      [lia|apply substring_app_middle].
Qed.

End Strings.

(* ================================================================== *)
(** ** The fields after the position ([parseFields])                   *)
(* ================================================================== *)

Section Weather.

Import Go Digits Fst Stated Derived.

(** [\d{n}C?$] on the text after the sign. *)
Lemma tempDigits_spec (body : string) (n : nat) (ds : string) :
  tempDigits body n = Some ds <->
  String.length ds = n /\ allDigits ds = true /\ (body = ds \/ body = ds ++ "C").
Proof.
  unfold tempDigits, sliceFrom. cbv zeta. split.
  - destruct (Nat.eqb_spec (String.length (substring 0 n body)) n) as [Hl|];
      [|discriminate].
    destruct (Patterns.all Patterns.isDigit (substring 0 n body)) eqn:Hd;
      [|discriminate].
    cbn [andb].
    assert (Hn : (n <= String.length body)%nat).
    { pose proof (substring_length_le body 0 n). lia. }
    pose proof (substring_split body n Hn) as Hsplit.
    destruct (String.eqb_spec (substring n (String.length body - n) body) "")
      as [He|He]; cbn [orb].
    + intros H. injection H as <-.
      repeat split; auto. left.
      rewrite He, append_nil_r in Hsplit. exact Hsplit.
    + destruct (String.eqb_spec (substring n (String.length body - n) body) "C")
        as [Hc|Hc]; [|discriminate].
      intros H. injection H as <-.
      repeat split; auto. right. rewrite Hc in Hsplit. exact Hsplit.
  - intros [Hl [Hd [-> | ->]]].
    + subst n. rewrite substring_whole, Nat.eqb_refl.
      change (Patterns.all Patterns.isDigit ds) with (allDigits ds).
      rewrite Hd, Nat.sub_diag, substring_none. reflexivity.
    + subst n. rewrite substring_app_prefix, Nat.eqb_refl.
      change (Patterns.all Patterns.isDigit ds) with (allDigits ds). rewrite Hd.
      rewrite string_app_length. cbn [String.length].
      replace (String.length ds + 1 - String.length ds)%nat
        with (String.length "C") by (cbn; lia).
      rewrite substring_app_suffix. reflexivity.
Qed.

(** The digits a temperature token captures: two or three. *)
Lemma tempPattern_digits (tok sign ds : string) :
  tempPattern tok = Some (sign, ds) ->
  allDigits ds = true
  /\ (String.length ds = 2%nat \/ String.length ds = 3%nat).
Proof.
  unfold tempPattern.
  destruct tok as [|c body]; [discriminate|].
  destruct (Ascii.eqb c "M" || Ascii.eqb c "P"); [|discriminate].
  destruct (tempDigits body 3) as [d3|] eqn:H3.
  - intros H. injection H as _ <-.
    apply tempDigits_spec in H3. tauto.
  - destruct (tempDigits body 2) as [d2|] eqn:H2; [|discriminate].
    intros H. injection H as _ <-.
    apply tempDigits_spec in H2. tauto.
Qed.

(** X3: the tokens the temperature pattern [^([MP])(\d{2,3})C?$]
    accepts, and what it captures. A token matches with sign [sign] and
    digits [ds] exactly when the sign is M or P, [ds] is two or three
    digits, and the token is the sign followed by the digits, with or
    without a closing C. *)
Theorem tempPattern_language (tok sign ds : string) :
  tempPattern tok = Some (sign, ds) <->
  (sign = "M" \/ sign = "P")
  /\ allDigits ds = true
  /\ (String.length ds = 2%nat \/ String.length ds = 3%nat)
  /\ (tok = sign ++ ds \/ tok = sign ++ ds ++ "C").
Proof.
  unfold tempPattern. split.
  - destruct tok as [|c body]; [discriminate|].
    destruct (Ascii.eqb c "M" || Ascii.eqb c "P") eqn:Hc; [|discriminate].
    assert (Hsign : String c "" = "M" \/ String c "" = "P").
    { apply orb_prop in Hc. destruct Hc as [Hc|Hc];
        apply Ascii.eqb_eq in Hc; subst; auto. }
    destruct (tempDigits body 3) as [d3|] eqn:H3.
    + intros H. injection H as <- <-.
      apply tempDigits_spec in H3. destruct H3 as [Hl [Hd Hb]].
      repeat split; auto. destruct Hb as [-> | ->]; [left|right]; reflexivity.
    + destruct (tempDigits body 2) as [d2|] eqn:H2; [|discriminate].
      intros H. injection H as <- <-.
      apply tempDigits_spec in H2. destruct H2 as [Hl [Hd Hb]].
      repeat split; auto. destruct Hb as [-> | ->]; [left|right]; reflexivity.
  - intros [Hsign [Hd [Hl Htok]]].
    assert (Hbody : exists c body, tok = String c body
                     /\ (Ascii.eqb c "M" || Ascii.eqb c "P") = true
                     /\ String c "" = sign /\ (body = ds \/ body = ds ++ "C")).
    { destruct Hsign as [-> | ->]; destruct Htok as [-> | ->]; cbn;
        eexists; eexists; repeat split; auto. }
    destruct Hbody as [c [body [-> [Hc [Hs Hb]]]]]. rewrite Hc, Hs.
    destruct (tempDigits body 3) as [d3|] eqn:H3.
    + apply tempDigits_spec in H3. destruct H3 as [Hl3 [Hd3 Hb3]].
      assert (d3 = ds); [|subst; reflexivity].
      destruct Hb as [-> | ->]; destruct Hb3 as [E|E].
      * auto.
      * exfalso. apply (f_equal String.length) in E.
        rewrite string_app_length in E. cbn in E. destruct Hl; lia.
      * exfalso. subst d3. clear - Hd3.
        induction ds as [|a ds IH]; cbn in Hd3; [discriminate|].
        apply andb_prop in Hd3. destruct Hd3 as [_ Hd3]. auto.
      * clear - E. revert d3 E. induction ds as [|a ds IH]; intros [|b d3] E;
          cbn in E; try discriminate; auto.
        -- destruct d3; discriminate.
        -- destruct ds; discriminate.
        -- injection E as -> E. f_equal. apply IH. exact E.
    + destruct Hl as [Hl|Hl].
      * assert (H2 : tempDigits body 2 = Some ds)
          by (apply tempDigits_spec; auto).
        rewrite H2. reflexivity.
      * assert (H3' : tempDigits body 3 = Some ds)
          by (apply tempDigits_spec; auto).
        congruence.
Qed.

Lemma scanTemp_no_token (rest : list string) (r : Result) :
  Forall (fun tok => tempPattern tok = None) rest -> scanTemp rest r = r.
Proof.
  induction 1 as [|tok rest Htok _ IH]; cbn [scanTemp]; [reflexivity|].
  rewrite Htok. exact IH.
Qed.

(** The digits of a temperature token always convert, to at most 999. *)
Lemma tempPattern_Atoi tok sign ds :
  tempPattern tok = Some (sign, ds) ->
  Atoi ds = Some (valueFrom 0 ds) /\ 0 <= valueFrom 0 ds <= 999.
Proof.
  intros H. apply tempPattern_digits in H.
  destruct H as [Hd Hl].
  assert (Hlen : (String.length ds <= 3)%nat) by (destruct Hl; lia).
  split.
  - apply Atoi_digits; [|exact Hd|lia].
    intros ->. cbn in Hl. destruct Hl; discriminate.
  - pose proof (valueFrom_bounds ds Hd 0 ltac:(lia)) as Hb.
    assert (10 ^ Z.of_nat (String.length ds) <= 10 ^ 3)
      by (apply Z.pow_le_mono_r; lia).
    lia.
Qed.

Lemma Temperature_windSSDDD w r : Temperature (windSSDDD w r) = Temperature r.
Proof. unfold windSSDDD. branches; reflexivity. Qed.

Lemma Temperature_windSSSDDD w r : Temperature (windSSSDDD w r) = Temperature r.
Proof. unfold windSSSDDD. branches; reflexivity. Qed.

Lemma Temperature_parseWind w r : Temperature (parseWind w r) = Temperature r.
Proof.
  unfold parseWind. destruct (5 <=? len w); [|reflexivity].
  rewrite Temperature_windSSSDDD. apply Temperature_windSSDDD.
Qed.

Lemma neg_small (z : Z) : 0 <= z <= 999 -> neg z = - z.
Proof. intros H. unfold neg, wrap. rewrite Z.mod_small by lia. lia. Qed.

Lemma scanTemp_skip (pre : list string) (rest : list string) (r : Result) :
  Forall (fun t => tempPattern t = None) pre ->
  scanTemp (pre ++ rest) r = scanTemp rest r.
Proof.
  induction 1 as [|t pre Ht _ IH]; cbn [app scanTemp]; [reflexivity|].
  rewrite Ht. exact IH.
Qed.

Lemma scanTemp_hit (tok sign ds : string) (post : list string) (r : Result) :
  tempPattern tok = Some (sign, ds) ->
  scanTemp (tok :: post) r =
    match post with
    | w :: _ => parseWind w (storeTemp sign (valueFrom 0 ds) r)
    | [] => storeTemp sign (valueFrom 0 ds) r
    end.
Proof.
  intros H. cbn [scanTemp]. rewrite H.
  destruct (tempPattern_Atoi _ _ _ H) as [-> _]. reflexivity.
Qed.

Lemma parseSpeed_ext (parts parts' : list string) (r : Result) :
  nth_error parts 1 = nth_error parts' 1 ->
  nth_error parts 2 = nth_error parts' 2 ->
  parseSpeed parts r = parseSpeed parts' r.
Proof. intros H1 H2. unfold parseSpeed. rewrite H1, H2. reflexivity. Qed.

Lemma Temperature_storeTemp sign v r :
  0 <= v <= 999 ->
  Temperature (storeTemp sign v r) = if String.eqb sign "M" then - v else v.
Proof.
  intros Hv. unfold storeTemp.
  destruct (String.eqb sign "M"); cbn; [apply neg_small; exact Hv|reflexivity].
Qed.

(** X4: the first temperature token decides. When the fields from the
    third on hold a token that matches the temperature pattern, and none
    before it does, the temperature of the result is the number its
    digits write, negated for the sign M; and the fields after the one
    that follows it are never looked at: the result is the same as with
    those fields removed. *)
Theorem first_temperature_token (p0 p1 : string) (pre post : list string)
    (tok sign ds : string) (r : Result) :
  Forall (fun t => tempPattern t = None) pre ->
  tempPattern tok = Some (sign, ds) ->
  Temperature (parseParts (p0 :: p1 :: pre ++ tok :: post) r)
  = (if String.eqb sign "M" then - valueFrom 0 ds else valueFrom 0 ds)
  /\ parseParts (p0 :: p1 :: pre ++ tok :: post) r
     = parseParts (p0 :: p1 :: pre ++ tok :: firstn 1 post) r.
Proof.
  intros Hpre Htok.
  destruct (tempPattern_Atoi _ _ _ Htok) as [_ Hv].
  unfold parseParts. cbn [skipn parseFlightLevel].
  rewrite !(scanTemp_skip pre) by exact Hpre.
  rewrite !(scanTemp_hit tok sign ds) by exact Htok.
  rewrite (parseSpeed_ext (p0 :: p1 :: pre ++ tok :: firstn 1 post)
             (p0 :: p1 :: pre ++ tok :: post)).
  2:{ reflexivity. }
  2:{ cbn [nth_error]. destruct pre; reflexivity. }
  split.
  - destruct post as [|w post].
    + apply Temperature_storeTemp. exact Hv.
    + rewrite Temperature_parseWind. apply Temperature_storeTemp. exact Hv.
  - destruct post as [|w post]; reflexivity.
Qed.

Lemma first_temperature_token_witness :
  Temperature
    (parseParts ["330"; "854"; "242"; "M54C"; "623541"; "P15C"; "99999"] zero)
  = -54.
Proof.
  destruct (first_temperature_token "330" "854" ["242"] ["623541"; "P15C"; "99999"]
              "M54C" "M" "54" zero) as [H _].
  - repeat constructor.
  - reflexivity.
  - exact H.
Defined.

Lemma weather_parseSpeed parts r : weather (parseSpeed parts r) = weather r.
Proof. unfold parseSpeed. branches; reflexivity. Qed.

Lemma weather_parseFlightLevel parts r :
  weather (parseFlightLevel parts r) = weather r.
Proof. unfold parseFlightLevel. branches; reflexivity. Qed.

(** X5: without a temperature token there is no wind. When none of the
    fields from the third on matches the temperature pattern,
    [parseFields] leaves the temperature, the wind speed and the wind
    direction of the result as they were, whatever the fields hold. *)
Theorem no_temperature_no_wind (data : string) (r : Result) :
  Forall (fun tok => tempPattern tok = None) (skipn 2 (Fields data)) ->
  weather (parseFields data r) = weather r.
Proof.
  intros H. unfold parseFields, parseParts.
  rewrite (scanTemp_no_token _ _ H).
  rewrite weather_parseSpeed. apply weather_parseFlightLevel.
Qed.

Lemma no_temperature_no_wind_witness :
  weather (parseFields "330 854 242 62354" zero) = (0, 0, 0).
Proof.
  apply (no_temperature_no_wind "330 854 242 62354" zero).
  repeat constructor.
Defined.

Lemma num_wind_speed (w : string) :
  allDigits w = true -> (3 <= String.length w)%nat ->
  exists d, 0 <= d <= 9 /\ num w 0 3 = num w 0 2 * 10 + d.
Proof.
  intros Hs Hlen.
  destruct w as [|c0 [|c1 [|c2 w]]]; cbn in Hlen; try lia.
  cbn [allDigits Patterns.all] in Hs.
  apply andb_prop in Hs. destruct Hs as [H0 Hs]. apply isDigit_byte in H0.
  apply andb_prop in Hs. destruct Hs as [H1 Hs]. apply isDigit_byte in H1.
  apply andb_prop in Hs. destruct Hs as [H2 Hs]. apply isDigit_byte in H2.
  unfold num, slice. cbn [substring Nat.sub valueFrom].
  exists (byte c2 - 48). split; [lia|].
  destruct w; cbn [substring valueFrom]; lia.
Qed.

(** X6: how a wind token of five or more digits is read. If its third
    to fifth digits are at most 360, it is read as SSDDD: the speed is
    the first two digits and the direction the next three, also for a
    token of six digits. Otherwise, if the token has six digits, no
    wind speed is stored yet, the first three digits are at least 100
    and the last three at most 360, it is read as SSSDDD. Otherwise the
    wind is left as it was. *)
Theorem wind_token_readings (w : string) (r : Result) :
  allDigits w = true -> (5 <= String.length w)%nat ->
  let r' := parseWind w r in
  (num w 2 5 <= 360 -> windOf r' = (num w 0 2, num w 2 5))
  /\ (360 < num w 2 5 -> (6 <= String.length w)%nat -> WindSpeed r = 0 ->
      100 <= num w 0 3 -> num w 3 6 <= 360 ->
      windOf r' = (num w 0 3, num w 3 6))
  /\ (360 < num w 2 5 ->
      (String.length w < 6)%nat \/ WindSpeed r <> 0
      \/ num w 0 3 < 100 \/ 360 < num w 3 6 ->
      windOf r' = windOf r).
Proof.
  intros Hs Hlen.
  destruct (Atoi_field w 0 2 Hs) as [A02 B02]; try lia.
  destruct (Atoi_field w 2 5 Hs) as [A25 B25]; try lia.
  change (10 ^ Z.of_nat (2 - 0)) with 100 in B02.
  destruct (num_wind_speed w Hs ltac:(lia)) as [d [Hd H3]].
  cbv zeta. unfold parseWind, len.
  destruct (Z.leb_spec 5 (Z.of_nat (String.length w))); [|lia].
  assert (H1 : windSSDDD w r =
               if num w 2 5 <=? 360
               then setWindDirection (num w 2 5) (setWindSpeed (num w 0 2) r)
               else r).
  { unfold windSSDDD. rewrite A02, A25.
    destruct (Z.leb_spec 0 (num w 0 2)); [|lia].
    destruct (Z.leb_spec (num w 0 2) 99); [|lia].
    destruct (Z.leb_spec 0 (num w 2 5)); [|lia]. reflexivity. }
  rewrite H1. clear H1.
  split; [|split].
  - intros Hwd. destruct (Z.leb_spec (num w 2 5) 360); [|lia].
    unfold windSSSDDD. cbn [WindSpeed setWindDirection setWindSpeed].
    destruct (Z.eqb_spec (num w 0 2) 0) as [Hz|Hnz]; [|reflexivity].
    destruct (Z.leb_spec 6 (len w)) as [H6|H6]; [|reflexivity].
    cbn [andb].
    destruct (Atoi_field w 0 3 Hs) as [A03 _]; try (unfold len in H6; lia).
    rewrite A03.
    destruct (Z.leb_spec 100 (num w 0 3)); [lia|]. reflexivity.
  - intros Hwd H6 Hr0 Hws Hwd3.
    destruct (Z.leb_spec (num w 2 5) 360); [lia|].
    unfold windSSSDDD, len. rewrite Hr0.
    destruct (Z.leb_spec 6 (Z.of_nat (String.length w))); [|lia].
    cbn [Z.eqb andb].
    destruct (Atoi_field w 0 3 Hs) as [A03 B03]; try lia.
    destruct (Atoi_field w 3 6 Hs) as [A36 B36]; try lia.
    change (10 ^ Z.of_nat (3 - 0)) with 1000 in B03.
    rewrite A03, A36.
    destruct (Z.leb_spec 100 (num w 0 3)); [|lia].
    destruct (Z.leb_spec (num w 0 3) 999); [|lia].
    destruct (Z.leb_spec 0 (num w 3 6)); [|lia].
    destruct (Z.leb_spec (num w 3 6) 360); [|lia]. reflexivity.
  - intros Hwd Hno.
    destruct (Z.leb_spec (num w 2 5) 360); [lia|].
    unfold windSSSDDD, len.
    destruct (Z.eqb_spec (WindSpeed r) 0) as [Hr0|]; [|reflexivity].
    destruct (Z.leb_spec 6 (Z.of_nat (String.length w))) as [H6|]; [|reflexivity].
    cbn [andb].
    destruct (Atoi_field w 0 3 Hs) as [A03 B03]; try lia.
    destruct (Atoi_field w 3 6 Hs) as [A36 B36]; try lia.
    rewrite A03, A36.
    destruct (Z.leb_spec 100 (num w 0 3)); [|reflexivity].
    destruct (Z.leb_spec (num w 0 3) 999); [|reflexivity].
    cbn [andb].
    destruct (Z.leb_spec 0 (num w 3 6)); [|reflexivity].
    destruct (Z.leb_spec (num w 3 6) 360); [|reflexivity].
    exfalso. destruct Hno as [?|[?|[?|?]]]; lia.
Qed.

Lemma wind_token_readings_witness :
  windOf (parseWind "120270" zero) = (12, 27)
  /\ windOf (parseWind "125270" zero) = (125, 270).
Proof.
  split.
  - destruct (wind_token_readings "120270" zero eq_refl ltac:(cbn; lia))
      as [H _].
    apply H. vm_compute. discriminate.
  - destruct (wind_token_readings "125270" zero eq_refl ltac:(cbn; lia))
      as [_ [H _]].
    apply H; try reflexivity; try (cbn; lia); vm_compute; discriminate.
Defined.

Lemma meteo_parseSpeed parts r : meteo (parseSpeed parts r) = meteo r.
Proof. unfold parseSpeed, storeGroundSpeed. branches; reflexivity. Qed.

Lemma inRange_parseFlightLevel parts r :
  meteoInRange r -> meteoInRange (parseFlightLevel parts r).
Proof.
  intros H. unfold parseFlightLevel.
  destruct parts as [|p0 parts]; [exact H|].
  destruct (Atoi p0) as [fl|]; [|exact H].
  destruct (Z.leb_spec 0 fl), (Z.leb_spec fl 600); cbn [andb]; try exact H.
  unfold meteoInRange in *. cbn. lia.
Qed.

Lemma inRange_meteo r r' : meteo r' = meteo r -> meteoInRange r -> meteoInRange r'.
Proof.
  unfold meteo, meteoInRange. intros E H. injection E as -> -> -> ->. exact H.
Qed.

Lemma inRange_storeTemp sign v r :
  0 <= v <= 999 -> meteoInRange r -> meteoInRange (storeTemp sign v r).
Proof.
  intros Hv H. unfold storeTemp, meteoInRange in *.
  destruct (String.eqb sign "M"); cbn; [rewrite neg_small by exact Hv|]; lia.
Qed.

Lemma inRange_windSSDDD w r : meteoInRange r -> meteoInRange (windSSDDD w r).
Proof.
  intros H. unfold windSSDDD.
  destruct (Atoi (slice w 0 2)) as [ws|]; [|exact H].
  destruct (Z.leb_spec 0 ws), (Z.leb_spec ws 99); cbn [andb]; try exact H.
  destruct (Atoi (slice w 2 5)) as [wd|]; [|exact H].
  destruct (Z.leb_spec 0 wd), (Z.leb_spec wd 360); cbn [andb]; try exact H.
  unfold meteoInRange in *. cbn. lia.
Qed.

Lemma inRange_windSSSDDD w r : meteoInRange r -> meteoInRange (windSSSDDD w r).
Proof.
  intros H. unfold windSSSDDD.
  destruct ((WindSpeed r =? 0) && (6 <=? len w)); [|exact H].
  destruct (Atoi (slice w 0 3)) as [ws|]; [|exact H].
  destruct (Z.leb_spec 100 ws), (Z.leb_spec ws 999); cbn [andb]; try exact H.
  destruct (Atoi (slice w 3 6)) as [wd|]; [|exact H].
  destruct (Z.leb_spec 0 wd), (Z.leb_spec wd 360); cbn [andb]; try exact H.
  unfold meteoInRange in *. cbn. lia.
Qed.

Lemma inRange_parseWind w r : meteoInRange r -> meteoInRange (parseWind w r).
Proof.
  intros H. unfold parseWind. destruct (5 <=? len w); [|exact H].
  apply inRange_windSSSDDD, inRange_windSSDDD, H.
Qed.

Lemma inRange_scanTemp rest : forall r, meteoInRange r -> meteoInRange (scanTemp rest r).
Proof.
  induction rest as [|tok rest IH]; intros r H; cbn [scanTemp]; [exact H|].
  destruct (tempPattern tok) as [[sign ds]|] eqn:Ht; [|apply IH; exact H].
  destruct (tempPattern_Atoi _ _ _ Ht) as [-> Hv].
  destruct rest as [|w rest'].
  - apply inRange_storeTemp; assumption.
  - apply inRange_parseWind, inRange_storeTemp; assumption.
Qed.

(** [parseFields] keeps the flight level, the temperature and the wind
    within their limits. *)
Lemma inRange_parseFields data r :
  meteoInRange r -> meteoInRange (parseFields data r).
Proof.
  intros H. unfold parseFields, parseParts.
  apply inRange_scanTemp.
  apply (inRange_meteo (parseFlightLevel (Fields data) r)).
  - apply meteo_parseSpeed.
  - apply inRange_parseFlightLevel. exact H.
Qed.

Lemma Atoi_plus (ds : string) :
  ds <> "" -> allDigits ds = true -> (String.length ds <= 18)%nat ->
  Atoi (String "+" ds) = Some (valueFrom 0 ds).
Proof.
  intros Hne Hs Hlen.
  pose proof (valueFrom_bounds _ Hs 0 ltac:(lia)) as Hb.
  assert (Hpow : 10 ^ Z.of_nat (String.length ds) <= 10 ^ 18)
    by (apply Z.pow_le_mono_r; lia).
  destruct ds as [|c ds]; [congruence|].
  unfold Atoi. cbn [Ascii.eqb Bool.eqb orb andb].
  rewrite (digits_valueFrom _ Hs 0).
  assert (Hr : inRange (valueFrom 0 (String c ds)) = true).
  { unfold inRange, MinInt, MaxInt.
    apply andb_true_intro; split; apply Z.leb_le; lia. }
  rewrite Hr. reflexivity.
Qed.

Lemma Atoi_abs_bound (s : string) (v : Z) :
  Atoi s = Some v -> Z.abs v < 10 ^ Z.of_nat (String.length s).
Proof.
  intros H.
  destruct (Atoi_inv s v H) as [body [Hne [Hs [[-> ->]|[[-> ->]|[-> ->]]]]]];
    pose proof (valueFrom_bounds _ Hs 0 ltac:(lia)) as Hb.
  - lia.
  - cbn [String.length]. rewrite Nat2Z.inj_succ, Z.pow_succ_r by lia. lia.
  - cbn [String.length]. rewrite Nat2Z.inj_succ, Z.pow_succ_r by lia. lia.
Qed.

Lemma Atoi_prefix3_bound (s : string) (v ias : Z) :
  Atoi s = Some v -> 0 < v -> (4 < String.length s)%nat ->
  Atoi (slice s 0 3) = Some ias -> 0 <= ias <= 999.
Proof.
  intros H Hv Hlen Hias.
  destruct (Atoi_inv s v H) as [body [Hne [Hs [[-> _]|[[-> _]|[-> Hneg]]]]]].
  - destruct (Atoi_field body 0 3 Hs) as [A B]; try lia.
    change (10 ^ Z.of_nat (3 - 0)) with 1000 in B. rewrite A in Hias.
    injection Hias as <-. lia.
  - cbn [String.length] in Hlen.
    unfold slice in Hias. cbn [Nat.sub substring] in Hias.
    rewrite Atoi_plus in Hias.
    + injection Hias as <-.
      pose proof (valueFrom_bounds _ (substring_all _ _ Hs 0%nat 2%nat) 0 ltac:(lia)) as Hb.
      rewrite substring_length in Hb by lia.
      change (10 ^ Z.of_nat 2) with 100 in Hb. lia.
    + intros Heq. pose proof (substring_length body 0 2 ltac:(lia)) as Hl.
      rewrite Heq in Hl. discriminate.
    + apply substring_all. exact Hs.
    + rewrite substring_length; lia.
  - pose proof (valueFrom_bounds _ Hs 0 ltac:(lia)) as Hb. lia.
Qed.

Lemma speed_small (parts : list string) (r : Result) (speed : Z) :
  0 < speed -> speed <= 1000 ->
  (700 <= speed <= 1000 ->
   speedOf (parseSpeed parts r) = (0, speed, "kmh", "KMH"))
  /\ (350 <= speed < 700 ->
      speedOf (parseSpeed parts r) = (0, speed, "knots", "GS"))
  /\ (100 <= speed < 350 ->
      match match nth_error parts 2 with
            | Some t => Atoi t
            | None => None
            end with
      | Some n =>
          if (100 <=? n) && (n <? 1000) then
            speedOf (parseSpeed parts r)
            = (speed, n, if 700 <=? n then "kmh" else "knots",
               if 700 <=? n then "IAS+KMH" else "IAS+GS")
          else speedOf (parseSpeed parts r) = (speed, 0, "", "IAS")
      | None => speedOf (parseSpeed parts r) = (speed, 0, "", "IAS")
      end)
  /\ (speed < 100 \/ 1000 < speed ->
      speedOf (parseSpeed parts r) = (0, speed, "knots", "GS")) ->
  let '(ias, gs, unit, kind) := speedOf (parseSpeed parts r) in
  (kind = "" /\ unit = "" /\ ias = 0 /\ gs = 0)
  \/ (kind = "IAS" /\ unit = "" /\ gs = 0 /\ 0 <= ias <= 999)
  \/ (kind = "GS" /\ unit = "knots" /\ ias = 0
      /\ (0 < gs < 100 \/ 350 <= gs < 700 \/ 1000 < gs <= 9999))
  \/ (kind = "KMH" /\ unit = "kmh" /\ ias = 0 /\ 700 <= gs <= 1000)
  \/ (kind = "IAS+GS" /\ unit = "knots" /\ 100 <= ias < 350 /\ 100 <= gs < 700)
  \/ (kind = "IAS+KMH" /\ unit = "kmh" /\ 100 <= ias <= 999 /\ 0 <= gs <= 9999).
Proof.
  intros Hpos Hle [Hkmh [Hgs [Hias Hfall]]].
  destruct (Z_lt_dec speed 100) as [H100|H100].
  { rewrite (Hfall (or_introl H100)). do 2 right. left.
    repeat split; auto; lia. }
  destruct (Z_lt_dec speed 350) as [H350|H350].
  { specialize (Hias ltac:(lia)).
    destruct (match nth_error parts 2 with
              | Some t => Atoi t
              | None => None
              end) as [n|].
    - destruct (Z.leb_spec 100 n), (Z.ltb_spec n 1000); cbn [andb] in Hias;
        try (rewrite Hias; right; left; repeat split; auto; lia).
      destruct (Z.leb_spec 700 n); rewrite Hias.
      + do 5 right. repeat split; auto; lia.
      + do 4 right. left. repeat split; auto; lia.
    - rewrite Hias. right. left. repeat split; auto; lia. }
  destruct (Z_lt_dec speed 700) as [H700|H700].
  { rewrite (Hgs ltac:(lia)). do 2 right. left. repeat split; auto; lia. }
  rewrite (Hkmh ltac:(lia)). do 3 right. left. repeat split; auto; lia.
Qed.

(** From a result without speed, [parseSpeed] leaves one of the six
    combinations. *)
Lemma speedConsistent_parseSpeed parts r :
  speedOf r = (0, 0, "", "") -> speedConsistent (parseSpeed parts r).
Proof.
  intros Hr.
  assert (Hsame : speedConsistent r).
  { unfold speedConsistent. rewrite Hr. left. auto. }
  unfold speedOf in Hr. injection Hr as Hi Hg Hu Hk.
  destruct (nth_error parts 1) as [speedStr|] eqn:Hnth.
  2:{ unfold parseSpeed. rewrite Hnth. exact Hsame. }
  destruct (Atoi speedStr) as [speed|] eqn:Hatoi.
  2:{ unfold parseSpeed. rewrite Hnth, Hatoi. exact Hsame. }
  destruct (Z.ltb_spec 0 speed) as [Hpos|Hnpos].
  2:{ unfold parseSpeed. rewrite Hnth, Hatoi.
      destruct (Z.ltb_spec 0 speed); [lia|]. exact Hsame. }
  pose proof (parseSpeed_classes parts r speedStr speed Hnth Hatoi Hpos) as H.
  cbv zeta in H. destruct H as [Hpacked [Hlegacy Hrest]].
  rewrite Hi, Hg, Hu in *.
  unfold speedConsistent.
  destruct (Z.eq_dec (len speedStr) 7) as [H7|H7].
  - destruct (Z_lt_dec 1000000 speed) as [Hm|Hm].
    + destruct (Hpacked (conj H7 Hm)) as [Hsplit ->].
      assert (Hlen : String.length speedStr = 7%nat) by (unfold len in H7; lia).
      destruct (Atoi_packed _ _ Hatoi Hlen Hm) as [Hs _].
      destruct (Atoi_field speedStr 0 3 Hs) as [_ B03]; try lia.
      destruct (Atoi_field speedStr 3 7 Hs) as [_ B37]; try lia.
      change (10 ^ Z.of_nat (3 - 0)) with 1000 in B03.
      change (10 ^ Z.of_nat (7 - 3)) with 10000 in B37.
      do 5 right. repeat split; try lia.
    + assert (Hnp : ~ (len speedStr = 7 /\ 1000000 < speed)) by tauto.
      destruct (Z_lt_dec 1000 speed) as [Hbig|Hsmall].
      * assert (Hleg : ~ (len speedStr = 7 /\ 1000000 < speed)
                       /\ 1000 < speed /\ 4 < len speedStr)
          by (repeat split; auto; lia).
        destruct (Hlegacy Hleg) as [ias [Hias ->]].
        right. left. repeat split; auto;
          apply (Atoi_prefix3_bound speedStr speed ias); auto;
          unfold len in H7; lia.
      * assert (Hnl : ~ (~ (len speedStr = 7 /\ 1000000 < speed)
                         /\ 1000 < speed /\ 4 < len speedStr)) by tauto.
        apply (speed_small parts r speed); auto; lia.
  - assert (Hnp : ~ (len speedStr = 7 /\ 1000000 < speed)) by tauto.
    destruct (Z_lt_dec 1000 speed) as [Hbig|Hsmall].
    + destruct (Z_lt_dec 4 (len speedStr)) as [Hlong|Hshort].
      * assert (Hleg : ~ (len speedStr = 7 /\ 1000000 < speed)
                       /\ 1000 < speed /\ 4 < len speedStr)
          by (repeat split; auto).
        destruct (Hlegacy Hleg) as [ias [Hias ->]].
        right. left. repeat split; auto;
          apply (Atoi_prefix3_bound speedStr speed ias); auto;
          unfold len in Hlong; lia.
      * assert (Hnl : ~ (~ (len speedStr = 7 /\ 1000000 < speed)
                         /\ 1000 < speed /\ 4 < len speedStr)) by tauto.
        destruct (Hrest Hnp Hnl) as [_ [_ [_ Hfall]]].
        rewrite (Hfall (or_intror Hbig)).
        pose proof (Atoi_abs_bound _ _ Hatoi) as Hab.
        assert (10 ^ Z.of_nat (String.length speedStr) <= 10 ^ 4)
          by (apply Z.pow_le_mono_r; unfold len in Hshort; lia).
        do 2 right. left. repeat split; auto. right. right. lia.
    + assert (Hnl : ~ (~ (len speedStr = 7 /\ 1000000 < speed)
                       /\ 1000 < speed /\ 4 < len speedStr)) by tauto.
      apply (speed_small parts r speed); auto; lia.
Qed.

Lemma Fst_Parse_shape (gc : option Patterns.Compiler) (msg : Acars.Message) :
  whenSome (Parse gc msg) (fun r => meteoInRange r /\ speedConsistent r).
Proof.
  unfold Parse.
  destruct (String.eqb (Acars.Text msg) ""); [exact I|].
  destruct gc as [compiler|]; [|exact I].
  destruct (Patterns.Parse compiler _) as [m|]; [|exact I].
  set (r0 := setLongitude _ (setLatitude _ (newResult msg m))).
  assert (H0 : meteoInRange r0) by (unfold meteoInRange; cbn; lia).
  assert (S0 : speedOf r0 = (0, 0, "", "")) by reflexivity.
  destruct (0 <? len (Patterns.capture m "rest")); cbn [whenSome].
  - split.
    + apply inRange_parseFields. unfold meteoInRange in *. cbn. exact H0.
    + unfold parseFields, parseParts, speedConsistent.
      rewrite speedOf_scanTemp.
      apply (speedConsistent_parseSpeed (Fields (Patterns.capture m "rest"))).
      rewrite speedOf_parseFlightLevel. reflexivity.
  - split; [exact H0|]. unfold speedConsistent. rewrite S0. left. auto.
Qed.

(** X7: every result of the FST decoder has its readings within the
    limits the code checks: a flight level from 0 to 600, a temperature
    from -999 to 999, a wind speed from 0 to 999 and a wind direction
    from 0 to 360. A reading outside them is never stored. *)
Theorem Fst_Parse_ranges (gc : option Patterns.Compiler)
    (msg : Acars.Message) :
  whenSome (Parse gc msg) meteoInRange.
Proof.
  pose proof (Fst_Parse_shape gc msg) as H.
  destruct (Parse gc msg); cbn [whenSome] in *; [apply H|exact I].
Qed.

(** X8: the speed fields of every result of the FST decoder agree with
    one another. The speed type is empty with no speed stored; IAS with
    an indicated air speed only; GS with a ground speed in knots that is
    below 100, from 350 up to 700, or above 1000; KMH with a ground
    speed in km/h from 700 to 1000; IAS+GS with an indicated air speed
    from 100 up to 350 and a ground speed in knots from 100 up to 700;
    IAS+KMH with both and the unit km/h. A unit is stored exactly with a
    ground speed type. *)
Theorem Fst_Parse_speed (gc : option Patterns.Compiler)
    (msg : Acars.Message) :
  whenSome (Parse gc msg) speedConsistent.
Proof.
  pose proof (Fst_Parse_shape gc msg) as H.
  destruct (Parse gc msg); cbn [whenSome] in *; [apply H|exact I].
Qed.

End Weather.

(* ================================================================== *)
(** ** The FST decoder from text to result ([Parser.Parse])            *)
(* ================================================================== *)

Section FstParse.

Import Go Digits Fst Stated Derived.

Lemma fixedPart_parseFlightLevel parts r :
  fixedPart (parseFlightLevel parts r) = fixedPart r.
Proof. unfold parseFlightLevel. branches; reflexivity. Qed.

Lemma fixedPart_parseSpeed parts r :
  fixedPart (parseSpeed parts r) = fixedPart r.
Proof. unfold parseSpeed, storeGroundSpeed. branches; reflexivity. Qed.

Lemma fixedPart_windSSDDD w r : fixedPart (windSSDDD w r) = fixedPart r.
Proof. unfold windSSDDD. branches; reflexivity. Qed.

Lemma fixedPart_windSSSDDD w r : fixedPart (windSSSDDD w r) = fixedPart r.
Proof. unfold windSSSDDD. branches; reflexivity. Qed.

Lemma fixedPart_parseWind w r : fixedPart (parseWind w r) = fixedPart r.
Proof.
  unfold parseWind. destruct (5 <=? len w); [|reflexivity].
  rewrite fixedPart_windSSSDDD. apply fixedPart_windSSDDD.
Qed.

Lemma fixedPart_storeTemp sign v r : fixedPart (storeTemp sign v r) = fixedPart r.
Proof. unfold storeTemp. destruct (String.eqb sign "M"); reflexivity. Qed.

Lemma fixedPart_scanTemp rest : forall r, fixedPart (scanTemp rest r) = fixedPart r.
Proof.
  induction rest as [|tok rest IH]; intros r; cbn [scanTemp]; [reflexivity|].
  destruct (tempPattern tok) as [[sign ds]|]; [|apply IH].
  destruct (Atoi ds) as [temp|]; [|apply IH].
  destruct rest as [|w rest']; [apply fixedPart_storeTemp|].
  rewrite fixedPart_parseWind. apply fixedPart_storeTemp.
Qed.

(** [parseFields] assigns none of the header and position fields. *)
Lemma fixedPart_parseFields data r : fixedPart (parseFields data r) = fixedPart r.
Proof.
  unfold parseFields, parseParts.
  rewrite fixedPart_scanTemp, fixedPart_parseSpeed.
  apply fixedPart_parseFlightLevel.
Qed.

Lemma Parse_None (gc : option Patterns.Compiler) (msg : Acars.Message) :
  Parse gc msg = None <->
  Acars.Text msg = "" \/ gc = None
  \/ exists c, gc = Some c /\ Patterns.Parse c (fstText msg) = None.
Proof.
  unfold Parse. fold (fstText msg).
  destruct (String.eqb_spec (Acars.Text msg) "") as [He|Hne].
  { split; auto. }
  destruct gc as [c|].
  2:{ split; auto. }
  destruct (Patterns.Parse c (fstText msg)) as [m|] eqn:Hm.
  - split.
    + destruct (0 <? len (Patterns.capture m "rest")); discriminate.
    + intros [H|[H|[c' [Hc H]]]]; congruence.
  - split; auto. intros _. right. right. exists c. auto.
Qed.

Lemma Parse_Some (gc : option Patterns.Compiler) (msg : Acars.Message)
    (c : Patterns.Compiler) (m : Patterns.Match) :
  Acars.Text msg <> "" -> gc = Some c ->
  Patterns.Parse c (fstText msg) = Some m ->
  exists r,
    Parse gc msg = Some r
    /\ fixedPart r
       = (Acars.ID msg, Acars.Timestamp msg, Acars.Tail msg,
          Patterns.capture m "seq", Patterns.capture m "origin",
          Patterns.capture m "dest",
          signed (Patterns.capture m "lat_dir") "S"
            (parseCoord (Patterns.capture m "lat")),
          signed (Patterns.capture m "lon_dir") "W"
            (parseCoord (Patterns.capture m "lon")),
          0, Patterns.capture m "rest").
Proof.
  unfold Parse. fold (fstText msg).
  intros Hne -> Hm.
  destruct (String.eqb_spec (Acars.Text msg) "") as [He|_]; [contradiction|].
  rewrite Hm. unfold len.
  destruct (Z.ltb_spec 0
              (Z.of_nat (String.length (Patterns.capture m "rest"))))
    as [Hpos|Hzero].
  - eexists. split; [reflexivity|].
    rewrite fixedPart_parseFields. reflexivity.
  - eexists. split; [reflexivity|].
    assert (Hrest : Patterns.capture m "rest" = "").
    { destruct (Patterns.capture m "rest"); [reflexivity|cbn in Hzero; lia]. }
    rewrite Hrest. reflexivity.
Qed.

(** X9: what the FST decoder returns, from the text to the result. It
    returns nothing exactly when the body is empty, the compiler is not
    available, or no format matches the text from the first "FST" on.
    Otherwise the result carries the id, the timestamp and the tail of
    the message, the sequence, origin and destination captures as they
    are, the latitude [parseCoord] reads from the latitude capture,
    negated for the direction S, the longitude likewise, negated for W,
    and the rest capture as raw data; the true air speed is never
    set. *)
Theorem Fst_Parse_result (gc : option Patterns.Compiler)
    (msg : Acars.Message) :
  (Parse gc msg = None <->
   Acars.Text msg = "" \/ gc = None
   \/ exists c, gc = Some c /\ Patterns.Parse c (fstText msg) = None)
  /\ forall c m,
       Acars.Text msg <> "" -> gc = Some c ->
       Patterns.Parse c (fstText msg) = Some m ->
       exists r,
         Parse gc msg = Some r
         /\ fixedPart r
            = (Acars.ID msg, Acars.Timestamp msg, Acars.Tail msg,
               Patterns.capture m "seq", Patterns.capture m "origin",
               Patterns.capture m "dest",
               signed (Patterns.capture m "lat_dir") "S"
                 (parseCoord (Patterns.capture m "lat")),
               signed (Patterns.capture m "lon_dir") "W"
                 (parseCoord (Patterns.capture m "lon")),
               0, Patterns.capture m "rest").
Proof.
  split; [apply Parse_None|].
  intros c m. apply Parse_Some.
Qed.


Lemma step_class p n s t s' :
  Patterns.step (Patterns.MClass p n) s = Some (t, s') ->
  String.length t = n /\ Patterns.all p t = true.
Proof.
  cbn [Patterns.step]. cbv zeta.
  destruct (Nat.eqb_spec (String.length (substring 0 n s)) n) as [Hl|]; [|discriminate].
  destruct (Patterns.all p (substring 0 n s)) eqn:Ha; [|discriminate].
  cbn [andb]. intros H. injection H as <- _. auto.
Qed.

Lemma step_dot s t s' :
  Patterns.step Patterns.MDotPlus s = Some (t, s') -> t <> "".
Proof.
  cbn [Patterns.step]. destruct (Patterns.line s); [discriminate|].
  intros H. injection H as <- _. discriminate.
Qed.

Lemma one_of (a b : ascii) (t : string) :
  String.length t = 1%nat ->
  Patterns.all (fun c => Ascii.eqb c a || Ascii.eqb c b) t = true ->
  t = String a "" \/ t = String b "".
Proof.
  destruct t as [|c [|? ?]]; try discriminate. intros _. cbn.
  rewrite andb_true_r. intros H. apply orb_true_iff in H.
  destruct H as [H|H]; apply Ascii.eqb_eq in H; subst; auto.
Qed.

Lemma matchHere_header (a b : nat) (ms : list (option string * Patterns.matcher)) :
  Patterns.compilePattern (header a b) = Some ms ->
  forall s caps, Patterns.matchHere ms s = Some caps -> headerCaptures a b caps.
Proof.
  cbn. intros H. injection H as <-. intros s caps.
  cbn [Patterns.matchHere].
  destruct (Patterns.step (Patterns.MLit "FST") s) as [[t0 s0]|]; [|discriminate].
  destruct (Patterns.step _ s0) as [[t1 s1]|] eqn:H1; [|discriminate].
  destruct (Patterns.step _ s1) as [[t2 s2]|] eqn:H2; [|discriminate].
  destruct (Patterns.step _ s2) as [[t3 s3]|] eqn:H3; [|discriminate].
  destruct (Patterns.step _ s3) as [[t4 s4]|] eqn:H4; [|discriminate].
  destruct (Patterns.step _ s4) as [[t5 s5]|] eqn:H5; [|discriminate].
  destruct (Patterns.step _ s5) as [[t6 s6]|] eqn:H6; [|discriminate].
  destruct (Patterns.step _ s6) as [[t7 s7]|] eqn:H7; [|discriminate].
  destruct (Patterns.step _ s7) as [[t8 s8]|] eqn:H8; [|discriminate].
  intros H. injection H as <-.
  apply step_class in H1, H2, H3, H4, H5, H6, H7. apply step_dot in H8.
  exists t1, t2, t3, t4, t5, t6, t7, t8.
  split; [reflexivity|].
  destruct H4 as [H4 H4']. apply (one_of "N" "S") in H4'; [|exact H4].
  destruct H6 as [H6 H6']. apply (one_of "E" "W") in H6'; [|exact H6].
  repeat split; try tauto.
Qed.

Lemma search_matchHere (ms : list (option string * Patterns.matcher))
    (P : list (string * string) -> Prop) :
  (forall s caps, Patterns.matchHere ms s = Some caps -> P caps) ->
  forall s caps, Patterns.search ms s = Some caps -> P caps.
Proof.
  intros HP s. induction s as [|c s IH]; intros caps; cbn [Patterns.search].
  - destruct (Patterns.matchHere ms "") eqn:Hm; [|discriminate].
    intros H. injection H as <-. eapply HP; eassumption.
  - destruct (Patterns.matchHere ms (String c s)) eqn:Hm.
    + intros H. injection H as <-. eapply HP; eassumption.
    + apply IH.
Qed.

Lemma headerCaptures_shape name a b caps :
  headerCaptures a b caps ->
  (name = "fst_7digit_lon" /\ a = 6%nat /\ b = 7%nat
   \/ name = "fst_6digit" /\ a = 6%nat /\ b = 6%nat
   \/ name = "fst_5digit_lon" /\ a = 5%nat /\ b = 5%nat) ->
  headerShape (Patterns.mkMatch name caps).
Proof.
  intros (seq & origin & dest & latDir & lat & lonDir & lon & rest & -> & H) Hn.
  unfold headerShape, Patterns.capture. cbn.
  destruct H as (? & ? & ? & ? & ? & [? ?] & [? ?] & ?).
  repeat split; try tauto.
  destruct Hn as [(-> & -> & ->)|[(-> & -> & ->)|(-> & -> & ->)]]; tauto.
Qed.

Theorem Formats_compiled :
  exists c,
    Patterns.NewCompiler Formats = Some c
    /\ forall text m, Patterns.Parse c text = Some m -> headerShape m.
Proof.
  unfold Patterns.NewCompiler, Formats. cbn [Patterns.compileFormats Patterns.Pattern Patterns.Name].
  destruct (Patterns.compilePattern (header 6 7)) as [m7|] eqn:H7; [|discriminate H7].
  destruct (Patterns.compilePattern (header 6 6)) as [m6|] eqn:H6; [|discriminate H6].
  destruct (Patterns.compilePattern (header 5 5)) as [m5|] eqn:H5; [|discriminate H5].
  eexists. split; [reflexivity|].
  intros text m. cbn [Patterns.Parse Patterns.parseFirst].
  destruct (Patterns.search m7 text) as [caps|] eqn:S7.
  { intros H. injection H as <-.
    apply (headerCaptures_shape _ 6 7); [|tauto].
    apply (search_matchHere m7 _ (matchHere_header 6 7 m7 H7) text caps S7). }
  destruct (Patterns.search m6 text) as [caps|] eqn:S6.
  { intros H. injection H as <-.
    apply (headerCaptures_shape _ 6 6); [|tauto].
    apply (search_matchHere m6 _ (matchHere_header 6 6 m6 H6) text caps S6). }
  destruct (Patterns.search m5 text) as [caps|] eqn:S5; [|discriminate].
  intros H. injection H as <-.
  apply (headerCaptures_shape _ 5 5); [|tauto].
  apply (search_matchHere m5 _ (matchHere_header 5 5 m5 H5) text caps S5).
Qed.

(** X11: the formats of [grok.go] compile, and every match of the
    compiler holds a sequence of two digits, an origin and a destination
    of four capital letters, a latitude direction N or S, a longitude
    direction E or W, latitude and longitude captures made of digits, of
    lengths 6 and 7, 6 and 6 or 5 and 5 according to the format that
    matched, and a rest that is not empty. *)
Theorem Formats_captures :
  exists c,
    Patterns.NewCompiler Formats = Some c
    /\ forall text m, Patterns.Parse c text = Some m -> headerShape m.
Proof. exact Formats_compiled. Qed.

Lemma rangeDDMMD_table :
  below 100 (fun d => below 60 (fun w => below 10 (fun t => rangeDDMMD d w t))) = true.
Proof. vm_compute. reflexivity. Qed.

Lemma rangeDDMMTT_table :
  below 100 (fun d => below 60 (fun w => below 100 (fun h => rangeDDMMTT d w h))) = true.
Proof. vm_compute. reflexivity. Qed.

Lemma rangeDecimal_table :
  below 181 (fun d => below 100 (fun a => below 100 (fun b => rangeDecimal d (a * 100 + b)))) = true.
Proof. vm_compute. reflexivity. Qed.

Lemma rangeDecimal_ok (d f : Z) :
  0 <= d <= 180 -> 0 <= f < 10000 -> rangeDecimal d f = true.
Proof.
  intros Hd Hf.
  pose proof (below_spec _ _ rangeDecimal_table d ltac:(lia)) as T1.
  pose proof (Z.div_mod f 100 ltac:(lia)) as Hdm.
  pose proof (Z.mod_pos_bound f 100 ltac:(lia)) as Hm.
  assert (Ha : 0 <= f / 100 < 100).
  { split; [apply Z.div_pos; lia|apply Z.div_lt_upper_bound; lia]. }
  pose proof (below_spec _ _ T1 (f / 100) ltac:(lia)) as T2.
  pose proof (below_spec _ _ T2 (f mod 100) ltac:(lia)) as T3.
  cbv beta in T3.
  replace (f / 100 * 100 + f mod 100) with f in T3 by lia.
  exact T3.
Qed.

Theorem parseCoord_magnitude (s : string) :
  allDigits s = true ->
  magnitude (parseCoord s) 181 = true
  /\ (String.length s <> 7%nat -> magnitude (parseCoord s) 100 = true).
Proof.
  intros Hs.
  destruct (Nat.eq_dec (String.length s) 5) as [H5|N5].
  { assert (H : magnitude (parseCoord s) 100 = true
                /\ magnitude (parseCoord s) 181 = true); [|tauto].
    rewrite parseCoord_dispatch, H5. unfold parseCoord5.
    destruct (Atoi_field s 0 2 Hs) as [A02 B02]; try lia.
    destruct (Atoi_field s 2 4 Hs) as [A24 B24]; try lia.
    destruct (Atoi_field s 4 5 Hs) as [A45 B45]; try lia.
    change (10 ^ Z.of_nat (2 - 0)) with 100 in B02.
    change (10 ^ Z.of_nat (4 - 2)) with 100 in B24.
    change (10 ^ Z.of_nat (5 - 4)) with 10 in B45.
    rewrite A02, A24, A45.
    fold (minutesTenths (num s 2 4) (num s 4 5)).
    unfold degMin. rewrite (tenths_ge_60 _ _ B24 B45).
    destruct (Z.leb_spec 60 (num s 2 4)) as [Hw|Hw]; [split; reflexivity|].
    pose proof (below_spec _ _ rangeDDMMD_table _ B02) as T1.
    pose proof (below_spec _ _ T1 (num s 2 4) ltac:(lia)) as T2.
    pose proof (below_spec _ _ T2 _ B45) as T3.
    apply andb_prop in T3. exact T3. }
  destruct (Nat.eq_dec (String.length s) 6) as [H6|N6].
  { assert (H : magnitude (parseCoord s) 100 = true
                /\ magnitude (parseCoord s) 181 = true); [|tauto].
    rewrite (parseCoord6_digits s H6 Hs).
    destruct (Atoi_field s 0 2 Hs) as [_ B02]; try lia.
    destruct (Atoi_field s 2 4 Hs) as [_ B24]; try lia.
    destruct (Atoi_field s 4 6 Hs) as [_ B46]; try lia.
    destruct (Atoi_field s 2 6 Hs) as [_ B26]; try lia.
    change (10 ^ Z.of_nat (2 - 0)) with 100 in B02.
    change (10 ^ Z.of_nat (4 - 2)) with 100 in B24.
    change (10 ^ Z.of_nat (6 - 4)) with 100 in B46.
    change (10 ^ Z.of_nat (6 - 2)) with 10000 in B26.
    destruct (Z.ltb_spec (num s 2 4) 60) as [Hw|Hw].
    - destruct (Z.eqb_spec (num s 0 2) 0); [split; reflexivity|].
      pose proof (below_spec _ _ rangeDDMMTT_table _ B02) as T1.
      pose proof (below_spec _ _ T1 (num s 2 4) ltac:(lia)) as T2.
      pose proof (below_spec _ _ T2 _ B46) as T3.
      apply andb_prop in T3. exact T3.
    - destruct (Z.leb_spec (num s 0 2) 90) as [Hd|Hd]; [|split; reflexivity].
      pose proof (rangeDecimal_ok (num s 0 2) (num s 2 6) ltac:(lia) B26) as T.
      unfold rangeDecimal in T. cbv zeta in T.
      destruct (Z.leb_spec (num s 0 2) 90); [|lia].
      apply andb_prop in T. tauto. }
  destruct (Nat.eq_dec (String.length s) 7) as [H7|N7].
  { split; [|tauto].
    rewrite (parseCoord7_digits s H7 Hs).
    destruct (Atoi_field s 0 3 Hs) as [_ B03]; try lia.
    destruct (Atoi_field s 3 7 Hs) as [_ B37]; try lia.
    change (10 ^ Z.of_nat (3 - 0)) with 1000 in B03.
    change (10 ^ Z.of_nat (7 - 3)) with 10000 in B37.
    destruct (Z.leb_spec (num s 0 3) 180) as [Hd|Hd]; [|reflexivity].
    pose proof (rangeDecimal_ok (num s 0 3) (num s 3 7) ltac:(lia) B37) as T.
    unfold rangeDecimal in T. cbv zeta in T.
    apply andb_prop in T. tauto. }
  rewrite parseCoord_dispatch.
  destruct (String.length s) as [|[|[|[|[|[|[|[|n]]]]]]]]; try lia; split; reflexivity.
Qed.

(** X12: on every string of digits [parseCoord] returns a value that is
    not negative and is below 181; below 100 unless the string has seven
    digits. Negating it gives a value above -181, or -100. A latitude
    field is not held to 90 degrees. *)
Theorem parseCoord_range (s : string) :
  allDigits s = true ->
  magnitude (parseCoord s) 181 = true
  /\ (String.length s <> 7%nat -> magnitude (parseCoord s) 100 = true).
Proof. exact (parseCoord_magnitude s). Qed.

Lemma parseCoord_range_witness :
  magnitude (parseCoord "0249275") 181 = true
  /\ magnitude (parseCoord "452140") 100 = true.
Proof.
  split.
  - exact (proj1 (parseCoord_range "0249275" eq_refl)).
  - apply (proj2 (parseCoord_range "452140" eq_refl)). discriminate.
Defined.

Lemma within_signed (dir negative : string) (x hi : float) :
  magnitude x hi = true -> within (signed dir negative x) hi = true.
Proof.
  unfold magnitude, signed. intros H.
  apply andb_prop in H. destruct H as [H Hneg].
  apply andb_prop in H. destruct H as [_ Hpos].
  destruct (String.eqb dir negative); assumption.
Qed.

(** X13: a result of the FST decoder over the formats of [grok.go] has
    a latitude strictly between -100 and 100, a longitude strictly
    between -181 and 181, a sequence of two digits, an origin and a
    destination of four capital letters each, and raw data that is not
    empty. *)
Theorem fstParse_position (msg : Acars.Message) :
  whenSome (fstParse msg) positionReport.
Proof.
  unfold fstParse.
  destruct Formats_compiled as [c [Hc Hshape]].
  destruct (Parse (Patterns.NewCompiler Formats) msg) as [r|] eqn:HP;
    [|exact I].
  cbn [whenSome].
  destruct (String.eqb_spec (Acars.Text msg) "") as [He|Hne].
  { assert (Hn : Parse (Patterns.NewCompiler Formats) msg = None)
      by (apply Parse_None; auto).
    congruence. }
  destruct (Patterns.Parse c (fstText msg)) as [m|] eqn:Hm.
  2:{ assert (Hn : Parse (Patterns.NewCompiler Formats) msg = None).
      { apply Parse_None. right. right. exists c. auto. }
      congruence. }
  destruct (Parse_Some _ msg c m Hne Hc Hm) as [r' [Hr' Hfix]].
  rewrite HP in Hr'. injection Hr' as <-.
  unfold fixedPart in Hfix.
  injection Hfix as _ _ _ Hseq Horg Hdst Hlat Hlon _ Hraw.
  destruct (Hshape _ _ Hm)
    as (Sseq & Sorg & Sdst & _ & _ & Dlat & Dlon & Slen & Srest).
  unfold positionReport.
  rewrite Hseq, Horg, Hdst, Hlat, Hlon, Hraw.
  destruct (parseCoord_magnitude _ Dlat) as [_ Mlat].
  destruct (parseCoord_magnitude _ Dlon) as [Mlon _].
  repeat split; try tauto.
  - apply within_signed. apply Mlat.
    destruct Slen as [(_ & H & _)|[(_ & H & _)|(_ & H & _)]];
      rewrite H; discriminate.
  - apply within_signed. exact Mlon.
Qed.

Lemma search_position (ms : list (option string * Patterns.matcher)) (s : string) :
  forall caps, Patterns.search ms s = Some caps ->
  exists pre suf, s = pre ++ suf /\ Patterns.matchHere ms suf = Some caps.
Proof.
  induction s as [|c s IH]; intros caps; cbn [Patterns.search].
  - destruct (Patterns.matchHere ms "") eqn:Hm; [|discriminate].
    intros H. injection H as <-. exists "", "". auto.
  - destruct (Patterns.matchHere ms (String c s)) eqn:Hm.
    + intros H. injection H as <-. exists "", (String c s). auto.
    + intros H. destruct (IH caps H) as (pre & suf & -> & Hs).
      exists (String c pre), suf. auto.
Qed.

Lemma step_lit (l s t s' : string) :
  Patterns.step (Patterns.MLit l) s = Some (t, s') -> s = l ++ s' /\ t = l.
Proof.
  cbn [Patterns.step]. destruct (String.prefix l s) eqn:Hp; [|discriminate].
  intros H. injection H as <- <-. split; [|reflexivity].
  apply prefix_correct in Hp.
  assert (Hl : (String.length l <= String.length s)%nat).
  { rewrite <- Hp at 1. apply substring_length_le. }
  pose proof (substring_split s (String.length l) Hl) as Hs.
  rewrite Hp in Hs. exact Hs.
Qed.

Lemma step_class_text p n s t s' :
  Patterns.step (Patterns.MClass p n) s = Some (t, s') -> s = t ++ s'.
Proof.
  cbn [Patterns.step]. cbv zeta.
  destruct (Nat.eqb_spec (String.length (substring 0 n s)) n) as [Hl|]; [|discriminate].
  destruct (Patterns.all p (substring 0 n s)); [|discriminate].
  cbn [andb]. intros H. injection H as <- <-.
  apply substring_split. pose proof (substring_length_le s 0 n). lia.
Qed.

Lemma matchHere_header_text (a b : nat) (ms : list (option string * Patterns.matcher)) :
  Patterns.compilePattern (header a b) = Some ms ->
  forall s caps, Patterns.matchHere ms s = Some caps ->
  exists tail, s = "FST" ++ Patterns.lookup caps "seq" ++ tail.
Proof.
  cbn. intros H. injection H as <-. intros s caps.
  cbn [Patterns.matchHere].
  destruct (Patterns.step (Patterns.MLit "FST") s) as [[t0 s0]|] eqn:H0; [|discriminate].
  destruct (Patterns.step _ s0) as [[t1 s1]|] eqn:H1; [|discriminate].
  destruct (Patterns.step _ s1) as [[t2 s2]|]; [|discriminate].
  destruct (Patterns.step _ s2) as [[t3 s3]|]; [|discriminate].
  destruct (Patterns.step _ s3) as [[t4 s4]|]; [|discriminate].
  destruct (Patterns.step _ s4) as [[t5 s5]|]; [|discriminate].
  destruct (Patterns.step _ s5) as [[t6 s6]|]; [|discriminate].
  destruct (Patterns.step _ s6) as [[t7 s7]|]; [|discriminate].
  destruct (Patterns.step _ s7) as [[t8 s8]|]; [|discriminate].
  intros H. injection H as <-.
  apply step_lit in H0. destruct H0 as [-> _].
  apply step_class_text in H1. subst s0.
  exists s1. reflexivity.
Qed.

(** A match of the formats of [grok.go] lies on "FST" and the sequence
    capture. *)
Lemma Formats_anchor :
  exists c,
    Patterns.NewCompiler Formats = Some c
    /\ forall text m, Patterns.Parse c text = Some m ->
       exists pre tail, text = pre ++ "FST" ++ Patterns.capture m "seq" ++ tail.
Proof.
  unfold Patterns.NewCompiler, Formats.
  cbn [Patterns.compileFormats Patterns.Pattern Patterns.Name].
  destruct (Patterns.compilePattern (header 6 7)) as [m7|] eqn:H7; [|discriminate H7].
  destruct (Patterns.compilePattern (header 6 6)) as [m6|] eqn:H6; [|discriminate H6].
  destruct (Patterns.compilePattern (header 5 5)) as [m5|] eqn:H5; [|discriminate H5].
  eexists. split; [reflexivity|].
  intros text m. cbn [Patterns.Parse Patterns.parseFirst].
  assert (Hone : forall a b ms name caps,
            Patterns.compilePattern (header a b) = Some ms ->
            Patterns.search ms text = Some caps ->
            exists pre tail,
              text = pre ++ "FST"
                     ++ Patterns.capture (Patterns.mkMatch name caps) "seq" ++ tail).
  { intros a b ms name caps Hc Hs.
    destruct (search_position ms text caps Hs) as (pre & suf & -> & Hm).
    destruct (matchHere_header_text a b ms Hc suf caps Hm) as [tail ->].
    exists pre, tail. reflexivity. }
  destruct (Patterns.search m7 text) as [caps|] eqn:S7.
  { intros H. injection H as <-. exact (Hone 6%nat 7%nat m7 _ caps H7 S7). }
  destruct (Patterns.search m6 text) as [caps|] eqn:S6.
  { intros H. injection H as <-. exact (Hone 6%nat 6%nat m6 _ caps H6 S6). }
  destruct (Patterns.search m5 text) as [caps|] eqn:S5; [|discriminate].
  intros H. injection H as <-. exact (Hone 5%nat 5%nat m5 _ caps H5 S5).
Qed.

Lemma fstText_suffix (msg : Acars.Message) :
  exists pre, TrimSpace (Acars.Text msg) = pre ++ fstText msg.
Proof.
  unfold fstText. set (text := TrimSpace (Acars.Text msg)).
  destruct (Z.ltb_spec 0 (Index text "FST")) as [Hpos|_];
    [|exists ""; reflexivity].
  unfold Index in *.
  destruct (String.index 0 "FST" text) as [n|] eqn:Hidx; [|lia].
  rewrite Nat2Z.id. exists (substring 0 n text).
  apply substring_split.
  pose proof (index_correct1 _ _ _ _ Hidx) as Hsub.
  destruct (Nat.le_gt_cases n (String.length text)) as [Hle|Hgt];
    [exact Hle|].
  exfalso. clear - Hsub Hgt. revert n Hsub Hgt.
  induction text as [|c t IH]; intros n Hsub Hgt.
  - destruct n; cbn in Hsub; discriminate.
  - destruct n as [|n]; cbn [String.length] in Hgt; [lia|].
    cbn [substring] in Hsub. apply (IH n Hsub). lia.
Qed.

(** X19: [QuickCheck] lets through what the decoder decodes with
    sequence 01 or 02. When the FST decoder over the formats of
    [grok.go] returns a result whose sequence is 01 or 02, the body of
    the message contains FST01 or FST02 and [QuickCheck] is true of
    it, whatever precedes "FST" in the body. *)
Theorem QuickCheck_admits (msg : Acars.Message) :
  whenSome (fstParse msg)
    (fun r => Sequence r = "01" \/ Sequence r = "02" ->
              QuickCheck (Acars.Text msg) = true).
Proof.
  unfold fstParse.
  destruct Formats_anchor as [c [Hc Hanchor]].
  destruct (Parse (Patterns.NewCompiler Formats) msg) as [r|] eqn:HP;
    [|exact I].
  cbn [whenSome]. intros Hseq.
  destruct (String.eqb_spec (Acars.Text msg) "") as [He|Hne].
  { assert (Hn : Parse (Patterns.NewCompiler Formats) msg = None)
      by (apply Parse_None; auto).
    congruence. }
  destruct (Patterns.Parse c (fstText msg)) as [m|] eqn:Hm.
  2:{ assert (Hn : Parse (Patterns.NewCompiler Formats) msg = None).
      { apply Parse_None. right. right. exists c. auto. }
      congruence. }
  destruct (Parse_Some _ msg c m Hne Hc Hm) as [r' [Hr' Hfix]].
  rewrite HP in Hr'. injection Hr' as <-.
  unfold fixedPart in Hfix. injection Hfix as _ _ _ Hs _ _ _ _ _ _.
  destruct (Hanchor _ _ Hm) as (pre & tail & Htext).
  destruct (fstText_suffix msg) as [pre' Hsuf].
  destruct (TrimSpace_infix (Acars.Text msg)) as (a & b & Hall).
  rewrite Hsuf, Htext, <- Hs in Hall.
  unfold QuickCheck.
  assert (Hform : forall q, Sequence r = q ->
            Acars.Text msg = (a ++ pre' ++ pre) ++ ("FST" ++ q) ++ (tail ++ b)).
  { intros q Hq. rewrite Hall, Hq. rewrite !app_assoc_s. reflexivity. }
  destruct Hseq as [H1|H2].
  - rewrite (Hform _ H1) at 2.
    rewrite Contains_infix by discriminate.
    rewrite orb_true_r. reflexivity.
  - rewrite (Hform _ H2) at 3.
    rewrite Contains_infix by discriminate.
    apply orb_true_r.
Qed.

End FstParse.

(* ================================================================== *)
(** ** Label 80: times, flight numbers and the wind direction          *)
(* ================================================================== *)

Section Label80Tokens.

Import Go Digits Label80 Stated Derived.

Variable GetName : string -> string.
Variable ParseDecimalCoord : string -> string -> float.


Lemma formatHHMM_cases (s : string) :
  formatHHMM s = ""
  \/ exists hh mm h m,
       formatHHMM s = hh ++ ":" ++ mm
       /\ String.length hh = 2%nat /\ String.length mm = 2%nat
       /\ Atoi hh = Some h /\ Atoi mm = Some m
       /\ 0 <= h <= 23 /\ 0 <= m <= 59
       /\ (TrimSpace s = hh ++ mm \/ "0" ++ TrimSpace s = hh ++ mm).
Proof.
  unfold formatHHMM.
  set (t := TrimSpace s).
  destruct (String.eqb t ""); [left; reflexivity|].
  cbv zeta.
  set (p := if len t =? 3 then "0" ++ t else t).
  assert (Hp : TrimSpace s = p \/ "0" ++ TrimSpace s = p).
  { subst p. fold t. destruct (len t =? 3); auto. }
  clearbody p.
  unfold len. destruct (Z.eqb_spec (Z.of_nat (String.length p)) 4) as [H4|]; [|left; reflexivity].
  cbn [negb].
  destruct (Atoi (slice p 0 2)) as [h|] eqn:Hh; [|left; reflexivity].
  destruct (Atoi (sliceFrom p 2)) as [m|] eqn:Hm; [|left; reflexivity].
  destruct (Z.ltb_spec h 0); [left; reflexivity|].
  destruct (Z.ltb_spec 23 h); [left; reflexivity|].
  destruct (Z.ltb_spec m 0); [left; reflexivity|].
  destruct (Z.ltb_spec 59 m); [left; reflexivity|].
  cbn [orb]. right.
  exists (slice p 0 2), (sliceFrom p 2), h, m.
  assert (Hl : String.length p = 4%nat) by lia.
  split; [reflexivity|].
  split; [unfold slice; apply substring_length; lia|].
  split; [unfold sliceFrom; rewrite Hl; apply substring_length; lia|].
  repeat split; try assumption; try lia.
  assert (Hs : p = slice p 0 2 ++ sliceFrom p 2).
  { unfold slice, sliceFrom. apply (substring_split p 2). lia. }
  rewrite <- Hs. exact Hp.
Qed.

(** X15: [formatHHMM] returns the empty string or a time HH:MM. A
    result that is not empty is two characters, a colon and two
    characters, which [strconv.Atoi] reads as an hour from 0 to 23 and
    a minute from 0 to 59, and which are together the trimmed argument,
    or the trimmed argument after a leading 0. *)
Theorem formatHHMM_shape (s : string) :
  formatHHMM s = ""
  \/ exists hh mm h m,
       formatHHMM s = hh ++ ":" ++ mm
       /\ String.length hh = 2%nat /\ String.length mm = 2%nat
       /\ Atoi hh = Some h /\ Atoi mm = Some m
       /\ 0 <= h <= 23 /\ 0 <= m <= 59
       /\ (TrimSpace s = hh ++ mm \/ "0" ++ TrimSpace s = hh ++ mm).
Proof. exact (formatHHMM_cases s). Qed.

(** X16: [formatHHMM] on digits. Four digits give HH:MM when the first
    two are at most 23 and the last two at most 59, and the empty string
    otherwise; three digits give 0H:MM when the last two are at most 59;
    any other number of digits gives the empty string. *)
Theorem formatHHMM_digits (s : string) :
  allDigits s = true ->
  (String.length s = 4%nat ->
   formatHHMM s =
     if (num s 0 2 <=? 23) && (num s 2 4 <=? 59)
     then slice s 0 2 ++ ":" ++ slice s 2 4 else "")
  /\ (String.length s = 3%nat ->
      formatHHMM s =
        if num s 1 3 <=? 59
        then "0" ++ slice s 0 1 ++ ":" ++ slice s 1 3 else "")
  /\ (String.length s <> 3%nat -> String.length s <> 4%nat ->
      formatHHMM s = "").
Proof.
  intros Hs.
  unfold formatHHMM. rewrite (TrimSpace_digits s Hs). cbv zeta. unfold len.
  split; [|split].
  - intros H4.
    destruct (String.eqb_spec s "") as [->|_]; [discriminate|].
    assert (E3 : (Z.of_nat (String.length s) =? 3) = false)
      by (rewrite H4; reflexivity).
    assert (E4 : (Z.of_nat (String.length s) =? 4) = true)
      by (rewrite H4; reflexivity).
    rewrite E3, E4. cbn [negb].
    destruct (Atoi_field s 0 2 Hs) as [A02 B02]; try lia.
    destruct (Atoi_field s 2 4 Hs) as [A24 B24]; try lia.
    change (10 ^ Z.of_nat (2 - 0)) with 100 in B02.
    change (10 ^ Z.of_nat (4 - 2)) with 100 in B24.
    assert (Hm : sliceFrom s 2 = slice s 2 4).
    { unfold sliceFrom, slice. rewrite H4. reflexivity. }
    rewrite Hm, A02, A24.
    destruct (Z.ltb_spec (num s 0 2) 0); [lia|].
    destruct (Z.ltb_spec (num s 2 4) 0); [lia|].
    destruct (Z.ltb_spec 23 (num s 0 2)), (Z.leb_spec (num s 0 2) 23); try lia;
      cbn [orb andb]; [reflexivity|].
    destruct (Z.ltb_spec 59 (num s 2 4)), (Z.leb_spec (num s 2 4) 59); try lia;
      reflexivity.
  - intros H3.
    destruct (String.eqb_spec s "") as [->|_]; [discriminate|].
    destruct s as [|a [|b [|c [|? ?]]]]; try discriminate.
    unfold allDigits in Hs. cbn [Patterns.all] in Hs.
    apply andb_prop in Hs. destruct Hs as [Ha Hs].
    apply andb_prop in Hs. destruct Hs as [Hb Hs].
    apply andb_prop in Hs. destruct Hs as [Hc _].
    cbn [String.append String.length Z.of_nat Z.eqb Pos.of_succ_nat Pos.succ Pos.eqb negb].
    change (slice (String "0" (String a (String b (String c "")))) 0 2)
      with (String "0" (String a "")).
    change (sliceFrom (String "0" (String a (String b (String c "")))) 2)
      with (String b (String c "")).
    change (slice (String a (String b (String c ""))) 0 1) with (String a "").
    change (slice (String a (String b (String c ""))) 1 3) with (String b (String c "")).
    unfold num.
    change (slice (String a (String b (String c ""))) 1 3) with (String b (String c "")).
    assert (Hh : allDigits (String "0" (String a "")) = true).
    { unfold allDigits. cbn [Patterns.all]. rewrite Ha. reflexivity. }
    assert (Hmm : allDigits (String b (String c "")) = true).
    { unfold allDigits. cbn [Patterns.all]. rewrite Hb, Hc. reflexivity. }
    rewrite (Atoi_digits (String "0" (String a "")))
      by (try discriminate; try exact Hh; cbn; lia).
    rewrite (Atoi_digits (String b (String c "")))
      by (try discriminate; try exact Hmm; cbn; lia).
    pose proof (valueFrom_bounds _ Hh 0 ltac:(lia)) as Bh.
    pose proof (valueFrom_bounds _ Hmm 0 ltac:(lia)) as Bm.
    change (10 ^ Z.of_nat (String.length (String "0" (String a "")))) with 100 in Bh.
    change (10 ^ Z.of_nat (String.length (String b (String c "")))) with 100 in Bm.
    assert (Hh9 : valueFrom 0 (String "0" (String a "")) <= 9).
    { cbn [valueFrom]. apply isDigit_byte in Ha. change (byte "0") with 48. lia. }
    destruct (Z.ltb_spec (valueFrom 0 (String "0" (String a ""))) 0); [lia|].
    destruct (Z.ltb_spec 23 (valueFrom 0 (String "0" (String a "")))); [lia|].
    destruct (Z.ltb_spec (valueFrom 0 (String b (String c ""))) 0); [lia|].
    cbn [orb].
    destruct (Z.ltb_spec 59 (valueFrom 0 (String b (String c "")))),
             (Z.leb_spec (valueFrom 0 (String b (String c ""))) 59); try lia;
      reflexivity.
  - intros N3 N4.
    destruct (String.eqb s ""); [reflexivity|].
    destruct (Z.eqb_spec (Z.of_nat (String.length s)) 3); [lia|].
    destruct (Z.eqb_spec (Z.of_nat (String.length s)) 4); [lia|].
    reflexivity.
Qed.

Lemma formatHHMM_digits_witness :
  formatHHMM "1037" = "10:37" /\ formatHHMM "937" = "09:37"
  /\ formatHHMM "10370" = "".
Proof.
  destruct (formatHHMM_digits "1037" eq_refl) as [H4 _].
  destruct (formatHHMM_digits "937" eq_refl) as [_ [H3 _]].
  destruct (formatHHMM_digits "10370" eq_refl) as [_ [_ H5]].
  split; [exact (H4 eq_refl)|].
  split; [exact (H3 eq_refl)|].
  apply H5; discriminate.
Defined.






Lemma span_spec (p : ascii -> bool) (s : string) :
  forall a b, span p s = (a, b) ->
  s = a ++ b /\ Patterns.all p a = true.
Proof.
  induction s as [|c s IH]; intros a b; cbn [span].
  - intros H. injection H as <- <-. auto.
  - destruct (p c) eqn:Hc.
    + destruct (span p s) as [a' b'] eqn:Hs.
      intros H. injection H as <- <-.
      destruct (IH a' b' eq_refl) as [-> Ha].
      cbn. rewrite Hc, Ha. auto.
    + intros H. injection H as <- <-. auto.
Qed.

Lemma span_app (p : ascii -> bool) (a b : string) :
  Patterns.all p a = true -> stops p b -> span p (a ++ b) = (a, b).
Proof.
  induction a as [|c a IH]; cbn [String.append Patterns.all span]; intros Ha Hb.
  - destruct b as [|c b]; [reflexivity|]. cbn [span]. cbn in Hb.
    rewrite Hb. reflexivity.
  - apply andb_prop in Ha. destruct Ha as [Hc Ha].
    rewrite Hc, (IH Ha Hb). reflexivity.
Qed.

Lemma index_slash (s : string) :
  Patterns.all alnum s = true -> forall n, String.index n "/" s = None.
Proof.
  induction s as [|c s IH]; intros H n.
  - destruct n; reflexivity.
  - cbn [Patterns.all] in H. apply andb_prop in H. destruct H as [Hc Hs].
    destruct n as [|n]; cbn [String.index].
    + assert (Hp : String.prefix "/" (String c s) = false).
      { cbn [String.prefix]. destruct (ascii_dec "/" c) as [<-|]; [|reflexivity].
        vm_compute in Hc. discriminate. }
      rewrite Hp, (IH Hs 0%nat). reflexivity.
    + rewrite (IH Hs n). reflexivity.
Qed.

Lemma Contains_slash (s : string) :
  Patterns.all alnum s = true -> Contains s "/" = false.
Proof.
  intros H. unfold Contains, Index. rewrite (index_slash s H). reflexivity.
Qed.

Lemma between_spec lo hi s :
  between lo hi s = true <-> (lo <= String.length s <= hi)%nat.
Proof.
  unfold between. rewrite andb_true_iff, !Nat.leb_le. tauto.
Qed.

Lemma flightToken_alnum (t : string) :
  flightToken t -> t <> "" /\ Patterns.all alnum t = true.
Proof.
  intros (letters & ds & suffix & -> & Hl & Hd & Hs & Hn & _). split.
  - intros H. apply (f_equal String.length) in H.
    rewrite !string_app_length in H. cbn in H. lia.
  - rewrite !all_app.
    rewrite (all_weaken Patterns.isUpper alnum letters), (all_weaken Patterns.isDigit alnum ds),
      (all_weaken Patterns.isUpper alnum suffix); auto;
      intros c Hc; unfold alnum; rewrite Hc; auto using orb_true_r.
Qed.

(** X18: the tokens [isLikelyFlight] accepts. It returns true exactly
    when its argument, trimmed, is one to four digits, or two or three
    capital letters, one to four digits and at most one capital letter.
    The tests for an empty token and for a slash reject nothing the two
    patterns accept. *)
Theorem isLikelyFlight_language (s : string) :
  isLikelyFlight s = true <-> flightToken (TrimSpace s).
Proof.
  unfold isLikelyFlight. set (t := TrimSpace s). clearbody t. split.
  - destruct (String.eqb t ""); [discriminate|].
    destruct (Contains t "/"); [discriminate|].
    destruct (flightPattern t) eqn:Hf.
    + intros _. unfold flightPattern in Hf.
      destruct (span Patterns.isUpper t) as [letters s1] eqn:H1.
      destruct (span Patterns.isDigit s1) as [ds s2] eqn:H2.
      apply span_spec in H1, H2. destruct H1 as [-> Hl], H2 as [-> Hd].
      apply andb_prop in Hf. destruct Hf as [Hf Hs2].
      apply andb_prop in Hf. destruct Hf as [Hf Hb2].
      apply andb_prop in Hf. destruct Hf as [Hbl Hbd].
      apply between_spec in Hbl, Hbd, Hb2.
      exists letters, ds, s2.
      split; [reflexivity|]. repeat (split; [assumption|]).
      right. lia.
    + intros Hd. unfold digitsPattern in Hd.
      apply andb_prop in Hd. destruct Hd as [Hb Hd]. apply between_spec in Hb.
      exists "", t, "". rewrite append_nil_r.
      repeat split; try assumption; try lia; auto.
  - intros Ht. destruct (flightToken_alnum t Ht) as [Hne Hal].
    destruct (String.eqb_spec t ""); [contradiction|].
    rewrite (Contains_slash t Hal).
    destruct (flightPattern t) eqn:Hf; [reflexivity|].
    destruct Ht as (letters & ds & suffix & -> & Hl & Hd & Hs & Hn & Hcase).
    assert (Hds : stops Patterns.isUpper (ds ++ suffix)).
    { destruct ds as [|c ds]; [cbn in Hn; lia|]. cbn in Hd |- *.
      apply andb_prop in Hd. apply digit_not_upper. tauto. }
    assert (Hsf : stops Patterns.isDigit suffix).
    { destruct suffix as [|c suffix]; [exact I|]. cbn in Hs |- *.
      apply andb_prop in Hs. apply upper_not_digit. tauto. }
    destruct Hcase as [[-> ->]|[Hll Hsl]].
    + cbn [String.append]. rewrite append_nil_r.
      unfold digitsPattern. rewrite Hd, andb_true_r.
      apply between_spec. lia.
    + exfalso. unfold flightPattern in Hf.
      rewrite (span_app _ _ _ Hl Hds), (span_app _ _ _ Hd Hsf) in Hf.
      rewrite Hs, andb_true_r in Hf.
      assert (B1 : between 2 3 letters = true) by (apply between_spec; lia).
      assert (B2 : between 1 4 ds = true) by (apply between_spec; lia).
      assert (B3 : between 0 1 suffix = true) by (apply between_spec; lia).
      rewrite B1, B2, B3 in Hf. discriminate.
Qed.

Lemma applyMatch_speeds (st : Result * bool) (m : Patterns.Match) :
  WindSpeedKmh (fst st) = knotsToKmh (WindSpeedKts (fst st)) ->
  WindSpeedKmh (fst (applyMatch GetName ParseDecimalCoord st m))
  = knotsToKmh (WindSpeedKts (fst (applyMatch GetName ParseDecimalCoord st m))).
Proof.
  destruct st as [result found]. cbn [fst]. intros H.
  unfold applyMatch, resolveNames. branches; cbn; auto.
Qed.

(** X20: the two wind speeds of a result of the Label 80 decoder always
    agree: the speed in km/h is [(kts*1852 + 500) / 1000] of the speed
    in knots of the same result, in [int] arithmetic, also when no wind
    was decoded or several wind matches were. *)
Theorem Label80_wind_speeds (gc : option Patterns.Compiler) (msg : Acars.Message) :
  whenSome (Parse GetName ParseDecimalCoord gc msg)
    (fun r => WindSpeedKmh r = knotsToKmh (WindSpeedKts r)).
Proof.
  unfold Parse.
  destruct (String.eqb (Acars.Text msg) ""); [exact I|].
  destruct gc as [compiler|]; [|exact I].
  assert (H : let st := fold_left (applyMatch GetName ParseDecimalCoord)
                          (Patterns.ParseAll compiler (TrimSpace (Acars.Text msg))) (newResult msg, false) in
              WindSpeedKmh (fst st) = knotsToKmh (WindSpeedKts (fst st))).
  { apply (fold_left_invariant
             (fun st => WindSpeedKmh (fst st) = knotsToKmh (WindSpeedKts (fst st)))).
    - intros st m. apply applyMatch_speeds.
    - reflexivity. }
  cbv zeta in H.
  destruct (fold_left _ _ _) as [result found]. cbn [fst] in H.
  destruct found; cbn [negb whenSome]; [exact H|exact I].
Qed.

Lemma resolveNames_named (r : Result) : named GetName (resolveNames GetName r).
Proof.
  unfold named, resolveNames.
  destruct (String.eqb_spec (OriginICAO r) "") as [Ho|Ho]; cbn [negb].
  - destruct (String.eqb_spec (DestICAO r) "") as [Hd|Hd]; cbn;
      split; intros H; try contradiction; reflexivity.
  - change (DestICAO (setOriginName (GetName (OriginICAO r)) r))
      with (DestICAO r).
    destruct (String.eqb_spec (DestICAO r) "") as [Hd|Hd]; cbn;
      split; intros H; try contradiction; reflexivity.
Qed.

Lemma applyMatch_named (st : Result * bool) (m : Patterns.Match) :
  named GetName (fst st) ->
  named GetName (fst (applyMatch GetName ParseDecimalCoord st m)).
Proof.
  destruct st as [result found]. cbn [fst]. intros H.
  unfold applyMatch.
  destruct (String.eqb (Patterns.FormatName m) "header_format").
  { cbn [fst].
    match goal with
    | |- named _ (if _ then setFlightNum ?t ?r else ?r) =>
        assert (Hr : named GetName r) by apply resolveNames_named;
        destruct (isLikelyFlight _); [|exact Hr]; exact Hr
    end. }
  destruct (String.eqb (Patterns.FormatName m) "alt_format").
  { destruct found; cbn [negb fst]; [exact H|apply resolveNames_named]. }
  branches; cbn [fst]; exact H.
Qed.

(** X21: a result of the Label 80 decoder whose origin is not empty
    carries the name the airport table gives for that origin, and one
    whose destination is not empty the name for that destination. With
    an empty origin or destination nothing is said: the name is not
    reset and can be that of an earlier match. *)
Theorem Label80_names (gc : option Patterns.Compiler) (msg : Acars.Message) :
  whenSome (Parse GetName ParseDecimalCoord gc msg) (named GetName).
Proof.
  unfold Parse.
  destruct (String.eqb (Acars.Text msg) ""); [exact I|].
  destruct gc as [compiler|]; [|exact I].
  assert (H : let st := fold_left (applyMatch GetName ParseDecimalCoord)
                          (Patterns.ParseAll compiler (TrimSpace (Acars.Text msg))) (newResult msg, false) in
              named GetName (fst st)).
  { apply (fold_left_invariant (fun st => named GetName (fst st))).
    - intros st m. apply applyMatch_named.
    - split; intros H; exfalso; apply H; reflexivity. }
  cbv zeta in H.
  destruct (fold_left _ _ _) as [result found]. cbn [fst] in H.
  destruct found; cbn [negb whenSome]; [exact H|exact I].
Qed.

End Label80Tokens.
